(** * School-ERP: the session-scoped record engine of [school_erp.py]

    A shallow embedding of the parts of [school_erp.py] that allocate
    identifiers, save students, staff, attendance and fee records, compute
    attendance figures, list unpaid fees, put an amount in words, keep the
    settings (school information, saved login, last session), export a
    backup document and restore one, together with the SQLite and Python
    behaviour those parts rely on.

    Conventions.
    - A Python [str] is a Rocq [string]; one [ascii] stands for one code
      point below 256.
    - A Python [int] is a [Z].  A Python [float] (and an SQLite REAL) is
      modelled by the exact rational it approximates, a [Q]; the binary64
      evaluation of the attendance formula is compared with the exact one
      on the whole range of the two spin boxes in
      [LedgerFacts.binary64_agrees].
    - A row fetched from SQLite is the Python tuple [s], a [list value]
      whose element 0 is the surrogate [id].  A table is the list of its
      rows in the order a SELECT without ORDER BY returns them, with the
      AUTOINCREMENT counter; ids are unbounded.
    - An operation that writes through one connection and commits at its
      end is a function from the database before to the database after;
      when an exception ends it before the commit, the tables are those
      of the database before.
    - A function that can raise returns [exn + A]; the bare
      [try: ... except: pass] of the restore loops turns [inl] into
      "nothing done for this entry".

    The file has two parts: the definitions (modules [PyStr], [Exn],
    [Sqlite], [Py], [DatabaseManager], [Ledger], [MainWindow],
    [LoginWindow], [Scenario]) and the facts proved of them (the modules
    named [...Facts]). *)

From Stdlib Require Import ZArith QArith Qround Bool List FinFun Lia Lqa.
From Stdlib Require Import Ascii String DecimalString DecimalPos.
From Stdlib Require Import PrimFloat Uint63.
Import ListNotations.

Set Implicit Arguments.

(* ================================================================== *)
(** ** Python strings and integers *)
(* ================================================================== *)

Module PyStr.

Local Open Scope string_scope.
Local Open Scope Z_scope.

(** [str(n)] for an [int]. *)
Definition str (n : Z) : string := NilZero.string_of_int (Z.to_int n).

Fixpoint zeros (n : nat) : string :=
  match n with
  | O => ""
  | S k => String "0" (zeros k)
  end.

Definition is_sign (c : ascii) : bool :=
  Ascii.eqb c "+" || Ascii.eqb c "-".

(** [s.zfill(width)]: zeros are put on the left up to [width], after a
    leading sign when there is one. *)
Definition zfill (width : nat) (s : string) : string :=
  let fill := (width - String.length s)%nat in
  match s with
  | String c rest =>
      if is_sign c then String c (zeros fill ++ rest) else zeros fill ++ s
  | EmptyString => zeros fill
  end.

(** [s[n:]] *)
Fixpoint slice_from (n : nat) (s : string) : string :=
  match n, s with
  | O, _ => s
  | S k, String _ rest => slice_from k rest
  | S _, EmptyString => ""
  end.

Definition code (c : ascii) : Z := Z.of_nat (nat_of_ascii c).

Definition digit_of (c : ascii) : option Z :=
  let n := code c in
  if (48 <=? n) && (n <=? 57) then Some (n - 48) else None.

(** The white space [int()] strips: TAB..CR, FS..US, SPACE, NEL, NBSP. *)
Definition is_py_space (c : ascii) : bool :=
  let n := code c in
  ((9 <=? n) && (n <=? 13)) || ((28 <=? n) && (n <=? 32))
  || (n =? 133) || (n =? 160).

Fixpoint drop_while (f : ascii -> bool) (l : list ascii) : list ascii :=
  match l with
  | [] => []
  | c :: r => if f c then drop_while f r else l
  end.

Definition strip (l : list ascii) : list ascii :=
  rev (drop_while is_py_space (rev (drop_while is_py_space l))).

(** Decimal digits with single underscores between them, as [int()]
    accepts them; [after_digit] says whether the previous character was a
    digit. *)
Fixpoint int_digits (after_digit : bool) (acc : Z) (l : list ascii) : option Z :=
  match l with
  | [] => if after_digit then Some acc else None
  | c :: r =>
      match digit_of c with
      | Some d => int_digits true (10 * acc + d) r
      | None =>
          if Ascii.eqb c "_" && after_digit then int_digits false acc r
          else None
      end
  end.

(** [int(s)] for a [str]; [None] stands for [ValueError]. *)
Definition int (s : string) : option Z :=
  match strip (list_ascii_of_string s) with
  | c :: r =>
      if Ascii.eqb c "-" then option_map Z.opp (int_digits false 0 r)
      else if Ascii.eqb c "+" then int_digits false 0 r
      else int_digits false 0 (c :: r)
  | [] => None
  end.

End PyStr.

(* ================================================================== *)
(** ** Exceptions *)
(* ================================================================== *)

Module Exn.

(** The exceptions that can reach the program. *)
Inductive exn :=
| KeyError (key : string)
| TypeError
| AttributeError
| ValueError
| OverflowError
| OSError
| JSONDecodeError
| IntegrityError
| OperationalError (msg : string)
| ProgrammingError.

Definition ret {A : Type} (a : A) : exn + A := inr a.

Definition bind {A B : Type} (m : exn + A) (k : A -> exn + B) : exn + B :=
  match m with
  | inl e => inl e
  | inr a => k a
  end.

Declare Scope exn_scope.
Delimit Scope exn_scope with exn.
Notation "x <- m ;; k" := (bind m (fun x => k))
  (at level 61, m at next level, right associativity) : exn_scope.
Local Open Scope exn_scope.

(** Evaluates the elements from left to right; the first exception wins. *)
Fixpoint sequence {A : Type} (l : list (exn + A)) : exn + list A :=
  match l with
  | [] => ret []
  | m :: r => a <- m ;; s <- sequence r ;; ret (a :: s)
  end.

End Exn.

(* ================================================================== *)
(** ** SQLite: values, tables and the statements the program issues *)
(* ================================================================== *)

Module Sqlite.

Export Exn.
Local Open Scope string_scope.
Local Open Scope Z_scope.
Local Open Scope exn_scope.

(** A cell: NULL, INTEGER, REAL or TEXT.  Cells are kept in the storage
    class they were bound with; the coercion SQLite applies when a value
    of another class is bound into a typed column is not modelled. *)
Inductive value :=
| VNull
| VInt (n : Z)
| VReal (x : Q)
| VText (s : string).

(** [a = b] in a WHERE clause and in a UNIQUE check: NULL equals nothing,
    numbers compare by value, text byte by byte. *)
Definition sql_eq (a b : value) : bool :=
  match a, b with
  | VInt x, VInt y => x =? y
  | VReal x, VReal y => Qeq_bool x y
  | VInt x, VReal y => Qeq_bool (inject_Z x) y
  | VReal x, VInt y => Qeq_bool x (inject_Z y)
  | VText s, VText t => String.eqb s t
  | _, _ => false
  end.

(** *** LIKE *)

Definition upper (c : ascii) : ascii :=
  let n := nat_of_ascii c in
  if (97 <=? n)%nat && (n <=? 122)%nat then ascii_of_nat (n - 32) else c.

(** [s LIKE p]: [%] matches any run of characters, [_] one character,
    ASCII letters match without regard to case. *)
Fixpoint like_chars (p : list ascii) : list ascii -> bool :=
  match p with
  | [] => fun s => match s with [] => true | _ => false end
  | c :: p' =>
      if Ascii.eqb c "%" then
        fix any (s : list ascii) : bool :=
          like_chars p' s
          || match s with [] => false | _ :: s' => any s' end
      else if Ascii.eqb c "_" then
        fun s => match s with [] => false | _ :: s' => like_chars p' s' end
      else
        fun s =>
          match s with
          | [] => false
          | d :: s' => Ascii.eqb (upper c) (upper d) && like_chars p' s'
          end
  end.

Definition like (v : value) (pattern : string) : bool :=
  match v with
  | VText s => like_chars (list_ascii_of_string pattern) (list_ascii_of_string s)
  | _ => false
  end.

(** *** CAST(text AS INTEGER) *)

Definition is_sql_space (c : ascii) : bool :=
  let n := PyStr.code c in
  ((9 <=? n) && (n <=? 13)) || (n =? 32).

Fixpoint leading_digits (acc : Z) (l : list ascii) : Z :=
  match l with
  | [] => acc
  | c :: r =>
      match PyStr.digit_of c with
      | Some d => leading_digits (10 * acc + d) r
      | None => acc
      end
  end.

Definition int64_max : Z := 9223372036854775807.
Definition int64_min : Z := -9223372036854775808.

Definition clamp64 (n : Z) : Z := Z.max int64_min (Z.min int64_max n).

(** The longest integer prefix of the text after leading white space, 0
    when there is none, saturated at the ends of the 64-bit range. *)
Definition cast_integer (s : string) : Z :=
  match PyStr.drop_while is_sql_space (list_ascii_of_string s) with
  | c :: r =>
      if Ascii.eqb c "-" then clamp64 (- leading_digits 0 r)
      else if Ascii.eqb c "+" then clamp64 (leading_digits 0 r)
      else clamp64 (leading_digits 0 (c :: r))
  | [] => 0
  end.

(** *** Tables *)

(** A fetched row is the tuple [s]: [s[0]] is the [id], the declared
    columns follow. *)
Definition row := list value.

Definition col (k : nat) (s : row) : value := nth k s VNull.

(** A table with [id INTEGER PRIMARY KEY AUTOINCREMENT]: its rows in
    retrieval order, and the largest [id] ever handed out (the table's
    entry in [sqlite_sequence]). *)
Record table := { rows : list row; last_rowid : Z }.

Definition empty_table : table := {| rows := []; last_rowid := 0 |}.

Record table_def := {
  table_name : string;
  columns : list string;       (* the declared columns after [id] *)
  unique_columns : list string (* those declared UNIQUE *)
}.

Fixpoint index_of (name : string) (names : list string) : option nat :=
  match names with
  | [] => None
  | n :: r => if String.eqb n name then Some O else option_map S (index_of name r)
  end.

Definition rowid (s : row) : Z :=
  match s with
  | VInt i :: _ => i
  | _ => 0
  end.

Definition max_rowid (l : list row) : Z :=
  fold_right (fun s m => Z.max (rowid s) m) 0 l.

Definition next_rowid (t : table) : Z := Z.max (last_rowid t) (max_rowid (rows t)) + 1.

(** [SELECT * FROM t WHERE ...] *)
Definition select (p : row -> bool) (t : table) : list row := filter p (rows t).

(** [SELECT COUNT( * ) FROM t] *)
Definition count (t : table) : Z := Z.of_nat (List.length (rows t)).

(** [DELETE FROM t]: the sequence is kept. *)
Definition delete_all (t : table) : table := {| rows := []; last_rowid := last_rowid t |}.

(** [DELETE FROM t WHERE ...] *)
Definition delete_where (p : row -> bool) (t : table) : table :=
  {| rows := filter (fun s => negb (p s)) (rows t); last_rowid := last_rowid t |}.

Fixpoint set_nth (k : nat) (v : value) (s : row) : row :=
  match k, s with
  | _, [] => []
  | O, _ :: r => v :: r
  | S k', x :: r => x :: set_nth k' v r
  end.

(** [UPDATE t SET c1 = v1, ... WHERE ...] *)
Definition update_where (p : row -> bool) (sets : list (nat * value)) (t : table)
  : table :=
  {| rows := map (fun s =>
                    if p s
                    then fold_left (fun s' kv => set_nth (fst kv) (snd kv) s') sets s
                    else s)
                 (rows t);
     last_rowid := last_rowid t |}.

(** An [INSERT [OR REPLACE] INTO t (columns) VALUES (?, ..., ?)] statement
    as it is written in the program text. *)
Record insert_stmt := {
  or_replace : bool;
  into_columns : list string;
  placeholders : nat
}.

Fixpoint assoc {A : Type} (k : string) (l : list (string * A)) : option A :=
  match l with
  | [] => None
  | (k', a) :: r => if String.eqb k' k then Some a else assoc k r
  end.

(** Two rows collide when they agree on some UNIQUE column. *)
Definition collides (d : table_def) (new old : row) : bool :=
  existsb (fun u =>
             match index_of u (columns d) with
             | Some k => sql_eq (col (S k) old) (col (S k) new)
             | None => false
             end)
          (unique_columns d).

(** [cursor.execute(q, params)] for an insert statement; each parameter
    is the outcome of binding one Python object.
    - Preparing the statement fails when the VALUES list and the column
      list differ in length, or a column is not declared.
    - Binding fails when the number of parameters is not the number of
      placeholders, or a parameter cannot be bound.
    - A collision on a UNIQUE column raises [IntegrityError], or, with
      OR REPLACE, deletes the rows collided with.
    - The new row gets the next [id] and comes last. *)
Definition execute_insert (d : table_def) (q : insert_stmt)
    (params : list (exn + value)) (t : table) : exn + table :=
  if negb (List.length (into_columns q) =? placeholders q)%nat then
    inl (OperationalError
           (PyStr.str (Z.of_nat (placeholders q)) ++ " values for "
            ++ PyStr.str (Z.of_nat (List.length (into_columns q))) ++ " columns"))
  else if negb (forallb (fun c => match index_of c (columns d) with
                                  | Some _ => true | None => false end)
                        (into_columns q)) then
    inl (OperationalError ("table " ++ table_name d ++ " has no such column"))
  else if negb (List.length params =? placeholders q)%nat then
    inl ProgrammingError
  else
    bound <- sequence params ;;
    let given := combine (into_columns q) bound in
    let id := next_rowid t in
    let new := VInt id
               :: map (fun c => match assoc c given with
                                | Some v => v
                                | None => VNull
                                end)
                      (columns d) in
    if or_replace q then
      ret {| rows := filter (fun old => negb (collides d new old)) (rows t) ++ [new];
             last_rowid := id |}
    else if existsb (collides d new) (rows t) then inl IntegrityError
    else ret {| rows := rows t ++ [new]; last_rowid := id |}.

End Sqlite.

(* ================================================================== *)
(** ** Python objects read from and written to JSON documents *)
(* ================================================================== *)

Module Py.

Import Sqlite.
Local Open Scope string_scope.
Local Open Scope Z_scope.
Local Open Scope exn_scope.

(** What [json.load] returns; a [JDict] lists its entries in insertion
    order, one per key. *)
#[local] Set Warnings "-register-all".
Inductive object :=
| JNull
| JBool (b : bool)
| JInt (n : Z)
| JFloat (x : Q)
| JStr (s : string)
| JList (l : list object)
| JDict (kvs : list (string * object)).

(** A fetched cell as a Python object. *)
Definition of_value (v : value) : object :=
  match v with
  | VNull => JNull
  | VInt n => JInt n
  | VReal x => JFloat x
  | VText s => JStr s
  end.

(** Binding an object to a placeholder. *)
Definition to_value (o : object) : exn + value :=
  match o with
  | JNull => ret VNull
  | JBool b => ret (VInt (if b then 1 else 0))
  | JInt n => if (int64_min <=? n) && (n <=? int64_max) then ret (VInt n)
              else inl OverflowError
  | JFloat x => ret (VReal x)
  | JStr s => ret (VText s)
  | JList _ | JDict _ => inl ProgrammingError
  end.

(** [o[key]] *)
Definition getitem (o : object) (key : string) : exn + object :=
  match o with
  | JDict kvs => match assoc key kvs with
                 | Some v => ret v
                 | None => inl (KeyError key)
                 end
  | _ => inl TypeError
  end.

(** [o.get(key, default)] *)
Definition get (o : object) (key : string) (default : object) : exn + object :=
  match o with
  | JDict kvs => match assoc key kvs with
                 | Some v => ret v
                 | None => ret default
                 end
  | _ => inl AttributeError
  end.

Definition is_str (key : string) (o : object) : bool :=
  match o with
  | JStr s => String.eqb s key
  | _ => false
  end.

(** [key in o] for a [str] key. *)
Definition contains (o : object) (key : string) : exn + bool :=
  match o with
  | JDict kvs => ret (match assoc key kvs with Some _ => true | None => false end)
  | JList l => ret (existsb (is_str key) l)
  | JStr s => ret (match String.index 0 key s with Some _ => true | None => false end)
  | _ => inl TypeError
  end.

(** [for x in o]: the elements of a list, the keys of a dict, the
    characters of a str. *)
Definition iter (o : object) : exn + list object :=
  match o with
  | JList l => ret l
  | JDict kvs => ret (map (fun kv => JStr (fst kv)) kvs)
  | JStr s => ret (map (fun c => JStr (String c "")) (list_ascii_of_string s))
  | _ => inl TypeError
  end.

(** [len(o)] *)
Definition len (o : object) : exn + Z :=
  match o with
  | JList l => ret (Z.of_nat (List.length l))
  | JDict kvs => ret (Z.of_nat (List.length kvs))
  | JStr s => ret (Z.of_nat (String.length s))
  | _ => inl TypeError
  end.

(** [o != text] for a [str] on the right. *)
Definition ne_str (o : object) (text : string) : bool := negb (is_str text o).

End Py.

(* ================================================================== *)
(** ** The database of [DatabaseManager] *)
(* ================================================================== *)

Module DatabaseManager.

Import Sqlite Py.
Local Open Scope string_scope.
Local Open Scope Z_scope.
Local Open Scope exn_scope.

(** [init_database], lines 64-157: the five record tables. *)
Definition students_def : table_def :=
  {| table_name := "students";
     columns := ["student_number"; "full_name"; "roll_number"; "class";
                 "section"; "parent_name"; "gender"; "dob"; "parent_number";
                 "address"; "session"];
     unique_columns := ["student_number"] |}.

Definition staff_def : table_def :=
  {| table_name := "staff";
     columns := ["staff_id"; "name"; "phone"; "email"; "designation";
                 "qualification"; "department"; "joining_date"; "salary";
                 "address"; "session"];
     unique_columns := ["staff_id"] |}.

Definition attendance_def : table_def :=
  {| table_name := "attendance";
     columns := ["student_number"; "class"; "section"; "month"; "year";
                 "working_days"; "days_present"; "percentage"; "session"];
     unique_columns := [] |}.

Definition salary_payments_def : table_def :=
  {| table_name := "salary_payments";
     columns := ["staff_id"; "staff_name"; "amount"; "payment_date"; "month";
                 "year"; "session"];
     unique_columns := [] |}.

Definition fee_payments_def : table_def :=
  {| table_name := "fee_payments";
     columns := ["receipt_number"; "student_number"; "student_name"; "class";
                 "section"; "parent_name"; "months"; "payment_date";
                 "tuition_fee"; "lab_fee"; "sport_fee"; "computer_fee";
                 "maintenance_fee"; "exam_fee"; "late_fee"; "total_amount";
                 "payment_mode"; "payment_status"; "session"];
     unique_columns := ["receipt_number"] |}.

(** The [settings] table ([key TEXT PRIMARY KEY, value TEXT]) and the five
    record tables. *)
Record database := {
  settings : list (string * value);
  students : table;
  staff : table;
  attendance : table;
  salary_payments : table;
  fee_payments : table
}.

(** The database [init_database] leaves when the file is new. *)
Definition init_database : database :=
  {| settings := [("school_name", VText "School ERP");
                  ("school_address", VText "");
                  ("school_email", VText "");
                  ("remember_me", VText "false");
                  ("saved_username", VText "");
                  ("saved_password", VText "")];
     students := empty_table;
     staff := empty_table;
     attendance := empty_table;
     salary_payments := empty_table;
     fee_payments := empty_table |}.

(** [get_setting]: [result[0] if result else None] *)
Definition get_setting (key : string) (db : database) : object :=
  match assoc key (settings db) with
  | Some v => of_value v
  | None => JNull
  end.

(** [set_setting] opens a connection of its own, runs
    [INSERT OR REPLACE INTO settings VALUES (?, ?)] and commits.  When
    another connection holds an uncommitted write ([locked]), SQLite
    refuses the write and the call raises
    [OperationalError: database is locked]. *)
Definition set_setting (locked : bool) (key : string) (new : object)
    (s : list (string * value)) : exn + list (string * value) :=
  v <- to_value new ;;
  if locked then inl (OperationalError "database is locked")
  else ret (filter (fun kv => negb (String.eqb (fst kv) key)) s ++ [(key, v)])%list.

End DatabaseManager.

(* ================================================================== *)
(** ** Ledger calculator: attendance percentage and status *)
(* ================================================================== *)

Module Ledger.

Local Open Scope Q_scope.

(** [update_attendance_percentage], line 2618:
    [percentage = (days_present / working_days * 100) if working_days > 0 else 0] *)
Definition attendance_percentage (days_present working_days : Z) : Q :=
  if (working_days >? 0)%Z
  then inject_Z days_present / inject_Z working_days * 100
  else 0.

Inductive status := Good | Average | Poor.

(** lines 2622-2627 (the same cascade is at lines 2596-2601):
    [if percentage >= 75: "Good" elif percentage >= 50: "Average" else: "Poor"] *)
Definition attendance_status (percentage : Q) : status :=
  if Qle_bool 75 percentage then Good
  else if Qle_bool 50 percentage then Average
  else Poor.

(** [update_attendance_percentage], lines 2612-2629: the percentage and
    the status the row then shows. *)
Definition update_attendance_percentage (days_present working_days : Z)
  : Q * status :=
  let percentage := attendance_percentage days_present working_days in
  (percentage, attendance_status percentage).

(** The order Poor < Average < Good on the labels. *)
Definition rank (s : status) : nat :=
  match s with Poor => 0 | Average => 1 | Good => 2 end.

(** *** The same two computations in IEEE binary64 *)

Definition float_of_spin (n : Z) : float := of_uint63 (Uint63.of_Z n).

Definition attendance_percentage_f64 (days_present working_days : Z) : float :=
  if (working_days >? 0)%Z
  then (float_of_spin days_present / float_of_spin working_days * 100)%float
  else 0%float.

Definition attendance_status_f64 (percentage : float) : status :=
  if (75 <=? percentage)%float then Good
  else if (50 <=? percentage)%float then Average
  else Poor.

Definition status_eqb (a b : status) : bool := Nat.eqb (rank a) (rank b).

(** [att_working_days.setRange(1, 31)], line 2459, and
    [days_input.setRange(0, working_days)], line 2579: the values the two
    spin boxes can hold. *)
Definition spin_range : list (Z * Z) :=
  list_prod (map Z.of_nat (seq 0 32)) (map Z.of_nat (seq 1 31)).

Definition agrees_on (dw : Z * Z) : bool :=
  let (d, w) := dw in
  let f := attendance_percentage_f64 d w in
  let q := attendance_percentage d w in
  status_eqb (attendance_status_f64 f) (attendance_status q)
  && (0 <=? f)%float
  && Bool.eqb (f <=? 100)%float (Qle_bool q 100).

End Ledger.

(* ================================================================== *)
(** ** The operations of [MainWindow] *)
(* ================================================================== *)

Module MainWindow.

Import PyStr Sqlite Py DatabaseManager.
Local Open Scope string_scope.
Local Open Scope Z_scope.
Local Open Scope exn_scope.

(** How an operation that sits in a [try ... except Exception] ends: the
    user backed out of a dialog, the critical message box was shown, or the
    success message box was shown with [a]. *)
Inductive outcome (A : Type) :=
| Cancelled
| Failed (e : exn)
| Done (a : A).
Arguments Cancelled {A}.
Arguments Failed {A} e.
Arguments Done {A} a.

Definition text (s : string) : exn + value := ret (VText s).

(** *** The dicts written to backups *)

(** The dict built from a fetched row: each key with the cell it names. *)
Definition record (fields : list (string * nat)) (s : row) : object :=
  JDict (map (fun f => (fst f, of_value (col (snd f) s))) fields).

Definition student_fields : list (string * nat) :=
  [("student_number", 1); ("full_name", 2); ("roll_number", 3); ("class", 4);
   ("section", 5); ("parent_name", 6); ("gender", 7); ("dob", 8);
   ("parent_number", 9); ("address", 10); ("session", 11)]%nat.

Definition staff_fields : list (string * nat) :=
  [("staff_id", 1); ("name", 2); ("phone", 3); ("email", 4);
   ("designation", 5); ("qualification", 6); ("department", 7);
   ("joining_date", 8); ("salary", 9); ("address", 10); ("session", 11)]%nat.

Definition attendance_fields : list (string * nat) :=
  [("student_number", 1); ("class", 2); ("section", 3); ("month", 4);
   ("year", 5); ("working_days", 6); ("days_present", 7); ("percentage", 8);
   ("session", 9)]%nat.

Definition salary_fields : list (string * nat) :=
  [("staff_id", 1); ("staff_name", 2); ("amount", 3); ("payment_date", 4);
   ("month", 5); ("year", 6); ("session", 7)]%nat.

Definition fee_fields : list (string * nat) :=
  [("receipt_number", 1); ("student_number", 2); ("student_name", 3);
   ("class", 4); ("section", 5); ("parent_name", 6); ("months", 7);
   ("payment_date", 8); ("tuition_fee", 9); ("lab_fee", 10);
   ("sport_fee", 11); ("computer_fee", 12); ("maintenance_fee", 13);
   ("exam_fee", 14); ("late_fee", 15); ("total_amount", 16);
   ("payment_mode", 17); ("payment_status", 18); ("session", 19)]%nat.

(** *** Students *)

(** [generate_student_number], lines 2111-2119. *)
Definition generate_student_number (db : database) : string :=
  let count := Sqlite.count (students db) in
  "STU" ++ zfill 6 (str (count + 1)).

(** The widgets of the Add-Student form. *)
Record student_form := {
  student_number_input : string;
  student_name_input : string;
  student_roll_input : string;
  student_class_combo : string;
  student_section_combo : string;
  student_parent_input : string;
  student_gender_combo : string;
  student_dob_input : string;
  student_phone_input : string;
  student_address_input : string
}.

Inductive save_result :=
| ValidationError   (* a required field is empty: nothing is written *)
| Success
| AlreadyExists     (* [sqlite3.IntegrityError] *)
| Raised (e : exn).

Definition insert_student : insert_stmt :=
  {| or_replace := false;
     into_columns := ["student_number"; "full_name"; "roll_number"; "class";
                      "section"; "parent_name"; "gender"; "dob";
                      "parent_number"; "address"; "session"];
     placeholders := 11 |}.

Definition is_empty (s : string) : bool :=
  match s with EmptyString => true | _ => false end.

(** [save_student], lines 2121-2178. *)
Definition save_student (form : student_form) (current_session : string)
    (db : database) : save_result * database :=
  if is_empty (student_name_input form) then (ValidationError, db)
  else if is_empty (student_roll_input form) then (ValidationError, db)
  else if is_empty (student_parent_input form) then (ValidationError, db)
  else if is_empty (student_phone_input form) then (ValidationError, db)
  else if is_empty (student_address_input form) then (ValidationError, db)
  else
    match execute_insert students_def insert_student
            [text (student_number_input form); text (student_name_input form);
             text (student_roll_input form); text (student_class_combo form);
             text (student_section_combo form); text (student_parent_input form);
             text (student_gender_combo form); text (student_dob_input form);
             text (student_phone_input form); text (student_address_input form);
             text current_session]
            (students db) with
    | inr t =>
        (Success,
         {| settings := settings db; students := t; staff := staff db;
            attendance := attendance db;
            salary_payments := salary_payments db;
            fee_payments := fee_payments db |})
    | inl IntegrityError => (AlreadyExists, db)
    | inl e => (Raised e, db)
    end.

Definition restore_student : insert_stmt :=
  {| or_replace := true;
     into_columns := ["student_number"; "full_name"; "roll_number"; "class";
                      "section"; "parent_name"; "gender"; "dob";
                      "parent_number"; "address"; "session"];
     placeholders := 11 |}.

(** The parameter tuple of a restore statement: [item[k]] for each key, in
    order; the first failing subscript raises. *)
Definition subscripts (item : object) (keys : list string) : exn + list object :=
  sequence (map (getitem item) keys).

(** The loop of [restore_students], lines 2340-2371.  The filter test sits
    outside the inner [try], the insert inside it. *)
Fixpoint restore_students_loop (filter_type class_text section_text session : string)
    (students_data : list object) (t : table) (restored_count : Z)
    : exn + (table * Z) :=
  match students_data with
  | [] => ret (t, restored_count)
  | student :: rest =>
      skip <- (if String.eqb filter_type "Specific Class" then
                 c <- getitem student "class" ;; ret (ne_str c class_text)
               else if String.eqb filter_type "Specific Section" then
                 c <- getitem student "section" ;; ret (ne_str c section_text)
               else ret false) ;;
      if (skip : bool) then
        restore_students_loop filter_type class_text section_text session
          rest t restored_count
      else
        match (objs <- subscripts student
                         ["student_number"; "full_name"; "roll_number"; "class";
                          "section"; "parent_name"; "gender"; "dob";
                          "parent_number"; "address"] ;;
               execute_insert students_def restore_student
                 (map to_value objs ++ [text session]) t) with
        | inr t' =>
            restore_students_loop filter_type class_text section_text session
              rest t' (restored_count + 1)
        | inl _ =>
            restore_students_loop filter_type class_text section_text session
              rest t restored_count
        end
  end.

(** [restore_students], lines 2326-2381.  [file] is [None] when no file was
    chosen, otherwise what [open] and [json.load] gave. *)
Definition restore_students (file : option (exn + object))
    (filter_type class_text section_text current_session : string)
    (db : database) : outcome Z * database :=
  match file with
  | None => (Cancelled, db)
  | Some (inl e) => (Failed e, db)
  | Some (inr students_data) =>
      match (items <- iter students_data ;;
             restore_students_loop filter_type class_text section_text
               current_session items (students db) 0) with
      | inl e => (Failed e, db)
      | inr (t, restored_count) =>
          (Done restored_count,
           {| settings := settings db; students := t; staff := staff db;
              attendance := attendance db;
              salary_payments := salary_payments db;
              fee_payments := fee_payments db |})
      end
  end.

(** [delete_student], lines 2269-2283, once the question is answered Yes:
    [DELETE FROM students WHERE id = ?] with [student[0]]. *)
Definition delete_student (student : row) (db : database) : database :=
  {| settings := settings db;
     students := delete_where (fun s => sql_eq (col 0 s) (col 0 student))
                              (students db);
     staff := staff db; attendance := attendance db;
     salary_payments := salary_payments db;
     fee_payments := fee_payments db |}.

(** [backup_students], lines 2292-2324: the list that [json.dump] writes,
    or [None] when no folder was chosen. *)
Definition backup_students (folder : option string) (current_session : string)
    (db : database) : option object :=
  match folder with
  | None => None
  | Some _ =>
      Some (JList
              (map (record student_fields)
                   (select (fun s => sql_eq (col 11 s) (VText current_session))
                           (students db))))
  end.

(** *** Attendance *)

(** One line of [attendance_table] as [save_attendance] reads it: the name
    in column 1, the spin box of column 3, the percentage shown in
    column 4. *)
Record attendance_line := {
  line_student_name : string;
  line_days_present : Z;
  line_percentage : Q
}.

Definition insert_attendance : insert_stmt :=
  {| or_replace := false;
     into_columns := ["student_number"; "class"; "section"; "month"; "year";
                      "working_days"; "days_present"; "percentage"; "session"];
     placeholders := 9 |}.

(** [WHERE student_number = ? AND month = ? AND year = ? AND session = ?]
    on an [attendance] row. *)
Definition attendance_key (student_number month year session : value) (s : row)
  : bool :=
  sql_eq (col 1 s) student_number && sql_eq (col 4 s) month
  && sql_eq (col 5 s) year && sql_eq (col 9 s) session.

(** The loop of [save_attendance], lines 2666-2708. *)
Fixpoint save_attendance_loop (selected_class selected_section month year : string)
    (working_days : Z) (current_session : string) (students_table : table)
    (lines : list attendance_line) (t : table) (saved_count : Z)
    : exn + (table * Z) :=
  match lines with
  | [] => ret (t, saved_count)
  | line :: rest =>
      match select (fun s => sql_eq (col 2 s) (VText (line_student_name line))
                             && sql_eq (col 4 s) (VText selected_class)
                             && sql_eq (col 5 s) (VText selected_section)
                             && sql_eq (col 11 s) (VText current_session))
                   students_table with
      | [] =>
          save_attendance_loop selected_class selected_section month year
            working_days current_session students_table rest t saved_count
      | result :: _ =>
          let student_number := col 1 result in
          let key := attendance_key student_number (VText month) (VText year)
                       (VText current_session) in
          t' <- match select key t with
                | _ :: _ =>
                    ret (update_where key
                           [(2%nat, VText selected_class);
                            (3%nat, VText selected_section);
                            (6%nat, VInt working_days);
                            (7%nat, VInt (line_days_present line));
                            (8%nat, VReal (line_percentage line))] t)
                | [] =>
                    execute_insert attendance_def insert_attendance
                      [ret student_number; text selected_class;
                       text selected_section; text month; text year;
                       ret (VInt working_days);
                       ret (VInt (line_days_present line));
                       ret (VReal (line_percentage line));
                       text current_session] t
                end ;;
          save_attendance_loop selected_class selected_section month year
            working_days current_session students_table rest t' (saved_count + 1)
      end
  end.

(** [save_attendance], lines 2650-2716: nothing is done for an empty
    table widget; an exception shows the critical box and nothing is
    committed. *)
Definition save_attendance (lines : list attendance_line)
    (selected_class selected_section month year : string) (working_days : Z)
    (current_session : string) (db : database) : outcome Z * database :=
  match lines with
  | [] => (Cancelled, db)
  | _ =>
      match save_attendance_loop selected_class selected_section month year
              working_days current_session (students db) lines
              (attendance db) 0 with
      | inl e => (Failed e, db)
      | inr (t, saved_count) =>
          (Done saved_count,
           {| settings := settings db; students := students db;
              staff := staff db; attendance := t;
              salary_payments := salary_payments db;
              fee_payments := fee_payments db |})
      end
  end.

(** *** Receipt numbers *)

(** [ORDER BY key DESC LIMIT 1]: a row with the largest key, the earliest
    one when several rows share it. *)
Fixpoint top_by (key : row -> Z) (l : list row) : option row :=
  match l with
  | [] => None
  | s :: r =>
      match top_by key r with
      | Some b => if key s <? key b then Some b else Some s
      | None => Some s
      end
  end.

(** [SUBSTR(receipt_number, 4)] and [result[0][3:]] *)
Definition suffix (receipt_number : value) : string :=
  match receipt_number with
  | VText r => slice_from 3 r
  | _ => ""
  end.

(** [generate_receipt_number], lines 4448-4470; there is no [try] around
    [int(...)]. *)
Definition generate_receipt_number (db : database) : exn + string :=
  let matching := select (fun s => like (col 1 s) "REC%") (fee_payments db) in
  new_number <-
    match top_by (fun s => cast_integer (suffix (col 1 s))) matching with
    | Some result =>
        match PyStr.int (suffix (col 1 result)) with
        | Some last_number => ret (last_number + 1)
        | None => inl ValueError
        end
    | None => ret 1
    end ;;
  ret ("REC" ++ zfill 6 (str new_number)).

(** *** Complete backup *)

(** [create_complete_backup], lines 5569-5700: the [backup_data] that
    [json.dump] writes, or [None] when no folder was chosen.  [now] is the
    formatted clock reading, [month] the text of the month combo box. *)
Definition create_complete_backup (folder : option string)
    (backup_type month now current_session : string) (db : database)
    : option object :=
  match folder with
  | None => None
  | Some _ =>
      let complete := String.eqb backup_type "Complete Backup" in
      let session_only := String.eqb backup_type "Current Session Only" in
      let in_session (k : nat) (s : row) := sql_eq (col k s) (VText current_session) in
      let in_month (k : nat) (s : row) := sql_eq (col k s) (VText month) in
      let students_rows :=
        if complete then rows (students db)
        else select (in_session 11%nat) (students db) in
      let staff_rows :=
        if complete then rows (staff db)
        else select (in_session 11%nat) (staff db) in
      let attendance_rows :=
        if complete then rows (attendance db)
        else if session_only then select (in_session 9%nat) (attendance db)
        else select (fun a => in_session 9%nat a && in_month 4%nat a) (attendance db) in
      let salaries :=
        if complete then rows (salary_payments db)
        else if session_only then select (in_session 7%nat) (salary_payments db)
        else select (fun a => in_session 7%nat a && in_month 5%nat a)
                    (salary_payments db) in
      let fees :=
        if complete then rows (fee_payments db)
        else if session_only then select (in_session 19%nat) (fee_payments db)
        else select (fun f => in_session 19%nat f
                              && like (col 7 f) ("%" ++ month ++ "%"))
                    (fee_payments db) in
      Some (JDict
        [("backup_type", JStr backup_type);
         ("backup_date", JStr now);
         ("session", JStr current_session);
         ("school_info",
          JDict [("name", get_setting "school_name" db);
                 ("address", get_setting "school_address" db);
                 ("email", get_setting "school_email" db)]);
         ("students", JList (map (record student_fields) students_rows));
         ("staff", JList (map (record staff_fields) staff_rows));
         ("attendance", JList (map (record attendance_fields) attendance_rows));
         ("salary_payments", JList (map (record salary_fields) salaries));
         ("fee_payments", JList (map (record fee_fields) fees))])
  end.

(** The five insert statements of [restore_complete_backup], as written at
    lines 5740-5744, 5757-5761, 5773-5777, 5789-5792 and 5803-5809. *)
Definition restore_staff_stmt : insert_stmt :=
  {| or_replace := true;
     into_columns := ["staff_id"; "name"; "phone"; "email"; "designation";
                      "qualification"; "department"; "joining_date"; "salary";
                      "address"; "session"];
     placeholders := 11 |}.

Definition restore_attendance_stmt : insert_stmt :=
  {| or_replace := true;
     into_columns := ["student_number"; "class"; "section"; "month"; "year";
                      "working_days"; "days_present"; "percentage"; "session"];
     placeholders := 9 |}.

Definition restore_salary_stmt : insert_stmt :=
  {| or_replace := false;
     into_columns := ["staff_id"; "staff_name"; "amount"; "payment_date";
                      "month"; "year"; "session"];
     placeholders := 7 |}.

Definition restore_fee_stmt : insert_stmt :=
  {| or_replace := true;
     into_columns := ["receipt_number"; "student_number"; "student_name";
                      "class"; "section"; "parent_name"; "months";
                      "payment_date"; "tuition_fee"; "lab_fee"; "sport_fee";
                      "computer_fee"; "maintenance_fee"; "exam_fee"; "late_fee";
                      "total_amount"; "payment_mode"; "payment_status";
                      "session"];
     placeholders := 20 |}.

(** The body of one inner [try]: the tuple of subscripts is built, then the
    statement is executed with it. *)
Definition try_restore (d : table_def) (q : insert_stmt) (keys : list string)
    (item : object) (t : table) : exn + table :=
  objs <- subscripts item keys ;;
  execute_insert d q (map to_value objs) t.

(** [try: ... except: pass] *)
Definition restore_item (d : table_def) (q : insert_stmt) (keys : list string)
    (t : table) (item : object) : table :=
  match try_restore d q keys item t with
  | inr t' => t'
  | inl _ => t
  end.

(** [for item in backup_data.get(name, []): try: ... except: pass] *)
Definition restore_collection (d : table_def) (q : insert_stmt)
    (keys : list string) (name : string) (backup_data : object) (t : table)
    : exn + table :=
  collection <- get backup_data name (JList []) ;;
  items <- iter collection ;;
  ret (fold_left (restore_item d q keys) items t).

(** Lines 5731-5735: each setting is written and committed on its own, so
    the settings written before a failure stay written. *)
Fixpoint restore_school_info (locked : bool) (backup_data : object)
    (fields : list (string * string)) (s : list (string * value))
    : option exn * list (string * value) :=
  match fields with
  | [] => (None, s)
  | (setting, key) :: rest =>
      match (info <- getitem backup_data "school_info" ;;
             v <- get info key (JStr "") ;;
             set_setting locked setting v s) with
      | inr s' => restore_school_info locked backup_data rest s'
      | inl e => (Some e, s)
      end
  end.

(** The numbers shown by the success box, lines 5825-5831. *)
Record report := {
  students_shown : Z;
  staff_shown : Z;
  attendance_shown : Z;
  fee_shown : Z;
  salary_shown : Z
}.

Definition shown (backup_data : object) (name : string) : exn + Z :=
  collection <- get backup_data name (JList []) ;; len collection.

Definition restore_report (backup_data : object) : exn + report :=
  a <- shown backup_data "students" ;;
  b <- shown backup_data "staff" ;;
  c <- shown backup_data "attendance" ;;
  d <- shown backup_data "fee_payments" ;;
  e <- shown backup_data "salary_payments" ;;
  ret {| students_shown := a; staff_shown := b; attendance_shown := c;
         fee_shown := d; salary_shown := e |}.

Definition with_settings (s : list (string * value)) (db : database) : database :=
  {| settings := s; students := students db; staff := staff db;
     attendance := attendance db; salary_payments := salary_payments db;
     fee_payments := fee_payments db |}.

(** [restore_complete_backup], lines 5702-5847.  [reset] is the state of
    [restore_reset_radio].  The five tables are written through [conn] and
    reach the database at [conn.commit()]; an exception before it leaves
    them as they were.  The DELETE statements of the reset open a write
    transaction on [conn], which is still open when [set_setting] writes
    through its own connection. *)
Definition restore_complete_backup (reply_yes : bool)
    (file : option (exn + object)) (reset : bool) (db : database)
    : outcome report * database :=
  if negb reply_yes then (Cancelled, db)
  else
    match file with
    | None => (Cancelled, db)
    | Some (inl e) => (Failed e, db)
    | Some (inr backup_data) =>
        let cleared (t : table) := if reset then delete_all t else t in
        match contains backup_data "school_info" with
        | inl e => (Failed e, db)
        | inr has_info =>
            match (if has_info
                   then restore_school_info reset backup_data
                          [("school_name", "name");
                           ("school_address", "address");
                           ("school_email", "email")]
                          (settings db)
                   else (None, settings db)) with
            | (Some e, s) => (Failed e, with_settings s db)
            | (None, s) =>
                match (t1 <- restore_collection students_def restore_student
                               (map fst student_fields) "students"
                               backup_data (cleared (students db)) ;;
                       t2 <- restore_collection staff_def restore_staff_stmt
                               (map fst staff_fields) "staff"
                               backup_data (cleared (staff db)) ;;
                       t3 <- restore_collection attendance_def
                               restore_attendance_stmt
                               (map fst attendance_fields) "attendance"
                               backup_data (cleared (attendance db)) ;;
                       t4 <- restore_collection salary_payments_def
                               restore_salary_stmt
                               (map fst salary_fields) "salary_payments"
                               backup_data (cleared (salary_payments db)) ;;
                       t5 <- restore_collection fee_payments_def
                               restore_fee_stmt
                               (map fst fee_fields) "fee_payments"
                               backup_data (cleared (fee_payments db)) ;;
                       ret (t1, t2, t3, t4, t5)) with
                | inl e => (Failed e, with_settings s db)
                | inr (t1, t2, t3, t4, t5) =>
                    let committed :=
                      {| settings := s; students := t1; staff := t2;
                         attendance := t3; salary_payments := t4;
                         fee_payments := t5 |} in
                    match restore_report backup_data with
                    | inr r => (Done r, committed)
                    | inl e => (Failed e, committed)
                    end
                end
            end
        end
    end.

(** *** Staff *)

(** [generate_staff_id], lines 3227-3235. *)
Definition generate_staff_id (db : database) : string :=
  let count := Sqlite.count (staff db) in
  "STF" ++ zfill 6 (str (count + 1)).

(** The widgets of the Add-Staff form; the joining date is read as
    [date().toString("yyyy-MM-dd")], the salary as [value()]. *)
Record staff_form := {
  staff_id_input : string;
  staff_name_input : string;
  staff_phone_input : string;
  staff_email_input : string;
  staff_designation_input : string;
  staff_qualification_input : string;
  staff_department_input : string;
  staff_joining_input : string;
  staff_salary_input : Q;
  staff_address_input : string
}.

Definition insert_staff : insert_stmt :=
  {| or_replace := false;
     into_columns := ["staff_id"; "name"; "phone"; "email"; "designation";
                      "qualification"; "department"; "joining_date"; "salary";
                      "address"; "session"];
     placeholders := 11 |}.

Definition with_staff (t : table) (db : database) : database :=
  {| settings := settings db; students := students db; staff := t;
     attendance := attendance db; salary_payments := salary_payments db;
     fee_payments := fee_payments db |}.

(** [save_staff], lines 3237-3288. *)
Definition save_staff (form : staff_form) (current_session : string)
    (db : database) : save_result * database :=
  if is_empty (staff_name_input form) then (ValidationError, db)
  else if is_empty (staff_phone_input form) then (ValidationError, db)
  else if is_empty (staff_designation_input form) then (ValidationError, db)
  else
    match execute_insert staff_def insert_staff
            [text (staff_id_input form); text (staff_name_input form);
             text (staff_phone_input form); text (staff_email_input form);
             text (staff_designation_input form);
             text (staff_qualification_input form);
             text (staff_department_input form);
             text (staff_joining_input form);
             ret (VReal (staff_salary_input form));
             text (staff_address_input form);
             text current_session]
            (staff db) with
    | inr t => (Success, with_staff t db)
    | inl IntegrityError => (AlreadyExists, db)
    | inl e => (Raised e, db)
    end.

(** [delete_staff], lines 3350-3365, once the question is answered Yes:
    [DELETE FROM staff WHERE id = ?] with [staff[0]]. *)
Definition delete_staff (member : row) (db : database) : database :=
  with_staff (delete_where (fun s => sql_eq (col 0 s) (col 0 member)) (staff db))
             db.

(** [backup_staff], lines 3721-3752: the list that [json.dump] writes, or
    [None] when no folder was chosen. *)
Definition backup_staff (folder : option string) (current_session : string)
    (db : database) : option object :=
  match folder with
  | None => None
  | Some _ =>
      Some (JList
              (map (record staff_fields)
                   (select (fun s => sql_eq (col 11 s) (VText current_session))
                           (staff db))))
  end.

(** The loop of [restore_staff], lines 3766-3789; its statement is the
    text of [restore_staff_stmt]. *)
Fixpoint restore_staff_loop (session : string) (staff_data : list object)
    (t : table) (restored_count : Z) : table * Z :=
  match staff_data with
  | [] => (t, restored_count)
  | member :: rest =>
      match (objs <- subscripts member
                       ["staff_id"; "name"; "phone"; "email"; "designation";
                        "qualification"; "department"; "joining_date";
                        "salary"; "address"] ;;
             execute_insert staff_def restore_staff_stmt
               (map to_value objs ++ [text session]) t) with
      | inr t' => restore_staff_loop session rest t' (restored_count + 1)
      | inl _ => restore_staff_loop session rest t restored_count
      end
  end.

(** [restore_staff], lines 3754-3800. *)
Definition restore_staff (file : option (exn + object))
    (current_session : string) (db : database) : outcome Z * database :=
  match file with
  | None => (Cancelled, db)
  | Some (inl e) => (Failed e, db)
  | Some (inr staff_data) =>
      match iter staff_data with
      | inl e => (Failed e, db)
      | inr items =>
          let (t, restored_count) :=
            restore_staff_loop current_session items (staff db) 0 in
          (Done restored_count, with_staff t db)
      end
  end.

(** *** Fee payments *)

(** The widgets of the fee form.  [selected_student_number] is [None]
    when the window has no such attribute; [fee_months_list] holds the
    texts of the selected items; [fee_total] is what
    [float(fee_total.text().replace(...).replace(...).strip() or 0)] gives
    for the text of the total field: a number, or [ValueError]. *)
Record fee_form := {
  fee_receipt_input : string;
  selected_student_number : option value;
  fee_student_name : string;
  fee_class : string;
  fee_section : string;
  fee_parent_name : string;
  fee_months_list : list string;
  fee_payment_date : string;
  fee_tuition : Q;
  fee_lab : Q;
  fee_sport : Q;
  fee_computer : Q;
  fee_maintenance : Q;
  fee_exam : Q;
  fee_late : Q;
  fee_total : exn + Q;
  fee_payment_mode : string;
  fee_status_full : bool
}.

Definition insert_fee : insert_stmt :=
  {| or_replace := false;
     into_columns := ["receipt_number"; "student_number"; "student_name";
                      "class"; "section"; "parent_name"; "months";
                      "payment_date"; "tuition_fee"; "lab_fee"; "sport_fee";
                      "computer_fee"; "maintenance_fee"; "exam_fee"; "late_fee";
                      "total_amount"; "payment_mode"; "payment_status";
                      "session"];
     placeholders := 19 |}.

Definition with_fee_payments (t : table) (db : database) : database :=
  {| settings := settings db; students := students db; staff := staff db;
     attendance := attendance db; salary_payments := salary_payments db;
     fee_payments := t |}.

Definition real (x : Q) : exn + value := ret (VReal x).

(** [save_fee_record], lines 4550-4607. *)
Definition save_fee_record (form : fee_form) (current_session : string)
    (db : database) : save_result * database :=
  match selected_student_number form with
  | None => (ValidationError, db)
  | Some student_number =>
      match fee_months_list form with
      | [] => (ValidationError, db)
      | selected_months =>
          let months_str := String.concat ", " selected_months in
          let status := if fee_status_full form then "Full Paid"
                        else "Partial Paid" in
          match execute_insert fee_payments_def insert_fee
                  [text (fee_receipt_input form); ret student_number;
                   text (fee_student_name form); text (fee_class form);
                   text (fee_section form); text (fee_parent_name form);
                   text months_str; text (fee_payment_date form);
                   real (fee_tuition form); real (fee_lab form);
                   real (fee_sport form); real (fee_computer form);
                   real (fee_maintenance form); real (fee_exam form);
                   real (fee_late form);
                   (total <- fee_total form ;; real total);
                   text (fee_payment_mode form); text status;
                   text current_session]
                  (fee_payments db) with
          | inr t => (Success, with_fee_payments t db)
          | inl IntegrityError => (AlreadyExists, db)
          | inl e => (Raised e, db)
          end
      end
  end.

(** [delete_fee_record], lines 5178-5192, once the question is answered
    Yes: [DELETE FROM fee_payments WHERE id = ?] with [record[0]]. *)
Definition delete_fee_record (payment : row) (db : database) : database :=
  with_fee_payments
    (delete_where (fun s => sql_eq (col 0 s) (col 0 payment)) (fee_payments db))
    db.

(** [a == b] on two fetched cells, as [in] on a [set] compares them:
    [None] equals [None], numbers compare by value. *)
Definition py_eq (a b : value) : bool :=
  match a, b with
  | VNull, VNull => true
  | VInt x, VInt y => x =? y
  | VReal x, VReal y => Qeq_bool x y
  | VInt x, VReal y => Qeq_bool (inject_Z x) y
  | VReal x, VInt y => Qeq_bool x (inject_Z y)
  | VText s, VText t => String.eqb s t
  | _, _ => false
  end.

(** [load_unpaid_fees], lines 5238-5285: the tuples
    (student_number, full_name, class, section, parent_name) put in the
    table of unpaid students. *)
Definition load_unpaid_fees (month class_filter section_filter
    current_session : string) (db : database) : list (list value) :=
  let all_students :=
    map (fun s => [col 1 s; col 2 s; col 4 s; col 5 s; col 6 s])
        (select (fun s =>
                   sql_eq (col 11 s) (VText current_session)
                   && (if negb (String.eqb class_filter "All")
                       then sql_eq (col 4 s) (VText class_filter) else true)
                   && (if negb (String.eqb section_filter "All")
                       then sql_eq (col 5 s) (VText section_filter) else true))
                (students db)) in
  let paid_students :=
    map (col 2)
        (select (fun f =>
                   like (col 7 f) ("%" ++ month ++ "%")
                   && sql_eq (col 18 f) (VText "Full Paid")
                   && sql_eq (col 19 f) (VText current_session))
                (fee_payments db)) in
  filter (fun s => negb (existsb (py_eq (nth 0 s VNull)) paid_students))
         all_students.

(** *** The amount in words *)

Definition ones : list string :=
  [""; "One"; "Two"; "Three"; "Four"; "Five"; "Six"; "Seven"; "Eight"; "Nine"].

Definition teens : list string :=
  ["Ten"; "Eleven"; "Twelve"; "Thirteen"; "Fourteen"; "Fifteen"; "Sixteen";
   "Seventeen"; "Eighteen"; "Nineteen"].

Definition tens : list string :=
  [""; ""; "Twenty"; "Thirty"; "Forty"; "Fifty"; "Sixty"; "Seventy"; "Eighty";
   "Ninety"].

(** [l[k]] on a list: a negative index counts from the end; [None] stands
    for [IndexError]. *)
Definition item (l : list string) (k : Z) : option string :=
  let n := Z.of_nat (List.length l) in
  if 0 <=? k then nth_error l (Z.to_nat k)
  else if 0 <=? n + k then nth_error l (Z.to_nat (n + k))
  else None.

(** [convert_hundreds], lines 4838-4851, on an [int]. *)
Definition convert_hundreds (num : Z) : option string :=
  match (if 100 <=? num
         then option_map (fun w => (w ++ " Hundred ", num mod 100))
                         (item ones (num / 100))
         else Some ("", num)) with
  | None => None
  | Some (result, num) =>
      match (if 20 <=? num
             then option_map (fun w => (result ++ w ++ " ", num mod 10))
                             (item tens (num / 10))
             else if 10 <=? num
             then option_map (fun w => (result ++ w ++ " ", 0))
                             (item teens (num - 10))
             else Some (result, num)) with
      | None => None
      | Some (result, num) =>
          if 0 <? num
          then option_map (fun w => result ++ w ++ " ") (item ones num)
          else Some result
      end
  end.

(** [a // b] and [a % b] on floats, for a positive [b]; [int(x)]. *)
Definition floordiv (a b : Q) : Q := inject_Z (Qfloor (a / b)).

Definition float_mod (a b : Q) : Q := a - b * floordiv a b.

Definition int_of_float (x : Q) : Z :=
  if Qle_bool 0 x then Qfloor x else Qceiling x.

(** [s.strip()] *)
Definition strip_str (s : string) : string :=
  string_of_list_ascii (strip (list_ascii_of_string s)).

(** The nearest integer, the even one of two that are as near. *)
Definition round_half_even (x : Q) : Z :=
  let f := Qfloor x in
  match (x - inject_Z f ?= 1 # 2)%Q with
  | Lt => f
  | Gt => f + 1
  | Eq => if Z.even f then f else f + 1
  end.

(** [f"{x:.2f}"] *)
Definition format_2f (x : Q) : string :=
  let digits (y : Q) :=
    let k := round_half_even (y * 100) in
    str (k / 100) ++ "." ++ zfill 2 (str (k mod 100)) in
  if Qle_bool 0 x then digits x else "-" ++ digits (- x)%Q.

(** [number_to_words], lines 4829-4863, on the float [total_amount]. *)
Definition number_to_words (n : Q) : option string :=
  if Qeq_bool n 0 then Some "Zero"
  else if negb (Qle_bool 1000 n) then
    option_map strip_str (convert_hundreds (int_of_float n))
  else if negb (Qle_bool 100000 n) then
    let thousands := floordiv n 1000 in
    let remainder := float_mod n 1000 in
    match convert_hundreds (int_of_float thousands) with
    | None => None
    | Some w =>
        let result := w ++ "Thousand " in
        if negb (Qle_bool remainder 0)
        then option_map (fun r => strip_str (result ++ r))
                        (convert_hundreds (int_of_float remainder))
        else Some (strip_str result)
    end
  else Some ("Amount: " ++ format_2f n).

(** *** Settings and sessions *)

(** [self.db.set_setting(key, text)] outside any transaction. *)
Definition write_setting (key text : string) (db : database) : exn + database :=
  s <- set_setting false key (JStr text) (settings db) ;;
  ret (with_settings s db).

(** [save_school_settings], lines 5556-5561. *)
Definition save_school_settings (settings_school_name settings_school_address
    settings_school_email : string) (db : database) : exn + database :=
  db1 <- write_setting "school_name" settings_school_name db ;;
  db2 <- write_setting "school_address" settings_school_address db1 ;;
  write_setting "school_email" settings_school_email db2.

(** [load_last_session], lines 1124-1139. *)
Definition load_last_session (db : database) : object :=
  match assoc "last_session" (settings db) with
  | Some v => of_value v
  | None => JStr "2024-25"
  end.

(** [save_last_session], lines 1141-1153: an exception is printed and
    nothing is written. *)
Definition save_last_session (session : string) (db : database) : database :=
  match write_setting "last_session" session db with
  | inr db' => db'
  | inl _ => db
  end.

(** [change_session], lines 1155-1182: the new [current_session] and the
    database. *)
Definition change_session (session : string) (db : database)
  : string * database :=
  (session, save_last_session session db).

End MainWindow.

(* ================================================================== *)
(** ** The operations of [LoginWindow] *)
(* ================================================================== *)

Module LoginWindow.

Import PyStr Sqlite Py DatabaseManager MainWindow.
Local Open Scope string_scope.
Local Open Scope Z_scope.
Local Open Scope exn_scope.

(** The two line edits and the check box. *)
Record login_form := {
  username_input : string;
  password_input : string;
  remember_checkbox : bool
}.

(** [load_saved_credentials], lines 724-731; [setText] raises [TypeError]
    when it is given something that is no [str]. *)
Definition load_saved_credentials (form : login_form) (db : database)
  : exn + login_form :=
  let remember := get_setting "remember_me" db in
  if is_str "true" remember then
    match get_setting "saved_username" db with
    | JStr username =>
        match get_setting "saved_password" db with
        | JStr password =>
            ret {| username_input := username; password_input := password;
                   remember_checkbox := true |}
        | _ => inl TypeError
        end
    | _ => inl TypeError
    end
  else ret form.

(** [login], lines 733-752: whether the main window is opened, and the
    database. *)
Definition login (form : login_form) (db : database) : exn + (bool * database) :=
  let username := username_input form in
  let password := password_input form in
  if String.eqb username "admin" && String.eqb password "admin123" then
    db3 <- (if remember_checkbox form then
              db1 <- write_setting "remember_me" "true" db ;;
              db2 <- write_setting "saved_username" username db1 ;;
              write_setting "saved_password" password db2
            else
              db1 <- write_setting "remember_me" "false" db ;;
              db2 <- write_setting "saved_username" "" db1 ;;
              write_setting "saved_password" "" db2) ;;
    ret (true, db3)
  else ret (false, db).

End LoginWindow.

(* ================================================================== *)
(** ** Scenarios: sequences of operations and the words of the properties *)
(* ================================================================== *)

Module Scenario.

Import PyStr Sqlite Py DatabaseManager MainWindow.
Local Open Scope string_scope.
Local Open Scope Z_scope.

(** *** Enrolling students one after the other *)

(** Reading a run of digits back, leading zeros included. *)
Definition unpad (s : string) : option Z :=
  option_map Z.of_uint (NilEmpty.uint_of_string s).

(** The i-th student number, [STU] and [i] on six digits. *)
Definition student_number_of (i : nat) : string :=
  "STU" ++ zfill 6 (str (Z.of_nat i)).

(** The form with its read-only number field filled in. *)
Definition with_number (number : string) (form : student_form) : student_form :=
  {| student_number_input := number;
     student_name_input := student_name_input form;
     student_roll_input := student_roll_input form;
     student_class_combo := student_class_combo form;
     student_section_combo := student_section_combo form;
     student_parent_input := student_parent_input form;
     student_gender_combo := student_gender_combo form;
     student_dob_input := student_dob_input form;
     student_phone_input := student_phone_input form;
     student_address_input := student_address_input form |}.

(** The required fields are filled in. *)
Definition filled_in (form : student_form) : bool :=
  negb (is_empty (student_name_input form))
  && negb (is_empty (student_roll_input form))
  && negb (is_empty (student_parent_input form))
  && negb (is_empty (student_phone_input form))
  && negb (is_empty (student_address_input form)).

(** For each form in turn: the number field is generated, the form is
    saved.  Returns the numbers generated and how each save ended. *)
Fixpoint enrol (forms : list student_form) (current_session : string)
    (db : database) : list (string * save_result) * database :=
  match forms with
  | [] => ([], db)
  | form :: rest =>
      let number := generate_student_number db in
      let (result, db') := save_student (with_number number form) current_session db in
      let (issued, db'') := enrol rest current_session db' in
      ((number, result) :: issued, db'')
  end.

(** The students table holds the numbers 1..k, in this order. *)
Definition numbered (k : nat) (t : table) : Prop :=
  map (col 1) (rows t) = map (fun i => VText (student_number_of i)) (List.seq 1 k).

(** Three filled-in forms. *)
Definition student_1 : student_form :=
  {| student_number_input := ""; student_name_input := "Asha Rao";
     student_roll_input := "1"; student_class_combo := "Class 5";
     student_section_combo := "A"; student_parent_input := "R Rao";
     student_gender_combo := "Female"; student_dob_input := "2014-05-01";
     student_phone_input := "9000000001";
     student_address_input := "12 Lake Road" |}.

Definition student_2 : student_form :=
  {| student_number_input := ""; student_name_input := "Bilal Khan";
     student_roll_input := "2"; student_class_combo := "Class 5";
     student_section_combo := "A"; student_parent_input := "S Khan";
     student_gender_combo := "Male"; student_dob_input := "2014-07-19";
     student_phone_input := "9000000002";
     student_address_input := "4 Hill Street" |}.

Definition student_3 : student_form :=
  {| student_number_input := ""; student_name_input := "Chitra Iyer";
     student_roll_input := "3"; student_class_combo := "Class 6";
     student_section_combo := "B"; student_parent_input := "V Iyer";
     student_gender_combo := "Female"; student_dob_input := "2013-01-30";
     student_phone_input := "9000000003";
     student_address_input := "7 Temple Lane" |}.

(** Two students enrolled, then the first one deleted. *)
Definition school_after_delete : database :=
  let db := snd (enrol [student_1; student_2] "2024-25" init_database) in
  delete_student (nth 0 (rows (students db)) []) db.

(** *** Receipt numbers *)

Definition is_digit (c : ascii) : bool :=
  match digit_of c with Some _ => true | None => false end.

(** A non-empty run of decimal digits. *)
Definition numeric (s : string) : bool :=
  negb (is_empty s) && forallb is_digit (list_ascii_of_string s).

(** The number a run of digits denotes. *)
Definition decimal (s : string) : Z := leading_digits 0 (list_ascii_of_string s).

(** The receipt numbers the LIKE of [generate_receipt_number] selects. *)
Definition rec_numbers (db : database) : list value :=
  map (col 1) (select (fun s => like (col 1 s) "REC%") (fee_payments db)).

(** The largest number among the given suffixes, 0 when there is none. *)
Definition max_suffix (numbers : list value) : Z :=
  fold_right (fun r m => Z.max (decimal (suffix r)) m) 0 numbers.

(** A receipt number whose suffix is a run of digits within SQLite's
    integer range. *)
Definition well_formed (receipt_number : value) : bool :=
  numeric (suffix receipt_number)
  && (decimal (suffix receipt_number) <=? int64_max).

(** The sort key of [generate_receipt_number]. *)
Definition cast_key (receipt_number : value) : Z :=
  cast_integer (suffix receipt_number).

(** A fee row with the given receipt number. *)
Definition fee_row (id : Z) (receipt_number student_number : string) : row :=
  [VInt id; VText receipt_number; VText student_number; VText "Asha Rao";
   VText "Class 5"; VText "A"; VText "R Rao"; VText "April, May";
   VText "2024-04-10"; VReal 1500; VReal 0; VReal 0; VReal 0; VReal 0;
   VReal 0; VReal 0; VReal 1500; VText "Cash"; VText "Full Paid";
   VText "2024-25"].

Definition with_fee_rows (l : list row) (db : database) : database :=
  {| settings := settings db; students := students db; staff := staff db;
     attendance := attendance db; salary_payments := salary_payments db;
     fee_payments := {| rows := l; last_rowid := max_rowid l |} |}.

(** REC000020 and two receipts with a malformed suffix. *)
Definition receipts_20_abc_12abc : database :=
  with_fee_rows [fee_row 1 "REC000020" "STU000001";
                 fee_row 2 "RECabc" "STU000002";
                 fee_row 3 "REC12abc" "STU000002"] init_database.

(** A single receipt, with a malformed suffix. *)
Definition receipts_abc : database :=
  with_fee_rows [fee_row 1 "RECabc" "STU000001"] init_database.

(** REC000005 and a malformed receipt that sorts above it. *)
Definition receipts_5_12abc : database :=
  with_fee_rows [fee_row 1 "REC000005" "STU000001";
                 fee_row 2 "REC12abc" "STU000002"] init_database.

(** REC000041, rec7 and a receipt of another scheme. *)
Definition receipts_41_rec7 : database :=
  with_fee_rows [fee_row 1 "REC000041" "STU000001";
                 fee_row 2 "rec7" "STU000002";
                 fee_row 3 "INV000900" "STU000002"] init_database.

(** *** Backups and restores *)

(** The business fields of a table: its rows without the surrogate id. *)
Definition business (t : table) : list (list value) := map (@tl value) (rows t).

(** No two rows of the list are the same in the sense of [same]. *)
Fixpoint pairwise_distinct (same : row -> row -> bool) (l : list row) : bool :=
  match l with
  | [] => true
  | s :: r => negb (existsb (same s) r) && pairwise_distinct same r
  end.

(** Two fee rows carry the same receipt number. *)
Definition same_receipt (a b : row) : bool := sql_eq (col 1 a) (col 1 b).

(** Two attendance rows carry the same
    (student_number, month, year, session), cell by cell as the fetched
    tuples compare: two rows without a student number (NULL, [None]) and
    with the same month, year and session carry the same key, although
    the [student_number = ?] of a WHERE clause matches neither. *)
Definition same_attendance_key (a b : row) : bool :=
  py_eq (col 1 a) (col 1 b) && py_eq (col 4 a) (col 4 b)
  && py_eq (col 5 a) (col 5 b) && py_eq (col 9 a) (col 9 b).

(** The first step of a restore on one table: emptied by a reset, else
    left as it is. *)
Definition clear (reset : bool) (t : table) : table :=
  if reset then delete_all t else t.

(** The five tables of two databases are the same. *)
Definition same_tables (a b : database) : Prop :=
  students a = students b /\ staff a = staff b
  /\ attendance a = attendance b
  /\ salary_payments a = salary_payments b
  /\ fee_payments a = fee_payments b.

(** The entries a restore loop goes through for one collection. *)
Definition entries (backup_data : object) (name : string) : exn + list object :=
  Exn.bind (get backup_data name (JList [])) iter.

(** A cell SQLite can hold: an INTEGER fits 64 bits. *)
Definition storable (v : value) : bool :=
  match v with
  | VInt n => (int64_min <=? n) && (n <=? int64_max)
  | _ => true
  end.

(** A row of the table: the id and one storable cell per declared
    column. *)
Definition sound_row (d : table_def) (s : row) : bool :=
  (List.length s =? S (List.length (columns d)))%nat && forallb storable s.

(** The UNIQUE constraints of the table hold among the rows. *)
Definition unique_holds (d : table_def) (l : list row) : bool :=
  pairwise_distinct (fun a b => collides d b a) l.

(** The same on rows without their id. *)
Definition business_unique (d : table_def) (a b : list value) : bool :=
  collides d (VNull :: b) (VNull :: a).

(** [WHERE session = ?] on the column [k]. *)
Definition of_session (k : nat) (session : string) (s : row) : bool :=
  sql_eq (col k s) (VText session).

(** What SQLite guarantees of the database file, as far as the students,
    staff, attendance and salary tables and the settings go. *)
Definition sound_database (db : database) : Prop :=
  forallb storable (map snd (settings db)) = true
  /\ forallb (sound_row students_def) (rows (students db)) = true
  /\ unique_holds students_def (rows (students db)) = true
  /\ forallb (sound_row staff_def) (rows (staff db)) = true
  /\ unique_holds staff_def (rows (staff db)) = true
  /\ forallb (sound_row attendance_def) (rows (attendance db)) = true
  /\ forallb (sound_row salary_payments_def) (rows (salary_payments db)) = true.

(** The five record tables are empty. *)
Definition no_records (db : database) : Prop :=
  rows (students db) = [] /\ rows (staff db) = []
  /\ rows (attendance db) = [] /\ rows (salary_payments db) = []
  /\ rows (fee_payments db) = [].

(** The entry has every key and each of its values can be bound. *)
Definition bindable (keys : list string) (item : object) : bool :=
  match Exn.bind (subscripts item keys) (fun objs => sequence (map to_value objs)) with
  | inr _ => true
  | inl _ => false
  end.

(** The entry passes the filter of [restore_students]. *)
Definition passes (filter_type class_text section_text : string)
    (student : object) : bool :=
  if String.eqb filter_type "Specific Class" then
    match getitem student "class" with
    | inr c => negb (ne_str c class_text)
    | inl _ => false
    end
  else if String.eqb filter_type "Specific Section" then
    match getitem student "section" with
    | inr c => negb (ne_str c section_text)
    | inl _ => false
    end
  else true.

(** The keys [restore_students] reads from an entry. *)
Definition student_keys : list string :=
  ["student_number"; "full_name"; "roll_number"; "class"; "section";
   "parent_name"; "gender"; "dob"; "parent_number"; "address"].

(** The document [create_complete_backup] writes for the session 2024-25
    with the scope Current Session Only. *)
Definition session_backup (db : database) : object :=
  match create_complete_backup (Some "backups") "Current Session Only"
          "April" "2025-03-31 17:00:00" "2024-25" db with
  | Some backup_data => backup_data
  | None => JNull
  end.

(** Restoring a loaded document: the answer to the warning is Yes and the
    file reads well. *)
Definition restore (backup_data : object) (reset : bool) (db : database)
  : outcome report * database :=
  restore_complete_backup true (Some (inr backup_data)) reset db.

(** One student enrolled in 2024-25 and one fee payment of hers. *)
Definition school_a : database :=
  with_fee_rows [fee_row 1 "REC000001" "STU000001"]
    (snd (enrol [student_1] "2024-25" init_database)).

(** One student enrolled and her attendance for March 2025 saved:
    20 days out of 25. *)
Definition school_b : database :=
  snd (save_attendance
         [{| line_student_name := "Asha Rao"; line_days_present := 20;
             line_percentage := 80 |}]
         "Class 5" "A" "March" "2025" 25 "2024-25"
         (snd (enrol [student_1] "2024-25" init_database))).

(** The same attendance sheet saved again with 10 days present. *)
Definition school_b_saved_again : database :=
  snd (save_attendance
         [{| line_student_name := "Asha Rao"; line_days_present := 10;
             line_percentage := 40 |}]
         "Class 5" "A" "March" "2025" 25 "2024-25" school_b).

(** An entry of a student backup file whose student number is [null]. *)
Definition numberless_student : object :=
  JDict [("student_number", JNull); ("full_name", JStr "Asha Rao");
         ("roll_number", JStr "1"); ("class", JStr "Class 5");
         ("section", JStr "A"); ("parent_name", JStr "R Rao");
         ("gender", JStr "Female"); ("dob", JStr "2014-05-01");
         ("parent_number", JStr "9000000001");
         ("address", JStr "12 Lake Road")].

(** That entry restored by [restore_students] into a new database: a
    student row without a student number. *)
Definition school_numberless : database :=
  snd (restore_students (Some (inr (JList [numberless_student])))
         "All Students" "" "" "2024-25" init_database).

(** Her attendance sheet for March 2025 saved, and saved again. *)
Definition school_numberless_saved_twice : database :=
  snd (save_attendance
         [{| line_student_name := "Asha Rao"; line_days_present := 10;
             line_percentage := 40 |}]
         "Class 5" "A" "March" "2025" 25 "2024-25"
         (snd (save_attendance
                 [{| line_student_name := "Asha Rao"; line_days_present := 20;
                     line_percentage := 80 |}]
                 "Class 5" "A" "March" "2025" 25 "2024-25"
                 school_numberless))).

(** The attendance rows of March 2025 for STU000001 in 2024-25. *)
Definition march_rows (db : database) : list row :=
  select (attendance_key (VText "STU000001") (VText "March") (VText "2025")
            (VText "2024-25"))
         (attendance db).

(** The same document without its [school_info]. *)
Definition without_school_info (backup_data : object) : object :=
  match backup_data with
  | JDict kvs =>
      JDict (filter (fun kv => negb (String.eqb (fst kv) "school_info")) kvs)
  | other => other
  end.

(** The student-only backup of [school_a], followed by an entry that
    lacks every field but the number. *)
Definition students_then_damaged : object :=
  match backup_students (Some "backups") "2024-25" school_a with
  | Some (JList l) => JList (l ++ [JDict [("student_number", JStr "STU000009")]])
  | _ => JNull
  end.

(** A document whose only student entry lacks every field but the
    number. *)
Definition damaged_backup : object :=
  JDict [("students", JList [JDict [("student_number", JStr "STU000009")]])].

(** *** Hiring staff one after the other *)

(** The i-th staff id, [STF] and [i] on six digits. *)
Definition staff_id_of (i : nat) : string :=
  "STF" ++ zfill 6 (str (Z.of_nat i)).

(** The form with its read-only id field filled in. *)
Definition with_staff_id (id : string) (form : staff_form) : staff_form :=
  {| staff_id_input := id;
     staff_name_input := staff_name_input form;
     staff_phone_input := staff_phone_input form;
     staff_email_input := staff_email_input form;
     staff_designation_input := staff_designation_input form;
     staff_qualification_input := staff_qualification_input form;
     staff_department_input := staff_department_input form;
     staff_joining_input := staff_joining_input form;
     staff_salary_input := staff_salary_input form;
     staff_address_input := staff_address_input form |}.

(** The required fields of the staff form are filled in. *)
Definition staff_filled_in (form : staff_form) : bool :=
  negb (is_empty (staff_name_input form))
  && negb (is_empty (staff_phone_input form))
  && negb (is_empty (staff_designation_input form)).

(** For each form in turn: the id field is generated, the form is saved.
    Returns the ids generated and how each save ended. *)
Fixpoint hire (forms : list staff_form) (current_session : string)
    (db : database) : list (string * save_result) * database :=
  match forms with
  | [] => ([], db)
  | form :: rest =>
      let id := generate_staff_id db in
      let (result, db') := save_staff (with_staff_id id form) current_session db in
      let (issued, db'') := hire rest current_session db' in
      ((id, result) :: issued, db'')
  end.

(** The staff table holds the ids 1..k, in this order. *)
Definition staff_numbered (k : nat) (t : table) : Prop :=
  map (col 1) (rows t) = map (fun i => VText (staff_id_of i)) (List.seq 1 k).

Definition staff_1 : staff_form :=
  {| staff_id_input := ""; staff_name_input := "Meera Nair";
     staff_phone_input := "9000000101"; staff_email_input := "meera@school.example";
     staff_designation_input := "Teacher"; staff_qualification_input := "B.Ed";
     staff_department_input := "Science"; staff_joining_input := "2020-06-01";
     staff_salary_input := 30000; staff_address_input := "3 Park Row" |}.

Definition staff_2 : staff_form :=
  {| staff_id_input := ""; staff_name_input := "Imran Sheikh";
     staff_phone_input := "9000000102"; staff_email_input := "";
     staff_designation_input := "Clerk"; staff_qualification_input := "";
     staff_department_input := "Office"; staff_joining_input := "2022-01-15";
     staff_salary_input := 18000; staff_address_input := "" |}.

(** *** Student-only and staff-only backups *)

(** The keys [restore_staff] reads from an entry. *)
Definition staff_keys : list string :=
  ["staff_id"; "name"; "phone"; "email"; "designation"; "qualification";
   "department"; "joining_date"; "salary"; "address"].

(** The business fields of a student or staff row, with the session
    replaced. *)
Definition restamp (session : string) (fields : list value) : list value :=
  set_nth 10 (VText session) fields.

(** The cell that is UNIQUE among the business fields of a student or
    staff row: the student number, the staff id. *)
Definition key_of (fields : list value) : value := nth 0 fields VNull.

(** Two students enrolled in 2024-25, in Class 5 and in Class 6. *)
Definition school_c : database :=
  snd (enrol [student_1; student_3] "2024-25" init_database).

(** Two members of staff hired in 2024-25. *)
Definition school_d : database :=
  snd (hire [staff_1; staff_2] "2024-25" init_database).

(** *** Collecting fees one after the other *)

(** The receipt number that carries [n]. *)
Definition receipt_of (n : Z) : string := "REC" ++ zfill 6 (str n).

(** The form with its read-only receipt field filled in. *)
Definition with_receipt (number : string) (form : fee_form) : fee_form :=
  {| fee_receipt_input := number;
     selected_student_number := selected_student_number form;
     fee_student_name := fee_student_name form;
     fee_class := fee_class form;
     fee_section := fee_section form;
     fee_parent_name := fee_parent_name form;
     fee_months_list := fee_months_list form;
     fee_payment_date := fee_payment_date form;
     fee_tuition := fee_tuition form;
     fee_lab := fee_lab form;
     fee_sport := fee_sport form;
     fee_computer := fee_computer form;
     fee_maintenance := fee_maintenance form;
     fee_exam := fee_exam form;
     fee_late := fee_late form;
     fee_total := fee_total form;
     fee_payment_mode := fee_payment_mode form;
     fee_status_full := fee_status_full form |}.

(** A student is selected, a month is selected and the total field reads
    as a number. *)
Definition payable (form : fee_form) : bool :=
  match selected_student_number form, fee_months_list form, fee_total form with
  | Some _, _ :: _, inr _ => true
  | _, _, _ => false
  end.

(** For each form in turn: the receipt field is generated, the record is
    saved.  Returns the numbers generated and how each save ended; an
    exception of the generator ends the run. *)
Fixpoint collect (forms : list fee_form) (current_session : string)
    (db : database) : list (exn + string * save_result) * database :=
  match forms with
  | [] => ([], db)
  | form :: rest =>
      match generate_receipt_number db with
      | inl e => ([inl e], db)
      | inr number =>
          let (result, db') :=
            save_fee_record (with_receipt number form) current_session db in
          let (issued, db'') := collect rest current_session db' in
          (inr (number, result) :: issued, db'')
      end
  end.

(** The fee of April and May, paid in full by STU000001. *)
Definition fee_april_may : fee_form :=
  {| fee_receipt_input := "";
     selected_student_number := Some (VText "STU000001");
     fee_student_name := "Asha Rao"; fee_class := "Class 5";
     fee_section := "A"; fee_parent_name := "R Rao";
     fee_months_list := ["April"; "May"];
     fee_payment_date := "2024-04-10";
     fee_tuition := 1500; fee_lab := 0; fee_sport := 0; fee_computer := 0;
     fee_maintenance := 0; fee_exam := 0; fee_late := 0;
     fee_total := inr 1500%Q;
     fee_payment_mode := "Cash"; fee_status_full := true |}.

(** The fee of June, paid in part by STU000001. *)
Definition fee_june_part : fee_form :=
  {| fee_receipt_input := "";
     selected_student_number := Some (VText "STU000001");
     fee_student_name := "Asha Rao"; fee_class := "Class 5";
     fee_section := "A"; fee_parent_name := "R Rao";
     fee_months_list := ["June"];
     fee_payment_date := "2024-06-10";
     fee_tuition := 500; fee_lab := 0; fee_sport := 0; fee_computer := 0;
     fee_maintenance := 0; fee_exam := 0; fee_late := 0;
     fee_total := inr 500%Q;
     fee_payment_mode := "Cash"; fee_status_full := false |}.

(** [school_c] after STU000001 has paid April and May in full. *)
Definition school_c_paid : database :=
  snd (save_fee_record (with_receipt "REC000001" fee_april_may) "2024-25"
         school_c).

(** *** Sessions *)

(** The rows of the five tables that belong to a session. *)
Definition session_view (session : string) (db : database)
  : list row * list row * list row * list row * list row :=
  (select (of_session 11 session) (students db),
   select (of_session 11 session) (staff db),
   select (of_session 9 session) (attendance db),
   select (of_session 7 session) (salary_payments db),
   select (of_session 19 session) (fee_payments db)).

(** *** Reading an amount in words back *)

Fixpoint split_spaces (word s : string) : list string :=
  match s with
  | EmptyString => [word]
  | String c rest =>
      if Ascii.eqb c " " then word :: split_spaces "" rest
      else split_spaces (word ++ String c "") rest
  end.

(** One word of an amount acts on the pair (thousands counted so far,
    number being read). *)
Definition read_word (state : Z * Z) (word : string) : Z * Z :=
  let (total, current) := state in
  if String.eqb word "Hundred" then (total, current * 100)
  else if String.eqb word "Thousand" then (total + current * 1000, 0)
  else if is_empty word then state
  else
    match index_of word ones, index_of word teens, index_of word tens with
    | Some i, _, _ => (total, current + Z.of_nat i)
    | _, Some i, _ => (total, current + 10 + Z.of_nat i)
    | _, _, Some i => (total, current + 10 * Z.of_nat i)
    | _, _, _ => state
    end.

(** The amount that the words denote. *)
Definition words_value (s : string) : Z :=
  let (total, current) := fold_left read_word (split_spaces "" s) (0, 0) in
  total + current.

(** The words of the whole amount [k] read back as [k]. *)
Definition reads_back (k : Z) : bool :=
  match number_to_words (inject_Z k) with
  | Some w => words_value w =? k
  | None => false
  end.

(** The text starts with a character that is no white space. *)
Definition starts_plain (s : string) : bool :=
  match s with
  | String c _ => negb (is_py_space c)
  | EmptyString => false
  end.

Definition same_state (a b : Z * Z) : bool :=
  (fst a =? fst b) && (snd a =? snd b).

(** The words of [t] thousands: with "Thousand " after them they start
    with a letter, end a word, and read as [t] thousands, also once
    stripped. *)
Definition thousands_read (t : Z) : bool :=
  match convert_hundreds t with
  | Some h =>
      let tokens := split_spaces "" (h ++ "Thousand ") in
      starts_plain (h ++ "Thousand ")
      && same_state (fold_left read_word (removelast tokens) (0, 0))
                    (1000 * t, 0)
      && is_empty (last tokens "")
      && (words_value (strip_str (h ++ "Thousand ")) =? 1000 * t)
  | None => false
  end.

(** The words of the rest [r] below a thousand: none for 0, otherwise
    they start with a letter and, stripped, read as [r]. *)
Definition hundreds_read (r : Z) : bool :=
  match convert_hundreds r with
  | Some h =>
      if r =? 0 then is_empty h
      else starts_plain h
           && same_state (fold_left read_word (split_spaces "" (strip_str h))
                                    (0, 0))
                         (0, r)
  | None => false
  end.

(** [convert_hundreds] does not raise on [k]. *)
Definition converts (k : Z) : bool :=
  match convert_hundreds k with Some _ => true | None => false end.

(** The [n] whole numbers from [start] on. *)
Fixpoint whole_amounts (start : Z) (n : nat) : list Z :=
  match n with
  | O => []
  | S m => start :: whole_amounts (start + 1) m
  end.

End Scenario.

(* ================================================================== *)
(** ** Facts about the ledger calculator *)
(* ================================================================== *)

Module LedgerFacts.
Import Ledger.
Local Open Scope Q_scope.

Lemma Qle_bool_false (x y : Q) : Qle_bool x y = false <-> y < x.
Proof.
  split; intro H.
  - apply Qnot_le_lt. intro L. apply Qle_bool_iff in L. congruence.
  - destruct (Qle_bool x y) eqn:E; [|reflexivity].
    apply Qle_bool_iff in E. exfalso. exact (Qlt_not_le _ _ H E).
Qed.

(** For a positive divisor the percentage is the fraction 100*d / w. *)
Lemma percentage_pos (d : Z) (p : positive) :
  attendance_percentage d (Z.pos p) == (100 * d) # p.
Proof.
  unfold attendance_percentage.
  change (Z.pos p >? 0)%Z with true. cbv iota.
  unfold Qeq, Qdiv, Qmult, Qinv, inject_Z. cbn [Qnum Qden]. lia.
Qed.

(** The binary64 evaluation gives the same status label as the exact one,
    is non-negative, and is at most 100 exactly when the exact one is, for
    every pair of values the two spin boxes can hold. *)
Lemma binary64_agrees : forallb agrees_on spin_range = true.
Proof. vm_compute. reflexivity. Qed.

(** C7: attendance_percentage is 0 whenever working_days <= 0, whatever
    days_present is; otherwise it is days_present / working_days * 100,
    unclamped (above 100 when days_present > working_days, below 0 when
    days_present is negative); hence for working_days > 0 and
    0 <= days_present <= working_days it lies in [0,100]. *)
Theorem attendance_percentage_spec (days_present working_days : Z) :
  ((working_days <= 0)%Z -> attendance_percentage days_present working_days = 0)
  /\ ((0 < working_days)%Z ->
        attendance_percentage days_present working_days
          = inject_Z days_present / inject_Z working_days * 100
        /\ ((working_days < days_present)%Z ->
              100 < attendance_percentage days_present working_days)
        /\ ((days_present < 0)%Z ->
              attendance_percentage days_present working_days < 0)
        /\ ((0 <= days_present <= working_days)%Z ->
              0 <= attendance_percentage days_present working_days <= 100)).
Proof.
  split.
  - intro Hw. unfold attendance_percentage.
    destruct (Z.gtb_spec working_days 0); [lia|reflexivity].
  - intro Hw. destruct working_days as [|p|p]; try lia.
    split; [reflexivity|].
    repeat split; intros; rewrite percentage_pos;
      unfold Qlt, Qle; cbn [Qnum Qden]; lia.
Qed.

Lemma attendance_percentage_spec_witness :
  attendance_percentage 7 0 = 0
  /\ 100 < attendance_percentage 31 10
  /\ 0 <= attendance_percentage 20 25 <= 100.
Proof.
  split; [|split].
  - apply (proj1 (attendance_percentage_spec 7 0)). lia.
  - apply (proj2 (attendance_percentage_spec 31 10)); lia.
  - apply (proj2 (attendance_percentage_spec 20 25)); lia.
Defined.

(** The three bands of [attendance_status]. *)
Lemma status_cases (x : Q) :
  (75 <= x /\ attendance_status x = Good)
  \/ (50 <= x /\ x < 75 /\ attendance_status x = Average)
  \/ (x < 50 /\ attendance_status x = Poor).
Proof.
  unfold attendance_status.
  destruct (Qle_bool 75 x) eqn:E75.
  - left. split; [apply Qle_bool_iff, E75|reflexivity].
  - apply Qle_bool_false in E75. destruct (Qle_bool 50 x) eqn:E50.
    + right; left. repeat split; [apply Qle_bool_iff, E50|exact E75].
    + right; right. split; [apply Qle_bool_false, E50|reflexivity].
Qed.

(** C8: attendance_status is Good iff percent >= 75, Average iff
    50 <= percent < 75 and Poor iff percent < 50 (each band includes its
    lower bound), and it is monotone: a larger percentage never gets a
    lower label. *)
Theorem attendance_status_bands (p q : Q) :
  (attendance_status p = Good <-> 75 <= p)
  /\ (attendance_status p = Average <-> 50 <= p /\ p < 75)
  /\ (attendance_status p = Poor <-> p < 50)
  /\ (p <= q -> (rank (attendance_status p) <= rank (attendance_status q))%nat).
Proof.
  assert (B : forall x,
    (attendance_status x = Good <-> 75 <= x)
    /\ (attendance_status x = Average <-> 50 <= x /\ x < 75)
    /\ (attendance_status x = Poor <-> x < 50)).
  { intro x.
    destruct (status_cases x) as [[X1 Sx]|[(X1 & X2 & Sx)|[X1 Sx]]];
      rewrite Sx; unfold Qle, Qlt in *; cbn [Qnum Qden] in *;
      repeat split; intros; try discriminate; try reflexivity; try lia. }
  destruct (B p) as (G & A & P). repeat split; try tauto.
  intro L.
  destruct (status_cases p) as [[P1 Sp]|[(P1 & P2 & Sp)|[P1 Sp]]];
    destruct (status_cases q) as [[Q1 Sq]|[(Q1 & Q2 & Sq)|[Q1 Sq]]];
    rewrite Sp, Sq; cbn [rank]; try lia; exfalso.
  - apply (Qlt_not_le _ _ Q2). eapply Qle_trans; eassumption.
  - apply (Qlt_not_le _ _ Q1). eapply Qle_trans; [|eassumption].
    eapply Qle_trans; [|eassumption]. discriminate.
  - apply (Qlt_not_le _ _ Q1). eapply Qle_trans; eassumption.
Qed.

Lemma attendance_status_bands_witness :
  (rank (attendance_status (attendance_percentage 12 25))
   <= rank (attendance_status (attendance_percentage 19 25)))%nat.
Proof.
  apply (proj2 (proj2 (proj2 (attendance_status_bands
           (attendance_percentage 12 25) (attendance_percentage 19 25))))).
  vm_compute. discriminate.
Defined.

(** Two labels with the same rank are the same label. *)
Lemma status_eqb_eq (a b : status) : status_eqb a b = true -> a = b.
Proof. destruct a, b; cbn; intro H; try reflexivity; discriminate H. Qed.

Lemma in_spin_range (d w : Z) :
  (0 <= d <= 31)%Z -> (1 <= w <= 31)%Z -> In (d, w) spin_range.
Proof.
  intros Hd Hw. unfold spin_range. apply in_prod.
  - apply in_map_iff. exists (Z.to_nat d). split; [lia|]. apply in_seq. lia.
  - apply in_map_iff. exists (Z.to_nat w). split; [lia|]. apply in_seq. lia.
Qed.

(** X1: The attendance figures do not depend on the rounding of binary64:
    for every number of days present from 0 to 31 and every number of
    working days from 1 to 31, the percentage computed in IEEE binary64
    gets the status label of the exact quotient, is not negative, and is
    at most 100 exactly when the exact quotient is. *)
Theorem binary64_same_status (days_present working_days : Z) :
  (0 <= days_present <= 31)%Z -> (1 <= working_days <= 31)%Z ->
  attendance_status_f64 (attendance_percentage_f64 days_present working_days)
  = snd (update_attendance_percentage days_present working_days)
  /\ (0 <=? attendance_percentage_f64 days_present working_days)%float = true
  /\ (attendance_percentage_f64 days_present working_days <=? 100)%float
     = Qle_bool (fst (update_attendance_percentage days_present working_days)) 100.
Proof.
  intros Hd Hw.
  pose proof (proj1 (forallb_forall agrees_on spin_range) binary64_agrees
                (days_present, working_days) (in_spin_range Hd Hw)) as A.
  unfold agrees_on in A. apply andb_prop in A. destruct A as [A C].
  apply andb_prop in A. destruct A as [A B].
  unfold update_attendance_percentage. cbn [fst snd].
  split; [apply status_eqb_eq, A|]. split; [exact B|].
  apply Bool.eqb_prop, C.
Qed.

Lemma binary64_same_status_witness :
  attendance_status_f64 (attendance_percentage_f64 19 25)
  = snd (update_attendance_percentage 19 25)
  /\ (0 <=? attendance_percentage_f64 19 25)%float = true
  /\ (attendance_percentage_f64 19 25 <=? 100)%float
     = Qle_bool (fst (update_attendance_percentage 19 25)) 100.
Proof. apply (@binary64_same_status 19%Z 25%Z); lia. Defined.

End LedgerFacts.

(* ================================================================== *)
(** ** Facts about decimal strings *)
(* ================================================================== *)

Module PyStrFacts.

Import PyStr Scenario.
Local Open Scope string_scope.
Local Open Scope Z_scope.

Lemma unpad_zeros (k : nat) (s : string) : unpad (zeros k ++ s) = unpad s.
Proof.
  induction k as [|k IH]; [reflexivity|].
  unfold unpad in *. cbn [zeros append NilEmpty.uint_of_string].
  destruct (NilEmpty.uint_of_string (zeros k ++ s)) as [d|];
    destruct (NilEmpty.uint_of_string s) as [d'|];
    cbn in *; try discriminate; try reflexivity.
  exact IH.
Qed.

Lemma str_pos (p : positive) :
  str (Z.pos p) = NilEmpty.string_of_uint (Pos.to_uint p)
  /\ Pos.to_uint p <> Decimal.Nil.
Proof.
  assert (N : Pos.to_uint p <> Decimal.Nil).
  { intro E. pose proof (DecimalPos.Unsigned.of_to p) as H.
    rewrite E in H. discriminate. }
  split; [|exact N].
  unfold str. cbn [Z.to_int NilZero.string_of_int NilZero.string_of_uint].
  destruct (Pos.to_uint p); [contradiction|reflexivity..].
Qed.

Lemma unpad_str (n : Z) : 0 <= n -> unpad (str n) = Some n.
Proof.
  intro H. destruct n as [|p|p]; [reflexivity| |lia].
  destruct (str_pos p) as [E _]. rewrite E. unfold unpad.
  rewrite NilEmpty.usu. cbn [option_map]. f_equal.
  unfold Z.of_uint. rewrite DecimalPos.Unsigned.of_to. reflexivity.
Qed.

(** The text of a non-negative number starts with a digit, not a sign. *)
Lemma str_head (n : Z) :
  0 <= n -> exists c rest, str n = String c rest /\ is_sign c = false.
Proof.
  intro H. destruct n as [|p|p]; [| |lia].
  - exists "0"%char, "". split; reflexivity.
  - destruct (str_pos p) as [E N]. rewrite E.
    destruct (Pos.to_uint p); [contradiction|..];
      cbn [NilEmpty.string_of_uint]; eexists; eexists; split; reflexivity.
Qed.

Lemma zfill_str (w : nat) (n : Z) :
  0 <= n -> zfill w (str n) = zeros (w - String.length (str n)) ++ str n.
Proof.
  intro H. destruct (str_head H) as (c & rest & E & S).
  unfold zfill. rewrite E, S. reflexivity.
Qed.

(** Padding loses nothing: distinct numbers get distinct texts. *)
Lemma zfill_str_inj (w : nat) (a b : Z) :
  0 <= a -> 0 <= b -> zfill w (str a) = zfill w (str b) -> a = b.
Proof.
  intros Ha Hb E.
  assert (U : unpad (zfill w (str a)) = unpad (zfill w (str b))) by (rewrite E; reflexivity).
  rewrite !zfill_str, !unpad_zeros, !unpad_str in U by assumption.
  congruence.
Qed.

End PyStrFacts.

(* ================================================================== *)
(** ** Facts about the student-number allocator *)
(* ================================================================== *)

Module StudentNumberFacts.

Import PyStr Sqlite Py DatabaseManager MainWindow Scenario PyStrFacts.
Local Open Scope string_scope.
Local Open Scope Z_scope.

Lemma student_number_of_inj (i j : nat) :
  student_number_of i = student_number_of j -> i = j.
Proof.
  unfold student_number_of. cbn [append]. intro E.
  injection E as E. apply zfill_str_inj in E; lia.
Qed.

Lemma generate_student_number_count (db : database) :
  generate_student_number db
  = student_number_of (S (List.length (rows (students db)))).
Proof.
  unfold generate_student_number, student_number_of, Sqlite.count.
  rewrite Nat2Z.inj_succ, Z.add_1_r. reflexivity.
Qed.

Lemma collides_students (new old : row) :
  collides students_def new old = sql_eq (col 1 old) (col 1 new).
Proof. unfold collides. cbn. apply orb_false_r. Qed.

Lemma numbered_length (k : nat) (t : table) :
  numbered k t -> List.length (rows t) = k.
Proof.
  intro H. apply (f_equal (@List.length _)) in H.
  now rewrite !length_map, length_seq in H.
Qed.

Lemma numbered_fresh (k : nat) (t : table) (new : row) :
  numbered k t -> col 1 new = VText (student_number_of (S k)) ->
  existsb (collides students_def new) (rows t) = false.
Proof.
  intros H N. destruct (existsb _ _) eqn:E; [exfalso|reflexivity].
  apply existsb_exists in E. destruct E as (old & I & C).
  rewrite collides_students, N in C.
  assert (J : In (col 1 old) (map (col 1) (rows t))) by (apply in_map; exact I).
  rewrite H in J. apply in_map_iff in J. destruct J as (i & Ei & Ii).
  rewrite <- Ei in C. cbn [sql_eq] in C. apply String.eqb_eq in C.
  apply student_number_of_inj in C. apply in_seq in Ii. lia.
Qed.

(** Saving a filled-in form whose number is the next one succeeds and
    appends the number. *)
Lemma save_student_next (k : nat) (form : student_form) (session : string)
    (db : database) :
  numbered k (students db) -> filled_in form = true ->
  exists db',
    save_student (with_number (generate_student_number db) form) session db
      = (Success, db')
    /\ numbered (S k) (students db').
Proof.
  intros H F. unfold filled_in in F.
  repeat (apply andb_prop in F; destruct F as [F ?]).
  rewrite negb_true_iff in *.
  unfold save_student. cbn [student_name_input student_roll_input
    student_parent_input student_phone_input student_address_input
    student_number_input student_class_combo student_section_combo
    student_gender_combo student_dob_input with_number].
  repeat match goal with E : is_empty _ = false |- _ => rewrite E; clear E end.
  unfold execute_insert. cbn -[next_rowid generate_student_number].
  rewrite (numbered_fresh (k := k)); [|exact H|].
  - eexists. split; [reflexivity|].
    unfold numbered. cbn [students rows]. rewrite map_app, H.
    rewrite seq_S, map_app. cbn [map col nth]. f_equal. f_equal. f_equal.
    rewrite generate_student_number_count, (numbered_length H). reflexivity.
  - cbn [col nth]. f_equal.
    rewrite generate_student_number_count, (numbered_length H). reflexivity.
Qed.

Lemma enrol_from (forms : list student_form) (session : string) :
  forall (k : nat) (db : database),
    numbered k (students db) -> forallb filled_in forms = true ->
    map fst (fst (enrol forms session db))
      = map student_number_of (List.seq (S k) (List.length forms))
    /\ Forall (fun nr => snd nr = Success) (fst (enrol forms session db))
    /\ numbered (k + List.length forms) (students (snd (enrol forms session db))).
Proof.
  induction forms as [|form rest IH]; intros k db H F.
  - cbn. rewrite Nat.add_0_r. repeat split; [constructor|exact H].
  - cbn [forallb] in F. apply andb_prop in F. destruct F as [F1 F2].
    destruct (save_student_next form session db H F1) as (db' & E & H').
    cbn [enrol]. rewrite E.
    specialize (IH (S k) db' H' F2).
    destruct (enrol rest session db') as [issued db''].
    cbn [fst snd map List.length List.seq] in *.
    destruct IH as (I1 & I2 & I3). repeat split.
    + rewrite I1, generate_student_number_count, (numbered_length H). reflexivity.
    + constructor; [reflexivity|exact I2].
    + replace (k + S (List.length rest))%nat with (S k + List.length rest)%nat by lia.
      exact I3.
Qed.

(** C9: the student number is STU followed by (number of student rows,
    whatever their session, plus 1) on six digits; starting with no student
    rows, enrolling N students one after the other (number generated, form
    saved) issues STU000001, STU000002, ... up to the N-th, every save
    succeeds, and no number is issued twice. *)
Theorem student_numbers_sequential (forms : list student_form)
    (session : string) (db : database) :
  generate_student_number db
    = "STU" ++ zfill 6 (str (Z.of_nat (List.length (rows (students db))) + 1))
  /\ (rows (students db) = [] -> forallb filled_in forms = true ->
      map fst (fst (enrol forms session db))
        = map student_number_of (List.seq 1 (List.length forms))
      /\ Forall (fun nr => snd nr = Success) (fst (enrol forms session db))
      /\ NoDup (map fst (fst (enrol forms session db)))
      /\ map (col 1) (rows (students (snd (enrol forms session db))))
         = map (fun i => VText (student_number_of i)) (List.seq 1 (List.length forms))).
Proof.
  split; [reflexivity|]. intros E F.
  assert (H : numbered 0 (students db)) by (unfold numbered; rewrite E; reflexivity).
  destruct (@enrol_from forms session 0%nat db H F) as (I1 & I2 & I3).
  repeat split; try assumption.
  rewrite I1. apply Injective_map_NoDup; [|apply seq_NoDup].
  intros i j. apply student_number_of_inj.
Qed.

(** Without the empty start the numbers can repeat: after two students
    are enrolled and the first is deleted, one row is left, the next
    number is STU000002 again, and saving with it is refused. *)
Lemma number_reused_after_delete :
  map (col 1) (rows (students school_after_delete)) = [VText "STU000002"]
  /\ generate_student_number school_after_delete = "STU000002"
  /\ fst (save_student
            (with_number (generate_student_number school_after_delete) student_3)
            "2024-25" school_after_delete)
     = AlreadyExists.
Proof. repeat split. Qed.

Lemma student_numbers_sequential_witness :
  map fst (fst (enrol [student_1; student_2; student_3] "2024-25" init_database))
  = ["STU000001"; "STU000002"; "STU000003"].
Proof.
  apply (proj2 (student_numbers_sequential
                  [student_1; student_2; student_3] "2024-25" init_database));
    reflexivity.
Defined.

End StudentNumberFacts.

(* ================================================================== *)
(** ** Facts about the receipt-number allocator *)
(* ================================================================== *)

Module ReceiptNumberFacts.

Import PyStr Sqlite Py DatabaseManager MainWindow Scenario.
Local Open Scope string_scope.
Local Open Scope Z_scope.

(** A digit is neither white space nor a sign. *)
Lemma digit_plain (c : ascii) :
  is_digit c = true ->
  is_py_space c = false /\ is_sql_space c = false
  /\ Ascii.eqb c "-" = false /\ Ascii.eqb c "+" = false
  /\ exists d, digit_of c = Some d /\ 0 <= d <= 9.
Proof.
  destruct c as [[|] [|] [|] [|] [|] [|] [|] [|]]; vm_compute; intro H;
    try discriminate H; repeat split; try reflexivity;
    eexists; (split; [reflexivity|split; discriminate]).
Qed.

Lemma drop_while_head (f : ascii -> bool) (c : ascii) (r : list ascii) :
  f c = false -> drop_while f (c :: r) = c :: r.
Proof. intro H. cbn. rewrite H. reflexivity. Qed.

Lemma strip_digits (l : list ascii) :
  forallb is_digit l = true -> strip l = l.
Proof.
  intro H. unfold strip.
  assert (D : forall l', forallb is_digit l' = true ->
                         drop_while is_py_space l' = l').
  { intros [|c r] H'; [reflexivity|]. cbn [forallb] in H'.
    apply andb_prop in H'. apply drop_while_head, (digit_plain c), H'. }
  rewrite (D l H), D, rev_involutive; [reflexivity|].
  apply forallb_forall. intros x I. apply in_rev in I.
  revert x I. apply forallb_forall, H.
Qed.

Lemma int_digits_all (l : list ascii) :
  forall (b : bool) (acc : Z),
    forallb is_digit l = true -> l <> [] ->
    int_digits b acc l = Some (leading_digits acc l).
Proof.
  induction l as [|c r IH]; intros b acc H N; [contradiction|].
  cbn [forallb] in H. apply andb_prop in H. destruct H as [Hc Hr].
  destruct (digit_plain c Hc) as (_ & _ & _ & _ & d & Ed & _).
  cbn [int_digits leading_digits]. rewrite Ed.
  destruct r as [|c' r']; [reflexivity|].
  apply IH; [exact Hr|discriminate].
Qed.

Lemma leading_digits_ge (l : list ascii) :
  forall acc, 0 <= acc -> acc <= leading_digits acc l.
Proof.
  induction l as [|c r IH]; intros acc H; cbn [leading_digits]; [lia|].
  destruct (digit_of c) as [d|] eqn:E; [|lia].
  assert (Hc : is_digit c = true) by (unfold is_digit; rewrite E; reflexivity).
  destruct (digit_plain c Hc) as (_ & _ & _ & _ & d' & Ed & Hd).
  assert (d' = d) by congruence. subst d'.
  specialize (IH (10 * acc + d)). lia.
Qed.

Lemma decimal_nonneg (s : string) : 0 <= decimal s.
Proof. unfold decimal. apply leading_digits_ge. lia. Qed.

Lemma numeric_chars (s : string) :
  numeric s = true ->
  exists c r, list_ascii_of_string s = c :: r
              /\ forallb is_digit (c :: r) = true.
Proof.
  unfold numeric. intro H. apply andb_prop in H. destruct H as [N F].
  destruct s as [|c s']; [discriminate|].
  exists c, (list_ascii_of_string s'). split; [reflexivity|exact F].
Qed.

(** [int()] reads a run of digits as the number it denotes. *)
Lemma int_numeric (s : string) :
  numeric s = true -> PyStr.int s = Some (decimal s).
Proof.
  intro H. destruct (numeric_chars s H) as (c & r & E & F).
  unfold PyStr.int, decimal. rewrite E, (strip_digits _ F).
  assert (Hc : is_digit c = true)
    by (cbn [forallb] in F; apply andb_prop in F; apply F).
  destruct (digit_plain c Hc) as (_ & _ & M & P & _). rewrite M, P.
  apply int_digits_all; [exact F|discriminate].
Qed.

(** So does the CAST, as long as the number fits 64 bits. *)
Lemma cast_numeric (s : string) :
  numeric s = true -> decimal s <= int64_max -> cast_integer s = decimal s.
Proof.
  intros H B. destruct (numeric_chars s H) as (c & r & E & F).
  pose proof (decimal_nonneg s) as P.
  unfold cast_integer, decimal in *. rewrite E in *.
  assert (Hc : is_digit c = true)
    by (cbn [forallb] in F; apply andb_prop in F; apply F).
  destruct (digit_plain c Hc) as (_ & S & M & Pl & _).
  rewrite (@drop_while_head is_sql_space c r S), M, Pl.
  unfold clamp64, int64_min, int64_max in *. lia.
Qed.

Lemma well_formed_key (v : value) :
  well_formed v = true ->
  cast_key v = decimal (suffix v)
  /\ PyStr.int (suffix v) = Some (decimal (suffix v)).
Proof.
  unfold well_formed, cast_key. intro H. apply andb_prop in H.
  destruct H as [N B]. apply Z.leb_le in B.
  split; [apply cast_numeric|apply int_numeric]; assumption.
Qed.

(** [top_by] returns a row of the list with the largest key; the facts
    below use nothing else of it, so they hold however SQLite orders rows
    with equal keys. *)
Lemma top_by_spec (key : row -> Z) (l : list row) :
  match top_by key l with
  | Some r => In r l /\ forall s, In s l -> key s <= key r
  | None => l = []
  end.
Proof.
  induction l as [|s l IH]; [reflexivity|].
  cbn [top_by]. destruct (top_by key l) as [b|].
  - destruct IH as [Ib Mb]. destruct (Z.ltb_spec (key s) (key b)).
    + split; [right; exact Ib|]. intros x [<-|I]; [lia|apply Mb, I].
    + split; [left; reflexivity|].
      intros x [<-|I]; [lia|]. specialize (Mb x I). lia.
  - subst l. split; [left; reflexivity|]. intros x [<-|[]]. lia.
Qed.

(** With no receipt matching the LIKE, the first number is issued. *)
Lemma first_receipt (db : database) :
  rec_numbers db = [] -> generate_receipt_number db = inr "REC000001".
Proof.
  unfold rec_numbers, generate_receipt_number. intro E.
  apply map_eq_nil in E. rewrite E. reflexivity.
Qed.

(** When a well-formed receipt carries the number [m], no well-formed
    receipt a larger one, and every other matching receipt sorts strictly
    below [m], the next number is [m + 1]. *)
Lemma next_receipt (db : database) (m : Z) :
  (exists v, In v (rec_numbers db) /\ well_formed v = true
             /\ decimal (suffix v) = m) ->
  (forall v, In v (rec_numbers db) ->
             if well_formed v then decimal (suffix v) <= m else cast_key v < m) ->
  generate_receipt_number db = inr ("REC" ++ zfill 6 (str (m + 1))).
Proof.
  intros (w & Iw & Ww & Dw) Dom.
  unfold generate_receipt_number, rec_numbers in *.
  set (matching := select _ (fee_payments db)) in *.
  pose proof (top_by_spec (fun s => cast_integer (suffix (col 1 s))) matching) as T.
  destruct (top_by _ matching) as [r|].
  - destruct T as [Ir Mr].
    apply in_map_iff in Iw. destruct Iw as (sw & Ew & Isw).
    specialize (Mr sw Isw). cbn beta in Mr. rewrite Ew in Mr.
    destruct (well_formed_key w Ww) as [Kw _]. unfold cast_key in Kw.
    rewrite Kw, Dw in Mr.
    specialize (Dom (col 1 r) (in_map (col 1) _ _ Ir)).
    destruct (well_formed (col 1 r)) eqn:Wr.
    + destruct (well_formed_key _ Wr) as [Kr Pr]. unfold cast_key in Kr.
      rewrite Pr. cbn [bind ret]. rewrite Kr in Mr.
      replace (decimal (suffix (col 1 r))) with m by lia. reflexivity.
    + unfold cast_key in Dom. lia.
  - subst matching. rewrite T in Iw. destruct Iw.
Qed.

Lemma max_suffix_bound (l : list value) :
  forall v, In v l -> decimal (suffix v) <= max_suffix l.
Proof.
  induction l as [|x l IH]; intros v []; cbn [max_suffix fold_right].
  - subst x. lia.
  - specialize (IH v H). unfold max_suffix in IH. lia.
Qed.

Lemma max_suffix_reached (l : list value) :
  l <> [] -> exists v, In v l /\ decimal (suffix v) = max_suffix l.
Proof.
  induction l as [|x l IH]; intro N; [contradiction|].
  cbn [max_suffix fold_right]. fold (max_suffix l).
  destruct l as [|y l'].
  - exists x. split; [left; reflexivity|].
    cbn. pose proof (decimal_nonneg (suffix x)). lia.
  - destruct IH as (v & I & E); [discriminate|].
    destruct (Z.le_ge_cases (decimal (suffix x)) (max_suffix (y :: l'))).
    + exists v. split; [right; exact I|]. lia.
    + exists x. split; [left; reflexivity|]. lia.
Qed.

(** C4: when every receipt number the REC prefix selects (in any session)
    ends in a run of digits, the next receipt number is REC followed by
    (the largest such number + 1) on six digits; with no receipt at all it
    is REC000001, and with REC000001 and REC000005 it is REC000006. *)
Theorem receipt_number_is_max_plus_one (db : database) :
  (forallb well_formed (rec_numbers db) = true ->
   generate_receipt_number db
     = inr ("REC" ++ zfill 6 (str (max_suffix (rec_numbers db) + 1))))
  /\ generate_receipt_number init_database = inr "REC000001"
  /\ generate_receipt_number
       (with_fee_rows [fee_row 1 "REC000001" "STU000001";
                       fee_row 2 "REC000005" "STU000002"] init_database)
     = inr "REC000006".
Proof.
  split; [|split; reflexivity].
  intro W. destruct (rec_numbers db) as [|x l] eqn:E.
  - apply first_receipt, E.
  - rewrite <- E in *.
    destruct (max_suffix_reached (l := rec_numbers db)) as (v & I & M);
      [rewrite E; discriminate|].
    apply next_receipt.
    + exists v. repeat split; try assumption.
      exact (proj1 (forallb_forall _ _) W v I).
    + intros u Iu. rewrite (proj1 (forallb_forall _ _) W u Iu).
      apply max_suffix_bound, Iu.
Qed.

Lemma receipt_number_is_max_plus_one_witness :
  forallb well_formed (rec_numbers receipts_41_rec7) = true
  /\ generate_receipt_number receipts_41_rec7 = inr "REC000042".
Proof.
  split; [reflexivity|].
  exact (proj1 (receipt_number_is_max_plus_one receipts_41_rec7) eq_refl).
Defined.

(** C5, as amended: a malformed receipt number is not filtered out.  It
    sorts by the integer its suffix starts with (0 when it starts with
    none); when that lies strictly below the largest well-formed number m,
    the malformed number is passed over and the next number is m + 1; when
    no matching receipt number can be read as an integer, the allocator
    raises ValueError. *)
Theorem malformed_receipt_below_max (db : database) (m : Z) :
  ((exists v, In v (rec_numbers db) /\ well_formed v = true
              /\ decimal (suffix v) = m) ->
   (forall v, In v (rec_numbers db) ->
              if well_formed v then decimal (suffix v) <= m else cast_key v < m) ->
   generate_receipt_number db = inr ("REC" ++ zfill 6 (str (m + 1))))
  /\ (rec_numbers db <> [] ->
      (forall v, In v (rec_numbers db) -> PyStr.int (suffix v) = None) ->
      generate_receipt_number db = inl ValueError).
Proof.
  split; [apply next_receipt|].
  intros N A. unfold generate_receipt_number, rec_numbers in *.
  set (matching := select _ (fee_payments db)) in *.
  pose proof (top_by_spec (fun s => cast_integer (suffix (col 1 s))) matching) as T.
  destruct (top_by _ matching) as [r|].
  - destruct T as [Ir _]. rewrite (A (col 1 r) (in_map (col 1) _ _ Ir)).
    reflexivity.
  - rewrite T in N. contradiction.
Qed.

Lemma malformed_receipt_below_max_witness :
  generate_receipt_number receipts_20_abc_12abc = inr "REC000021"
  /\ generate_receipt_number receipts_abc = inl ValueError.
Proof.
  split.
  - apply (proj1 (malformed_receipt_below_max receipts_20_abc_12abc 20)).
    + exists (VText "REC000020"). repeat split. left. reflexivity.
    + intros v I. vm_compute in I.
      destruct I as [<-|[<-|[<-|[]]]]; vm_compute;
        first [reflexivity|discriminate].
  - apply (proj2 (malformed_receipt_below_max receipts_abc 0)).
    + discriminate.
    + intros v I. vm_compute in I. destruct I as [<-|[]]. reflexivity.
Defined.

(** C5, as stated, fails: with RECabc as the only receipt, and with
    REC12abc next to REC000005, a receipt number has a non-numeric suffix
    and the allocator raises ValueError. *)
Lemma malformed_receipt_raises :
  existsb (fun v => negb (numeric (suffix v))) (rec_numbers receipts_abc) = true
  /\ generate_receipt_number receipts_abc = inl ValueError
  /\ existsb (fun v => negb (numeric (suffix v))) (rec_numbers receipts_5_12abc) = true
  /\ generate_receipt_number receipts_5_12abc = inl ValueError.
Proof. repeat split. Qed.

End ReceiptNumberFacts.

(* ================================================================== *)
(** ** Facts about tables *)
(* ================================================================== *)

Module TableFacts.

Import PyStr Sqlite Py DatabaseManager MainWindow Scenario.
Local Open Scope string_scope.
Local Open Scope Z_scope.

Lemma pairwise_distinct_filter (same : row -> row -> bool) (f : row -> bool)
    (l : list row) :
  pairwise_distinct same l = true -> pairwise_distinct same (filter f l) = true.
Proof.
  induction l as [|s r IH]; [reflexivity|].
  cbn [pairwise_distinct filter]. intro H. apply andb_prop in H.
  destruct H as [N D]. destruct (f s); [|apply IH, D].
  cbn [pairwise_distinct]. rewrite (IH D), andb_true_r.
  apply negb_true_iff. apply negb_true_iff in N.
  destruct (existsb (same s) (filter f r)) eqn:E; [|reflexivity].
  apply existsb_exists in E. destruct E as (x & I & S).
  apply filter_In in I. rewrite <- N. symmetry.
  apply existsb_exists. exists x. split; [apply I|exact S].
Qed.

Lemma pairwise_distinct_snoc (same : row -> row -> bool) (l : list row)
    (new : row) :
  pairwise_distinct same l = true ->
  (forall old, In old l -> same old new = false) ->
  pairwise_distinct same (l ++ [new]) = true.
Proof.
  induction l as [|s r IH]; intros D F; [reflexivity|].
  cbn [pairwise_distinct app] in *. apply andb_prop in D. destruct D as [N D].
  rewrite IH; [|exact D|intros old I; apply F; right; exact I].
  rewrite andb_true_r, existsb_app. cbn [existsb].
  apply negb_true_iff in N. rewrite N, (F s); [reflexivity|left; reflexivity].
Qed.

Lemma pairwise_distinct_map (same same' : row -> row -> bool) (f : row -> row)
    (l : list row) :
  (forall a b, same' (f a) (f b) = same a b) ->
  pairwise_distinct same' (map f l) = pairwise_distinct same l.
Proof.
  intro H. induction l as [|s r IH]; [reflexivity|].
  cbn [map pairwise_distinct]. rewrite IH. f_equal. f_equal.
  clear IH. induction r as [|x r IH]; [reflexivity|].
  cbn [map existsb]. now rewrite H, IH.
Qed.

(** A table without UNIQUE columns has no collisions. *)
Lemma no_collision (d : table_def) (new : row) (l : list row) :
  unique_columns d = [] -> existsb (collides d new) l = false.
Proof.
  intro U. induction l as [|s r IH]; [reflexivity|].
  cbn [existsb]. rewrite IH. unfold collides. rewrite U. reflexivity.
Qed.

End TableFacts.

(* ================================================================== *)
(** ** Facts about saving attendance *)
(* ================================================================== *)

Module AttendanceFacts.

Import PyStr Sqlite Py DatabaseManager MainWindow Scenario TableFacts.
Local Open Scope string_scope.
Local Open Scope Z_scope.

Lemma col_set_nth_other (j : nat) (v : value) :
  forall (k : nat) (s : row), k <> j -> col k (set_nth j v s) = col k s.
Proof.
  unfold col. induction j as [|j IH]; intros k s N.
  - destruct s as [|x r]; [reflexivity|]. destruct k; [contradiction|reflexivity].
  - destruct s as [|x r]; [reflexivity|]. destruct k; [reflexivity|].
    cbn [set_nth nth]. apply IH. intro E. apply N. now rewrite E.
Qed.

(** The UPDATE of [save_attendance] leaves the four key columns alone. *)
Lemma update_keeps_key (sets : list (nat * value)) :
  forall s k,
    ~ In k (map fst sets) ->
    col k (fold_left (fun s' kv => set_nth (fst kv) (snd kv) s') sets s) = col k s.
Proof.
  induction sets as [|[j v] rest IH]; intros s k N; [reflexivity|].
  cbn [fold_left fst snd]. rewrite IH.
  - apply col_set_nth_other. intro E. apply N. left. now rewrite E.
  - intro I. apply N. right. exact I.
Qed.

(** Against a cell that is not NULL, the comparison of two fetched cells
    is the [=] of a WHERE clause. *)
Lemma py_eq_sql_eq (a b : value) : b <> VNull -> py_eq a b = sql_eq a b.
Proof. intro N. destruct a, b; try reflexivity. contradiction. Qed.

(** One line of the sheet keeps the keys of the attendance rows
    distinct when the students have student numbers: an existing row is
    updated in place, a new row is added only when no row has its key. *)
Lemma save_attendance_loop_distinct
    (selected_class selected_section month year : string) (working_days : Z)
    (current_session : string) (students_table : table)
    (lines : list attendance_line) :
  (forall s, In s (rows students_table) -> col 1 s <> VNull) ->
  forall (t t' : table) (n n' : Z),
    save_attendance_loop selected_class selected_section month year
      working_days current_session students_table lines t n = inr (t', n') ->
    pairwise_distinct same_attendance_key (rows t) = true ->
    pairwise_distinct same_attendance_key (rows t') = true.
Proof.
  intro Numbered.
  induction lines as [|line rest IH]; intros t t' n n' E D.
  - cbn in E. injection E as <- _. exact D.
  - cbn [save_attendance_loop] in E.
    destruct (select _ students_table) as [|result others] eqn:Found;
      [exact (IH _ _ _ _ E D)|].
    assert (Number : col 1 result <> VNull).
    { apply Numbered.
      assert (I : In result (result :: others)) by (left; reflexivity).
      rewrite <- Found in I. apply filter_In in I. exact (proj1 I). }
    set (student_number := col 1 result) in *.
    set (key := attendance_key student_number (VText month) (VText year)
                  (VText current_session)) in *.
    destruct (select key t) as [|hit more] eqn:S.
    + unfold execute_insert in E. cbn -[next_rowid key] in E.
      rewrite no_collision in E by reflexivity. cbn [Exn.bind Exn.ret] in E.
      apply IH in E; [exact E|]. cbn [rows].
      apply pairwise_distinct_snoc; [exact D|].
      intros old I. unfold same_attendance_key. cbn [col nth].
      fold student_number.
      rewrite (py_eq_sql_eq _ Number), !py_eq_sql_eq by discriminate.
      change (key old = false).
      destruct (key old) eqn:K; [|reflexivity].
      assert (J : In old (select key t)) by (apply filter_In; split; assumption).
      rewrite S in J. destruct J.
    + cbn [Exn.bind Exn.ret] in E. apply IH in E; [exact E|].
      unfold update_where. cbn [rows].
      rewrite (pairwise_distinct_map same_attendance_key); [exact D|].
      intros a b. unfold same_attendance_key.
      assert (U : forall s k, In k [1; 4; 5; 9]%nat ->
                col k (if key s
                       then fold_left (fun s' kv => set_nth (fst kv) (snd kv) s')
                              [(2%nat, VText selected_class);
                               (3%nat, VText selected_section);
                               (6%nat, VInt working_days);
                               (7%nat, VInt (line_days_present line));
                               (8%nat, VReal (line_percentage line))] s
                       else s)
                = col k s).
      { intros s k I. destruct (key s); [|reflexivity].
        apply update_keeps_key. cbn [map fst].
        cbn [In] in *. intuition lia. }
      rewrite !U by (cbn [In]; tauto). reflexivity.
Qed.

(** X2: When every student row has a student number, saving an
    attendance sheet never creates a second row with a key that a row
    already has: attendance rows with distinct
    (student_number, month, year, session) before [save_attendance] have
    distinct ones after it, however the save ends.  Two rows without a
    student number and with the same month, year and session count as
    rows with the same key. *)
Lemma save_attendance_keeps_keys_distinct (lines : list attendance_line)
    (selected_class selected_section month year : string) (working_days : Z)
    (current_session : string) (db : database) :
  (forall s, In s (rows (students db)) -> col 1 s <> VNull) ->
  pairwise_distinct same_attendance_key (rows (attendance db)) = true ->
  pairwise_distinct same_attendance_key
    (rows (attendance
             (snd (save_attendance lines selected_class selected_section month
                     year working_days current_session db)))) = true.
Proof.
  intros Numbered D. unfold save_attendance.
  destruct lines as [|line rest]; [exact D|].
  destruct (save_attendance_loop _ _ _ _ _ _ _ _ _ _) as [e|[t n]] eqn:E;
    [exact D|].
  cbn [snd attendance].
  exact (@save_attendance_loop_distinct _ _ _ _ _ _ _ _ Numbered _ _ _ _ E D).
Qed.

Lemma save_attendance_keeps_keys_distinct_witness :
  pairwise_distinct same_attendance_key
    (rows (attendance
             (snd (save_attendance
                     [{| line_student_name := "Asha Rao"; line_days_present := 10;
                         line_percentage := 40 |};
                      {| line_student_name := "Asha Rao"; line_days_present := 12;
                         line_percentage := 48 |}]
                     "Class 5" "A" "March" "2025" 25 "2024-25" school_b)))) = true.
Proof.
  apply (@save_attendance_keeps_keys_distinct
           [{| line_student_name := "Asha Rao"; line_days_present := 10;
               line_percentage := 40 |};
            {| line_student_name := "Asha Rao"; line_days_present := 12;
               line_percentage := 48 |}]
           "Class 5" "A" "March" "2025" 25 "2024-25" school_b).
  - intros s [<-|[]]. discriminate.
  - reflexivity.
Defined.

(** The student numbers are needed: a student row without one (restored
    from a file whose entry has [null] for it) is found by name, its NULL
    matches no attendance row in [student_number = ?], and every save of
    the sheet adds another row with the key (NULL, March, 2025, 2024-25). *)
Lemma numberless_student_saved_twice :
  map (col 1) (rows (students school_numberless)) = [VNull]
  /\ map (fun s => (col 1 s, col 4 s, col 5 s, col 9 s))
         (rows (attendance school_numberless_saved_twice))
     = [(VNull, VText "March", VText "2025", VText "2024-25");
        (VNull, VText "March", VText "2025", VText "2024-25")]
  /\ pairwise_distinct same_attendance_key
       (rows (attendance school_numberless_saved_twice)) = false.
Proof. repeat split. Qed.

End AttendanceFacts.

(* ================================================================== *)
(** ** Facts about the complete restore *)
(* ================================================================== *)

Module RestoreFacts.

Import PyStr Sqlite Py DatabaseManager MainWindow Scenario TableFacts.
Local Open Scope string_scope.
Local Open Scope Z_scope.

Lemma length_chars (s : string) :
  List.length (list_ascii_of_string s) = String.length s.
Proof. induction s as [|c s IH]; cbn; [reflexivity|now rewrite IH]. Qed.

(** A loop that ran went through the entries of its collection, and the
    success box shows their number. *)
Lemma restore_collection_entries (d : table_def) (q : insert_stmt)
    (keys : list string) (name : string) (backup_data : object) (t t' : table) :
  restore_collection d q keys name backup_data t = inr t' ->
  exists items,
    entries backup_data name = inr items
    /\ t' = fold_left (restore_item d q keys) items t
    /\ shown backup_data name = inr (Z.of_nat (List.length items)).
Proof.
  unfold restore_collection, entries, shown.
  destruct (get backup_data name (JList [])) as [e|collection];
    cbn [Exn.bind]; [discriminate|].
  destruct collection as [| | | |text|l|kvs]; cbn [iter len Exn.bind Exn.ret];
    try discriminate; intro E; injection E as <-.
  - eexists. repeat split. now rewrite length_map, length_chars.
  - eexists. repeat split.
  - eexists. repeat split. now rewrite length_map.
Qed.

(** How [restore_complete_backup] ends: either none of the five tables
    has changed and the success box was not shown, or the five loops ran,
    each on its table (emptied first by a reset), their results were
    committed and the success box was shown. *)
Lemma restore_outcome (reply_yes : bool) (file : option (exn + object))
    (reset : bool) (db : database) :
  (same_tables (snd (restore_complete_backup reply_yes file reset db)) db
   /\ forall r, fst (restore_complete_backup reply_yes file reset db) <> Done r)
  \/ (exists backup_data r,
        file = Some (inr backup_data)
        /\ fst (restore_complete_backup reply_yes file reset db) = Done r
        /\ restore_report backup_data = inr r
        /\ restore_collection students_def restore_student
             (map fst student_fields) "students" backup_data
             (clear reset (students db))
           = inr (students (snd (restore_complete_backup reply_yes file reset db)))
        /\ restore_collection staff_def restore_staff_stmt
             (map fst staff_fields) "staff" backup_data
             (clear reset (staff db))
           = inr (staff (snd (restore_complete_backup reply_yes file reset db)))
        /\ restore_collection attendance_def restore_attendance_stmt
             (map fst attendance_fields) "attendance" backup_data
             (clear reset (attendance db))
           = inr (attendance (snd (restore_complete_backup reply_yes file reset db)))
        /\ restore_collection salary_payments_def restore_salary_stmt
             (map fst salary_fields) "salary_payments" backup_data
             (clear reset (salary_payments db))
           = inr (salary_payments (snd (restore_complete_backup reply_yes file reset db)))
        /\ restore_collection fee_payments_def restore_fee_stmt
             (map fst fee_fields) "fee_payments" backup_data
             (clear reset (fee_payments db))
           = inr (fee_payments (snd (restore_complete_backup reply_yes file reset db)))).
Proof.
  assert (Same : forall s, same_tables (with_settings s db) db)
    by (intro; repeat split).
  assert (Same' : same_tables db db) by (repeat split).
  unfold restore_complete_backup, clear.
  destruct reply_yes; cbn [negb]; [|left; split; [exact Same'|discriminate]].
  destruct file as [[e|backup_data]|];
    [left; split; [exact Same'|discriminate]| |left; split; [exact Same'|discriminate]].
  destruct (contains backup_data "school_info") as [e|has_info];
    [left; split; [exact Same'|discriminate]|].
  destruct (if has_info then _ else _) as [[e|] s];
    [left; split; [apply Same|discriminate]|].
  destruct (restore_collection students_def _ _ "students" _ _) as [e|t1] eqn:E1;
    cbn [Exn.bind]; [left; split; [apply Same|discriminate]|].
  destruct (restore_collection staff_def _ _ "staff" _ _) as [e|t2] eqn:E2;
    cbn [Exn.bind]; [left; split; [apply Same|discriminate]|].
  destruct (restore_collection attendance_def _ _ "attendance" _ _) as [e|t3] eqn:E3;
    cbn [Exn.bind]; [left; split; [apply Same|discriminate]|].
  destruct (restore_collection salary_payments_def _ _ "salary_payments" _ _)
    as [e|t4] eqn:E4;
    cbn [Exn.bind]; [left; split; [apply Same|discriminate]|].
  destruct (restore_collection fee_payments_def _ _ "fee_payments" _ _)
    as [e|t5] eqn:E5;
    cbn [Exn.bind Exn.ret]; [left; split; [apply Same|discriminate]|].
  right.
  destruct (restore_collection_entries _ _ _ _ _ _ E1) as (i1 & _ & _ & S1).
  destruct (restore_collection_entries _ _ _ _ _ _ E2) as (i2 & _ & _ & S2).
  destruct (restore_collection_entries _ _ _ _ _ _ E3) as (i3 & _ & _ & S3).
  destruct (restore_collection_entries _ _ _ _ _ _ E4) as (i4 & _ & _ & S4).
  destruct (restore_collection_entries _ _ _ _ _ _ E5) as (i5 & _ & _ & S5).
  exists backup_data.
  unfold restore_report. rewrite S1, S2, S3, S5, S4. cbn [Exn.bind Exn.ret].
  eexists. cbn [fst snd students staff attendance salary_payments fee_payments].
  repeat split; assumption.
Qed.

(** *** The fee-payment statement *)

Lemma fee_insert_fails (item : object) (t : table) :
  exists e,
    try_restore fee_payments_def restore_fee_stmt (map fst fee_fields) item t
    = inl e.
Proof.
  unfold try_restore.
  destruct (subscripts item (map fst fee_fields)) as [e|objs];
    cbn [Exn.bind]; eexists; reflexivity.
Qed.

Lemma fee_loop_unchanged (items : list object) (t : table) :
  fold_left (restore_item fee_payments_def restore_fee_stmt (map fst fee_fields))
            items t = t.
Proof.
  induction items as [|item rest IH]; [reflexivity|].
  cbn [fold_left]. unfold restore_item at 2.
  destruct (fee_insert_fails item t) as [e E]. rewrite E. exact IH.
Qed.

(** With the reset, the DELETE statements have opened a write transaction
    on [conn] when the first [set_setting] writes through a connection of
    its own: the restore of a document in which
    ['school_info' in backup_data] holds ends in its critical box. *)
Lemma reset_abandoned_on_school_info (backup_data : object) (db : database) :
  contains backup_data "school_info" = inr true ->
  exists e,
    fst (restore_complete_backup true (Some (inr backup_data)) true db) = Failed e.
Proof.
  intro C. unfold restore_complete_backup. cbn [negb]. rewrite C.
  cbn [restore_school_info].
  destruct (getitem backup_data "school_info") as [e|info]; cbn [Exn.bind];
    [eexists; reflexivity|].
  destruct (get info "name" (JStr "")) as [e|v]; cbn [Exn.bind];
    [eexists; reflexivity|].
  unfold set_setting. destruct (to_value v) as [e|x]; cbn [Exn.bind];
    eexists; reflexivity.
Qed.

(** C10, as amended: the fee-payment statement of the complete restore
    names 19 columns, is given 19 values and has 20 placeholders, so for
    every entry the insert raises (for an entry with all its keys,
    SQLite's "20 values for 19 columns", raised when the statement is
    prepared) and the exception is swallowed: no fee_payments row is ever
    applied.  Without reset the table is left as it was.  With reset it
    is empty only after a restore that runs to its end, and a restore
    that is abandoned leaves it as it was; a reset restore of a document
    that has the key school_info, as every document the exporter writes
    has, is always abandoned, so that only a document without that key
    can run to its end and empty the table. *)
Theorem fee_payments_never_restored (reply_yes : bool)
    (file : option (exn + object)) (reset : bool) (db : database) :
  (List.length (into_columns restore_fee_stmt) = 19%nat
   /\ List.length (map fst fee_fields) = 19%nat
   /\ placeholders restore_fee_stmt = 20%nat)
  /\ (forall item t, exists e,
        try_restore fee_payments_def restore_fee_stmt (map fst fee_fields) item t
        = inl e)
  /\ (forall item t objs,
        subscripts item (map fst fee_fields) = inr objs ->
        try_restore fee_payments_def restore_fee_stmt (map fst fee_fields) item t
        = inl (OperationalError "20 values for 19 columns"))
  /\ (forall item t,
        restore_item fee_payments_def restore_fee_stmt (map fst fee_fields) t item
        = t)
  /\ (reset = false ->
      fee_payments (snd (restore_complete_backup reply_yes file reset db))
      = fee_payments db)
  /\ (reset = true ->
      (forall r, fst (restore_complete_backup reply_yes file reset db) = Done r ->
                 rows (fee_payments
                         (snd (restore_complete_backup reply_yes file reset db)))
                 = [])
      /\ ((forall r, fst (restore_complete_backup reply_yes file reset db) <> Done r) ->
          fee_payments (snd (restore_complete_backup reply_yes file reset db))
          = fee_payments db)
      /\ (forall backup_data,
            reply_yes = true -> file = Some (inr backup_data) ->
            contains backup_data "school_info" = inr true ->
            (exists e,
               fst (restore_complete_backup reply_yes file reset db) = Failed e)
            /\ fee_payments (snd (restore_complete_backup reply_yes file reset db))
               = fee_payments db)
      /\ (forall r,
            fst (restore_complete_backup reply_yes file reset db) = Done r ->
            exists backup_data,
              file = Some (inr backup_data)
              /\ contains backup_data "school_info" = inr false)).
Proof.
  split; [repeat split|]. split; [apply fee_insert_fails|].
  split.
  { intros item t objs E. unfold try_restore. rewrite E. reflexivity. }
  split.
  { intros item t. unfold restore_item.
    destruct (fee_insert_fails item t) as [e E]. now rewrite E. }
  assert (Info : reset = true ->
            forall backup_data,
              reply_yes = true -> file = Some (inr backup_data) ->
              contains backup_data "school_info" = inr true ->
              exists e,
                fst (restore_complete_backup reply_yes file reset db) = Failed e).
  { intros -> backup_data -> -> C.
    exact (@reset_abandoned_on_school_info backup_data db C). }
  assert (Key : reset = true ->
            forall r,
              fst (restore_complete_backup reply_yes file reset db) = Done r ->
              exists backup_data,
                file = Some (inr backup_data)
                /\ contains backup_data "school_info" = inr false).
  { intros R r D.
    destruct reply_yes; [|discriminate D].
    destruct file as [[e|backup_data]|]; [discriminate D| |discriminate D].
    exists backup_data. split; [reflexivity|].
    destruct (contains backup_data "school_info") as [e|[|]] eqn:C.
    - unfold restore_complete_backup in D. cbn [negb] in D. rewrite C in D.
      discriminate D.
    - destruct (Info R backup_data eq_refl eq_refl C) as [e E].
      rewrite E in D. discriminate D.
    - reflexivity. }
  destruct (restore_outcome reply_yes file reset db)
    as [[(_ & _ & _ & _ & F) N]|(doc & r & _ & D & _ & _ & _ & _ & _ & F)].
  - split; [intros _; exact F|]. intro R. split; [intros r D; destruct (N r D)|].
    split; [intros _; exact F|]. split; [|exact (Key R)].
    intros backup_data Y Fi C. split; [exact (Info R backup_data Y Fi C)|exact F].
  - destruct (restore_collection_entries _ _ _ _ _ _ F) as (items & _ & T & _).
    rewrite fee_loop_unchanged in T.
    split; [intros ->; exact T|]. intro R. split.
    + intros _ _. rewrite T, R. reflexivity.
    + split; [intro N; destruct (N r D)|]. split; [|exact (Key R)].
      intros backup_data Y Fi C.
      destruct (Info R backup_data Y Fi C) as [e E]. rewrite E in D.
      discriminate D.
Qed.

Lemma fee_payments_never_restored_witness :
  fee_payments (snd (restore (session_backup school_a) false init_database))
    = fee_payments init_database
  /\ rows (fee_payments
             (snd (restore (without_school_info (session_backup school_a))
                           true school_a)))
     = []
  /\ ((exists e, fst (restore (session_backup school_a) true school_a) = Failed e)
      /\ fee_payments (snd (restore (session_backup school_a) true school_a))
         = fee_payments school_a).
Proof.
  split; [|split].
  - apply (proj1 (proj2 (proj2 (proj2 (proj2
             (fee_payments_never_restored true
                (Some (inr (session_backup school_a))) false init_database)))))).
    reflexivity.
  - eapply (proj1 (proj2 (proj2 (proj2 (proj2 (proj2
              (fee_payments_never_restored true
                 (Some (inr (without_school_info (session_backup school_a))))
                 true school_a))))) eq_refl)).
    reflexivity.
  - apply (proj1 (proj2 (proj2 (proj2 (proj2 (proj2 (proj2 (proj2
             (fee_payments_never_restored true
                (Some (inr (session_backup school_a))) true school_a))))) eq_refl)))
             (session_backup school_a));
      reflexivity.
Defined.

(** C10, as stated, fails: the backup that the program writes of a school
    with the fee payment REC000001 carries school_info, as every backup it
    writes does; restored with Reset Database into that school, it ends in
    "database is locked", the DELETE statements are rolled back, and
    fee_payments is not empty after the Reset restore: it still holds
    REC000001. *)
Lemma reset_restore_keeps_fee_payments :
  create_complete_backup (Some "backups") "Current Session Only" "April"
    "2025-03-31 17:00:00" "2024-25" school_a
  = Some (session_backup school_a)
  /\ contains (session_backup school_a) "school_info" = inr true
  /\ fst (restore (session_backup school_a) true school_a)
     = Failed (OperationalError "database is locked")
  /\ map (col 1)
         (rows (fee_payments
                  (snd (restore (session_backup school_a) true school_a))))
     = [VText "REC000001"]
  /\ rows (fee_payments (snd (restore (session_backup school_a) true school_a)))
     <> [].
Proof. repeat split. discriminate. Qed.

(** *** Receipt numbers stay unique *)

Lemma collides_fee (new old : row) :
  collides fee_payments_def new old = sql_eq (col 1 old) (col 1 new).
Proof. unfold collides. cbn. apply orb_false_r. Qed.

(** An INSERT OR REPLACE into [fee_payments], whatever its column list,
    keeps the receipt numbers distinct and adds at most one row. *)
Lemma fee_upsert (q : insert_stmt) (params : list (exn + value)) (t t' : table) :
  or_replace q = true ->
  execute_insert fee_payments_def q params t = inr t' ->
  (pairwise_distinct same_receipt (rows t) = true ->
   pairwise_distinct same_receipt (rows t') = true)
  /\ (List.length (rows t') <= S (List.length (rows t)))%nat.
Proof.
  intros R. unfold execute_insert. rewrite R.
  repeat match goal with
         | |- context [if ?c then inl _ else _] => destruct c; [discriminate|]
         end.
  destruct (sequence params) as [e|bound]; cbn [Exn.bind Exn.ret]; [discriminate|].
  intro E. injection E as <-. cbn [rows]. split.
  - intro D. apply pairwise_distinct_snoc.
    + apply pairwise_distinct_filter, D.
    + intros old I. apply filter_In in I. destruct I as [_ C].
      apply negb_true_iff in C. rewrite collides_fee in C. exact C.
  - rewrite length_app, Nat.add_1_r. apply le_n_S, filter_length_le.
Qed.

Lemma fee_loop_upsert (q : insert_stmt) (keys : list string)
    (items : list object) :
  or_replace q = true ->
  forall t,
    (pairwise_distinct same_receipt (rows t) = true ->
     pairwise_distinct same_receipt
       (rows (fold_left (restore_item fee_payments_def q keys) items t)) = true)
    /\ (List.length (rows (fold_left (restore_item fee_payments_def q keys) items t))
        <= List.length (rows t) + List.length items)%nat.
Proof.
  intro R. induction items as [|item rest IH]; intro t.
  - cbn. split; [auto|lia].
  - cbn [fold_left List.length].
    assert (Step :
      (pairwise_distinct same_receipt (rows t) = true ->
       pairwise_distinct same_receipt
         (rows (restore_item fee_payments_def q keys t item)) = true)
      /\ (List.length (rows (restore_item fee_payments_def q keys t item))
          <= S (List.length (rows t)))%nat).
    { unfold restore_item, try_restore.
      destruct (subscripts item keys) as [e|objs]; cbn [Exn.bind];
        [split; [auto|lia]|].
      destruct (execute_insert fee_payments_def q (map to_value objs) t)
        as [e|t'] eqn:E; [split; [auto|lia]|].
      exact (@fee_upsert q (map to_value objs) t t' R E). }
    destruct Step as [D1 L1].
    destruct (IH (restore_item fee_payments_def q keys t item)) as [D L].
    split; [auto|lia].
Qed.

(** C3, as amended: receipt numbers are UNIQUE and the restore statement
    is an INSERT OR REPLACE, so restoring the same document twice, under
    either policy each time, never leaves two fee_payments rows with the
    same receipt number; and after a reset restore that ran to its end
    there is at most one fee_payments row per entry of the document. *)
Theorem fee_receipts_stay_unique (backup_data : object) (first second : bool)
    (db : database) :
  pairwise_distinct same_receipt (rows (fee_payments db)) = true ->
  pairwise_distinct same_receipt
    (rows (fee_payments
             (snd (restore backup_data second
                     (snd (restore backup_data first db)))))) = true
  /\ (second = true ->
      forall r,
        fst (restore backup_data second (snd (restore backup_data first db)))
          = Done r ->
        Z.of_nat (List.length
                    (rows (fee_payments
                             (snd (restore backup_data second
                                     (snd (restore backup_data first db)))))))
        <= fee_shown r).
Proof.
  assert (Once : forall reset d,
    pairwise_distinct same_receipt (rows (fee_payments d)) = true ->
    pairwise_distinct same_receipt
      (rows (fee_payments (snd (restore backup_data reset d)))) = true
    /\ (reset = true -> forall r, fst (restore backup_data reset d) = Done r ->
        Z.of_nat (List.length (rows (fee_payments (snd (restore backup_data reset d)))))
        <= fee_shown r)).
  { intros reset d D. unfold restore.
    destruct (restore_outcome true (Some (inr backup_data)) reset d)
      as [[(_ & _ & _ & _ & F) N]|(doc & r & Ed & Dn & Rp & _ & _ & _ & _ & F)].
    - rewrite F. split; [exact D|]. intros _ r Dn. destruct (N r Dn).
    - injection Ed as <-.
      destruct (restore_collection_entries _ _ _ _ _ _ F) as (items & _ & T & S).
      destruct (@fee_loop_upsert restore_fee_stmt (map fst fee_fields) items
                  eq_refl (clear reset (fee_payments d))) as [K L].
      rewrite <- T in K, L. split.
      + apply K. destruct reset; [reflexivity|exact D].
      + intros -> r' Dn'. rewrite Dn in Dn'. injection Dn' as <-.
        unfold restore_report in Rp. rewrite S in Rp.
        destruct (shown backup_data "students"); [discriminate|].
        destruct (shown backup_data "staff"); [discriminate|].
        destruct (shown backup_data "attendance"); [discriminate|].
        destruct (shown backup_data "salary_payments"); [discriminate|].
        cbn [Exn.bind Exn.ret] in Rp. injection Rp as <-. cbn [fee_shown].
        cbn [clear delete_all rows List.length] in L. lia. }
  intro D. apply Once. apply Once, D.
Qed.

Lemma fee_receipts_stay_unique_witness :
  pairwise_distinct same_receipt
    (rows (fee_payments
             (snd (restore (session_backup school_a) false
                     (snd (restore (session_backup school_a) false school_a))))))
  = true.
Proof.
  apply (fee_receipts_stay_unique (session_backup school_a) false false school_a).
  reflexivity.
Defined.

(** C3, as stated, fails: the backup of a school with the fee payment
    REC000001, restored twice into a new database, leaves no fee_payments
    row with that receipt number under Override (not two) and none under
    Reset (not one). *)
Lemma fee_payment_restored_twice :
  map (col 1) (rows (fee_payments school_a)) = [VText "REC000001"]
  /\ select (fun s => sql_eq (col 1 s) (VText "REC000001"))
       (fee_payments
          (snd (restore (session_backup school_a) false
                  (snd (restore (session_backup school_a) false init_database)))))
     = []
  /\ rows (fee_payments
             (snd (restore (session_backup school_a) true
                     (snd (restore (session_backup school_a) true init_database)))))
     = [].
Proof. repeat split. Qed.

(** *** What the restore does to a backup of the program's own *)

(** C1 fails on the code: the backup of [school_a] (scope Current Session
    Only, session 2024-25) restored with Override into a new database
    brings back the student, and nothing is lost from the staff, attendance
    and salary tables, but the fee payment REC000001 is gone: the
    fee_payments table is empty. *)
Theorem round_trip_loses_fee_payments :
  create_complete_backup (Some "backups") "Current Session Only" "April"
    "2025-03-31 17:00:00" "2024-25" school_a
  = Some (session_backup school_a)
  /\ (exists r, fst (restore (session_backup school_a) false init_database) = Done r)
  /\ business (students (snd (restore (session_backup school_a) false init_database)))
     = business (students school_a)
  /\ business (staff (snd (restore (session_backup school_a) false init_database)))
     = business (staff school_a)
  /\ business (attendance (snd (restore (session_backup school_a) false init_database)))
     = business (attendance school_a)
  /\ business (salary_payments
                 (snd (restore (session_backup school_a) false init_database)))
     = business (salary_payments school_a)
  /\ business (fee_payments school_a) = [tl (fee_row 1 "REC000001" "STU000001")]
  /\ business (fee_payments
                 (snd (restore (session_backup school_a) false init_database)))
     = [].
Proof.
  split; [reflexivity|]. split; [eexists; reflexivity|].
  repeat split.
Qed.

(** C2 fails on the code for the restore path: saving the attendance of
    March 2025 a second time updates the one row in place (10 days, 40
    percent), but restoring the database's own backup with Override adds a
    second row with the same (student_number, month, year, session). *)
Theorem restore_duplicates_attendance :
  List.length (march_rows school_b) = 1%nat
  /\ march_rows school_b_saved_again
     = [[VInt 1; VText "STU000001"; VText "Class 5"; VText "A"; VText "March";
         VText "2025"; VInt 25; VInt 10; VReal 40; VText "2024-25"]]
  /\ rows (attendance school_b_saved_again) = march_rows school_b_saved_again
  /\ (exists r, fst (restore (session_backup school_b) false school_b) = Done r)
  /\ march_rows (snd (restore (session_backup school_b) false school_b))
     = [[VInt 1; VText "STU000001"; VText "Class 5"; VText "A"; VText "March";
         VText "2025"; VInt 25; VInt 20; VReal 80; VText "2024-25"];
        [VInt 2; VText "STU000001"; VText "Class 5"; VText "A"; VText "March";
         VText "2025"; VInt 25; VInt 20; VReal 80; VText "2024-25"]].
Proof.
  split; [reflexivity|]. split; [reflexivity|]. split; [reflexivity|].
  split; [eexists; reflexivity|reflexivity].
Qed.

(** C6 fails on the code for the complete restore: the success box shows
    the number of entries in the document, not the number applied.  For the
    backup of [school_a] it shows one fee record while no fee_payments row
    was applied; for a document whose student entry lacks its fields it
    shows one student while none was applied.  The student-only restore
    counts that entry as zero, and counts one when a good entry precedes
    it; but with the filter Specific Class the entry without a class ends
    the whole restore with KeyError and the good entry is not restored
    either. *)
Theorem complete_restore_counts_entries :
  (exists r,
     fst (restore (session_backup school_a) false init_database) = Done r
     /\ fee_shown r = 1
     /\ rows (fee_payments (snd (restore (session_backup school_a) false init_database)))
        = [])
  /\ (exists r,
        fst (restore damaged_backup false init_database) = Done r
        /\ students_shown r = 1
        /\ rows (students (snd (restore damaged_backup false init_database))) = [])
  /\ fst (restore_students
            (Some (inr (JList [JDict [("student_number", JStr "STU000009")]])))
            "All Students" "Class 5" "A" "2024-25" init_database)
     = Done 0
  /\ fst (restore_students (Some (inr students_then_damaged))
            "All Students" "Class 5" "A" "2024-25" init_database)
     = Done 1
  /\ restore_students (Some (inr students_then_damaged))
       "Specific Class" "Class 5" "A" "2024-25" init_database
     = (Failed (KeyError "class"), init_database).
Proof.
  split; [eexists; repeat split|]. split; [eexists; repeat split|].
  repeat split.
Qed.

End RestoreFacts.


(* ================================================================== *)
(** ** The round trip on the tables other than fee_payments *)
(* ================================================================== *)

Module RoundTripFacts.

Import PyStr Sqlite Py DatabaseManager MainWindow Scenario TableFacts.
Local Open Scope string_scope.
Local Open Scope Z_scope.
Local Open Scope list_scope.

Lemma to_value_of_value (v : value) :
  storable v = true -> to_value (of_value v) = inr v.
Proof. destruct v; cbn; intro H; try reflexivity. now rewrite H. Qed.

Lemma col_S_tl (k : nat) (s : row) : col (S k) s = nth k (tl s) VNull.
Proof. destruct s; [destruct k|]; reflexivity. Qed.

(** A collision is decided by the cells after the id. *)
Lemma collides_tl (d : table_def) (a b : row) :
  collides d a b = collides d (VNull :: tl a) (VNull :: tl b).
Proof.
  unfold collides. induction (unique_columns d) as [|u r IH]; [reflexivity|].
  cbn [existsb]. rewrite IH. f_equal.
  destruct (index_of u (columns d)); [|reflexivity].
  now rewrite !col_S_tl.
Qed.

Lemma pairwise_before (same : row -> row -> bool) (l1 l2 : list row) (x : row) :
  pairwise_distinct same (l1 ++ x :: l2) = true ->
  forall a, In a l1 -> same a x = false.
Proof.
  induction l1 as [|s r IH]; intros D a []; cbn [pairwise_distinct app] in D;
    apply andb_prop in D; destruct D as [N D].
  - subst s. apply negb_true_iff in N. rewrite existsb_app in N.
    apply orb_false_elim in N. destruct N as [_ N]. cbn [existsb] in N.
    apply orb_false_elim in N. apply N.
  - apply IH; assumption.
Qed.

Lemma filter_all (f : row -> bool) (l : list row) :
  (forall x, In x l -> f x = true) -> filter f l = l.
Proof.
  induction l as [|s r IH]; intro H; [reflexivity|].
  cbn [filter]. rewrite (H s (or_introl eq_refl)), IH; [reflexivity|].
  intros x I. apply H. right. exact I.
Qed.

(** *** One collection, entry by entry *)

Section Loop.

Variable d : table_def.
Variable q : insert_stmt.
Variable keys : list string.
Variable fields : list (string * nat).

(** Each entry written from a sound row comes back as that row with a new
    id, added at the end, when no row of the table collides with it. *)
Hypothesis comes_back :
  forall s t,
    sound_row d s = true ->
    (forall old, In old (rows t) ->
                 collides d (VInt (next_rowid t) :: tl s) old = false) ->
    rows (restore_item d q keys t (record fields s))
    = rows t ++ [VInt (next_rowid t) :: tl s].

(** Then a whole collection comes back row by row. *)
Lemma restore_loop_appends :
  forall l t,
    forallb (sound_row d) l = true ->
    pairwise_distinct (business_unique d)
      (map (@tl value) (rows t) ++ map (@tl value) l) = true ->
    map (@tl value)
        (rows (fold_left (restore_item d q keys) (map (record fields) l) t))
    = map (@tl value) (rows t) ++ map (@tl value) l.
Proof.
  induction l as [|s rest IH]; intros t So Pd.
  - cbn. now rewrite app_nil_r.
  - cbn [map fold_left forallb] in *. apply andb_prop in So. destruct So as [Ss Sr].
    assert (R : rows (restore_item d q keys t (record fields s))
                = rows t ++ [VInt (next_rowid t) :: tl s]).
    { apply comes_back; [exact Ss|]. intros old I. rewrite collides_tl. cbn [tl].
      apply (pairwise_before _ _ _ _ Pd (tl old)). apply in_map, I. }
    rewrite IH; [|exact Sr|].
    + rewrite R, map_app, <- app_assoc. reflexivity.
    + rewrite R, map_app, <- app_assoc. exact Pd.
Qed.

End Loop.

Ltac open_row s L :=
  repeat (destruct s as [|? s]; [discriminate L|]);
  destruct s; [|discriminate L].

Ltac restore_sound_row s t So Free :=
  unfold sound_row in So; apply andb_prop in So;
  let L := fresh "L" in
  let F := fresh "F" in
  destruct So as [L F];
  open_row s L;
  cbn [forallb] in F;
  repeat (apply andb_prop in F; let H := fresh "H" in destruct F as [H F]);
  unfold restore_item, try_restore;
  cbn -[execute_insert to_value];
  rewrite !to_value_of_value by assumption;
  unfold execute_insert;
  cbn -[next_rowid collides];
  rewrite ?no_collision by reflexivity;
  cbn [rows]; rewrite ?filter_all; [reflexivity|..];
  let x := fresh "x" in
  let I := fresh "I" in
  intros x I; apply negb_true_iff; exact (Free x I).

Lemma student_comes_back (s : row) (t : table) :
  sound_row students_def s = true ->
  (forall old, In old (rows t) ->
               collides students_def (VInt (next_rowid t) :: tl s) old = false) ->
  rows (restore_item students_def restore_student (map fst student_fields) t
          (record student_fields s))
  = rows t ++ [VInt (next_rowid t) :: tl s].
Proof. intros So Free. restore_sound_row s t So Free. Qed.

Lemma staff_comes_back (s : row) (t : table) :
  sound_row staff_def s = true ->
  (forall old, In old (rows t) ->
               collides staff_def (VInt (next_rowid t) :: tl s) old = false) ->
  rows (restore_item staff_def restore_staff_stmt (map fst staff_fields) t
          (record staff_fields s))
  = rows t ++ [VInt (next_rowid t) :: tl s].
Proof. intros So Free. restore_sound_row s t So Free. Qed.

Lemma attendance_comes_back (s : row) (t : table) :
  sound_row attendance_def s = true ->
  (forall old, In old (rows t) ->
               collides attendance_def (VInt (next_rowid t) :: tl s) old = false) ->
  rows (restore_item attendance_def restore_attendance_stmt
          (map fst attendance_fields) t (record attendance_fields s))
  = rows t ++ [VInt (next_rowid t) :: tl s].
Proof. intros So Free. restore_sound_row s t So Free. Qed.

Lemma salary_comes_back (s : row) (t : table) :
  sound_row salary_payments_def s = true ->
  (forall old, In old (rows t) ->
               collides salary_payments_def (VInt (next_rowid t) :: tl s) old = false) ->
  rows (restore_item salary_payments_def restore_salary_stmt
          (map fst salary_fields) t (record salary_fields s))
  = rows t ++ [VInt (next_rowid t) :: tl s].
Proof. intros So Free. restore_sound_row s t So Free. Qed.

Lemma setting_bindable (key : string) (db : database) :
  forallb storable (map snd (settings db)) = true ->
  exists v, to_value (get_setting key db) = inr v.
Proof.
  unfold get_setting. intro H.
  induction (settings db) as [|[k v] r IH]; [exists VNull; reflexivity|].
  cbn [map snd forallb assoc] in *. apply andb_prop in H. destruct H as [Hv Hr].
  destruct (String.eqb k key); [|apply IH, Hr].
  exists v. apply to_value_of_value, Hv.
Qed.

Lemma unique_on_business (d : table_def) (p : row -> bool) (l : list row) :
  unique_holds d l = true ->
  pairwise_distinct (business_unique d) (map (@tl value) (filter p l)) = true.
Proof.
  intro U. rewrite (pairwise_distinct_map (fun a b => collides d b a)).
  - apply pairwise_distinct_filter, U.
  - intros a b. unfold business_unique. symmetry. apply collides_tl.
Qed.

Lemma no_unique_on_business (d : table_def) (l : list row) :
  unique_columns d = [] -> pairwise_distinct (business_unique d) l = true.
Proof.
  intro U. induction l as [|s r IH]; [reflexivity|].
  cbn [pairwise_distinct]. rewrite IH, andb_true_r. apply negb_true_iff.
  clear IH. induction r as [|x r' IH]; [reflexivity|].
  cbn [existsb]. rewrite IH.
  unfold business_unique, collides. rewrite U. reflexivity.
Qed.

Lemma forallb_filter (f p : row -> bool) (l : list row) :
  forallb f l = true -> forallb f (filter p l) = true.
Proof.
  intro H. apply forallb_forall. intros x I. apply filter_In in I.
  exact (proj1 (forallb_forall f l) H x (proj1 I)).
Qed.

(** Restoring with Override a document of the shape
    [create_complete_backup] writes: the five loops run over the five
    arrays and the success box shows their lengths. *)
Lemma restore_own_backup (backup_type now session : string) (a b c : object)
    (va vb vc : value) (l1 l2 l3 l4 l5 : list object) (target : database) :
  to_value a = inr va -> to_value b = inr vb -> to_value c = inr vc ->
  exists s,
    restore
      (JDict [("backup_type", JStr backup_type); ("backup_date", JStr now);
              ("session", JStr session);
              ("school_info", JDict [("name", a); ("address", b); ("email", c)]);
              ("students", JList l1); ("staff", JList l2);
              ("attendance", JList l3); ("salary_payments", JList l4);
              ("fee_payments", JList l5)])
      false target
    = (Done {| students_shown := Z.of_nat (List.length l1);
               staff_shown := Z.of_nat (List.length l2);
               attendance_shown := Z.of_nat (List.length l3);
               fee_shown := Z.of_nat (List.length l5);
               salary_shown := Z.of_nat (List.length l4) |},
       {| settings := s;
          students := fold_left (restore_item students_def restore_student
                                   (map fst student_fields)) l1 (students target);
          staff := fold_left (restore_item staff_def restore_staff_stmt
                                (map fst staff_fields)) l2 (staff target);
          attendance := fold_left (restore_item attendance_def
                                     restore_attendance_stmt
                                     (map fst attendance_fields)) l3
                          (attendance target);
          salary_payments := fold_left (restore_item salary_payments_def
                                          restore_salary_stmt
                                          (map fst salary_fields)) l4
                               (salary_payments target);
          fee_payments := fold_left (restore_item fee_payments_def
                                       restore_fee_stmt
                                       (map fst fee_fields)) l5
                            (fee_payments target) |}).
Proof.
  intros Ha Hb Hc.
  unfold restore, restore_complete_backup, restore_collection, restore_report, shown.
  cbn -[to_value restore_item fold_left Z.of_nat].
  unfold set_setting. rewrite Ha. cbn -[to_value restore_item fold_left Z.of_nat].
  rewrite Hb. cbn -[to_value restore_item fold_left Z.of_nat].
  rewrite Hc. cbn -[to_value restore_item fold_left Z.of_nat].
  eexists. reflexivity.
Qed.

(** With the reset, the DELETE statements have opened a write transaction
    on [conn] when [set_setting] writes through its own connection: the
    restore of a document that carries [school_info] ends with
    "database is locked" and nothing is changed. *)
Lemma reset_restore_is_locked (backup_type now session : string) (a b c : object)
    (va : value) (l1 l2 l3 l4 l5 : list object) (target : database) :
  to_value a = inr va ->
  restore
    (JDict [("backup_type", JStr backup_type); ("backup_date", JStr now);
            ("session", JStr session);
            ("school_info", JDict [("name", a); ("address", b); ("email", c)]);
            ("students", JList l1); ("staff", JList l2);
            ("attendance", JList l3); ("salary_payments", JList l4);
            ("fee_payments", JList l5)])
    true target
  = (Failed (OperationalError "database is locked"), target).
Proof.
  intro Ha. unfold restore, restore_complete_backup.
  cbn -[to_value]. unfold set_setting. rewrite Ha. cbn.
  destruct target. reflexivity.
Qed.

(** X4: The round trip on everything but the fee payments: for every
    sound database and every session, the backup of the session, restored
    with Override into a database without records, brings back the
    business fields of the session's students, staff, attendance and
    salary rows, in order; the fee_payments table stays empty. *)
Lemma round_trip_but_fees (db target : database)
    (folder month now session : string) :
  sound_database db -> no_records target ->
  exists backup_data r restored,
    create_complete_backup (Some folder) "Current Session Only" month now
      session db = Some backup_data
    /\ restore backup_data false target = (Done r, restored)
    /\ business (students restored)
       = map (@tl value) (select (of_session 11 session) (students db))
    /\ business (staff restored)
       = map (@tl value) (select (of_session 11 session) (staff db))
    /\ business (attendance restored)
       = map (@tl value) (select (of_session 9 session) (attendance db))
    /\ business (salary_payments restored)
       = map (@tl value) (select (of_session 7 session) (salary_payments db))
    /\ rows (fee_payments restored) = [].
Proof.
  intros (Se & S1 & U1 & S2 & U2 & S3 & S4) (E1 & E2 & E3 & E4 & E5).
  destruct (setting_bindable "school_name" db Se) as [va Ha].
  destruct (setting_bindable "school_address" db Se) as [vb Hb].
  destruct (setting_bindable "school_email" db Se) as [vc Hc].
  destruct (@restore_own_backup "Current Session Only" now session
              (get_setting "school_name" db) (get_setting "school_address" db)
              (get_setting "school_email" db) va vb vc
              (map (record student_fields)
                 (select (of_session 11 session) (students db)))
              (map (record staff_fields)
                 (select (of_session 11 session) (staff db)))
              (map (record attendance_fields)
                 (select (of_session 9 session) (attendance db)))
              (map (record salary_fields)
                 (select (of_session 7 session) (salary_payments db)))
              (map (record fee_fields)
                 (select (of_session 19 session) (fee_payments db)))
              target Ha Hb Hc) as [s R].
  eexists. eexists. eexists. split; [reflexivity|].
  split; [exact R|]. unfold business. cbn [students staff attendance
    salary_payments fee_payments].
  rewrite RestoreFacts.fee_loop_unchanged.
  repeat split.
  - rewrite (@restore_loop_appends students_def restore_student
              (map fst student_fields) student_fields student_comes_back), E1; [reflexivity| |].
    + apply forallb_filter, S1.
    + rewrite E1. apply unique_on_business, U1.
  - rewrite (@restore_loop_appends staff_def restore_staff_stmt
              (map fst staff_fields) staff_fields staff_comes_back), E2; [reflexivity| |].
    + apply forallb_filter, S2.
    + rewrite E2. apply unique_on_business, U2.
  - rewrite (@restore_loop_appends attendance_def restore_attendance_stmt
              (map fst attendance_fields) attendance_fields
              attendance_comes_back), E3; [reflexivity| |].
    + apply forallb_filter, S3.
    + apply no_unique_on_business. reflexivity.
  - rewrite (@restore_loop_appends salary_payments_def restore_salary_stmt
              (map fst salary_fields) salary_fields salary_comes_back), E4; [reflexivity| |].
    + apply forallb_filter, S4.
    + apply no_unique_on_business. reflexivity.
  - exact E5.
Qed.

(** The hypotheses of [round_trip_but_fees] hold of the example school and
    of a new database. *)
Lemma round_trip_but_fees_applies :
  sound_database school_b /\ no_records init_database.
Proof. split; repeat split. Qed.

Lemma round_trip_but_fees_witness :
  exists backup_data r restored,
    create_complete_backup (Some "backups") "Current Session Only" "April"
      "2025-03-31 17:00:00" "2024-25" school_b = Some backup_data
    /\ restore backup_data false init_database = (Done r, restored)
    /\ business (students restored)
       = map (@tl value) (select (of_session 11 "2024-25") (students school_b))
    /\ business (staff restored)
       = map (@tl value) (select (of_session 11 "2024-25") (staff school_b))
    /\ business (attendance restored)
       = map (@tl value) (select (of_session 9 "2024-25") (attendance school_b))
    /\ business (salary_payments restored)
       = map (@tl value) (select (of_session 7 "2024-25") (salary_payments school_b))
    /\ rows (fee_payments restored) = [].
Proof.
  apply (@round_trip_but_fees school_b init_database "backups" "April"
           "2025-03-31 17:00:00" "2024-25"); repeat split.
Defined.

(** X5: With the policy Reset Database, a document in which
    ['school_info' in backup_data] holds is never restored: the DELETE
    statements have opened a write transaction on [conn] when the first
    [set_setting] writes through a connection of its own, so the restore
    ends in its critical box and the settings and the five tables are
    what they were. *)
Theorem reset_restore_never_succeeds (backup_data : object) (db : database) :
  contains backup_data "school_info" = inr true ->
  (exists e, fst (restore backup_data true db) = Failed e)
  /\ snd (restore backup_data true db) = db.
Proof.
  intro C. unfold restore, restore_complete_backup. cbn [negb]. rewrite C.
  cbn [restore_school_info].
  destruct (getitem backup_data "school_info") as [e|info]; cbn [Exn.bind].
  { split; [eexists; reflexivity|]. destruct db; reflexivity. }
  destruct (get info "name" (JStr "")) as [e|v]; cbn [Exn.bind].
  { split; [eexists; reflexivity|]. destruct db; reflexivity. }
  unfold set_setting. destruct (to_value v) as [e|x]; cbn [Exn.bind].
  { split; [eexists; reflexivity|]. destruct db; reflexivity. }
  split; [eexists; reflexivity|]. destruct db; reflexivity.
Qed.

Lemma reset_restore_never_succeeds_witness :
  (exists e, fst (restore (session_backup school_b) true init_database) = Failed e)
  /\ snd (restore (session_backup school_b) true init_database) = init_database.
Proof.
  apply (@reset_restore_never_succeeds (session_backup school_b) init_database).
  reflexivity.
Defined.

End RoundTripFacts.

(* ================================================================== *)
(** ** What the loops of the restores count and add *)
(* ================================================================== *)

Module CountFacts.

Import PyStr Sqlite Py DatabaseManager MainWindow Scenario TableFacts.
Local Open Scope string_scope.
Local Open Scope Z_scope.
Local Open Scope list_scope.

Lemma sequence_length (A : Type) (l : list (exn + A)) (r : list A) :
  sequence l = inr r -> List.length r = List.length l.
Proof.
  revert r. induction l as [|[e|a] l IH]; intros r E; cbn in E.
  - injection E as <-. reflexivity.
  - discriminate.
  - destruct (sequence l) as [e|r']; cbn in E; [discriminate|].
    injection E as <-. cbn. f_equal. apply IH. reflexivity.
Qed.

Lemma sequence_snoc (A : Type) (l : list (exn + A)) (a : A) :
  sequence (l ++ [inr a])
  = Exn.bind (sequence l) (fun r => inr (r ++ [a])).
Proof.
  induction l as [|[e|x] l IH]; cbn; [reflexivity..|].
  rewrite IH. destruct (sequence l); reflexivity.
Qed.

(** The inner [try] of [restore_students] succeeds exactly on the
    bindable entries, and then adds at most one row. *)
Lemma restore_student_try (student : object) (session : string) (t : table) :
  match Exn.bind (subscripts student student_keys)
          (fun objs => execute_insert students_def restore_student
                         (map to_value objs ++ [text session]) t) with
  | inr t' => bindable student_keys student = true
              /\ (List.length (rows t') <= S (List.length (rows t)))%nat
  | inl _ => bindable student_keys student = false
  end.
Proof.
  unfold bindable.
  destruct (subscripts student student_keys) as [e|objs] eqn:E;
    cbn [Exn.bind]; [reflexivity|].
  assert (L : List.length objs = 10%nat).
  { unfold subscripts in E. apply sequence_length in E.
    now rewrite length_map in E. }
  unfold execute_insert.
  replace (List.length (map to_value objs ++ [text session]) =? placeholders restore_student)%nat
    with true by (rewrite length_app, length_map, L; reflexivity).
  cbn [negb into_columns restore_student placeholders List.length Nat.eqb].
  replace (forallb _ _) with true by reflexivity. cbn [negb].
  unfold text, Exn.ret. rewrite sequence_snoc.
  destruct (sequence (map to_value objs)) as [e|bound]; cbn [Exn.bind];
    [reflexivity|].
  split; [reflexivity|]. cbn [rows].
  rewrite length_app, Nat.add_1_r. apply le_n_S, filter_length_le.
Qed.

(** On the student-only path the count is right: when [restore_students] ends with
    its success box, the count it shows is the number of entries that pass
    the filter and can be bound, and the table has grown by no more than
    that. *)
Lemma restore_students_counts_applied
    (filter_type class_text section_text session : string)
    (students_data : list object) :
  forall (t t' : table) (n n' : Z),
    restore_students_loop filter_type class_text section_text session
      students_data t n = inr (t', n') ->
    n' = n + Z.of_nat
               (List.length
                  (filter (fun student =>
                             passes filter_type class_text section_text student
                             && bindable student_keys student)
                          students_data))
    /\ Z.of_nat (List.length (rows t')) <= Z.of_nat (List.length (rows t)) + (n' - n).
Proof.
  induction students_data as [|student rest IH]; intros t t' n n' E.
  - cbn in E. injection E as <- <-. cbn. lia.
  - cbn [restore_students_loop] in E. cbn [filter]. unfold passes at 1.
    pose proof (restore_student_try student session t) as T.
    fold student_keys in E.
    destruct (String.eqb filter_type "Specific Class").
    + destruct (getitem student "class") as [e|c]; cbn [Exn.bind Exn.ret] in E;
        [discriminate|].
      destruct (ne_str c class_text); cbn [negb andb].
      * exact (IH _ _ _ _ E).
      * destruct (Exn.bind (subscripts student student_keys) _) as [e|t1];
          [rewrite T; exact (IH _ _ _ _ E)|].
        destruct T as [B L]. rewrite B. cbn [List.length].
        destruct (IH _ _ _ _ E). lia.
    + destruct (String.eqb filter_type "Specific Section").
      * destruct (getitem student "section") as [e|c]; cbn [Exn.bind Exn.ret] in E;
          [discriminate|].
        destruct (ne_str c section_text); cbn [negb andb].
        -- exact (IH _ _ _ _ E).
        -- destruct (Exn.bind (subscripts student student_keys) _) as [e|t1];
             [rewrite T; exact (IH _ _ _ _ E)|].
           destruct T as [B L]. rewrite B. cbn [List.length].
           destruct (IH _ _ _ _ E). lia.
      * cbn [Exn.bind Exn.ret andb] in E |- *.
        destruct (Exn.bind (subscripts student student_keys) _) as [e|t1];
          [rewrite T; exact (IH _ _ _ _ E)|].
        destruct T as [B L]. rewrite B. cbn [List.length].
        destruct (IH _ _ _ _ E). lia.
Qed.

(** A salary entry that can be bound adds one row, whatever the table
    holds; any other entry adds none. *)
Lemma salary_item_adds (t : table) (item : object) :
  List.length
    (rows (restore_item salary_payments_def restore_salary_stmt
             (map fst salary_fields) t item))
  = (List.length (rows t)
     + if bindable (map fst salary_fields) item then 1 else 0)%nat.
Proof.
  unfold restore_item, try_restore, bindable.
  destruct (subscripts item (map fst salary_fields)) as [e|objs] eqn:E;
    cbn [Exn.bind]; [lia|].
  assert (L : List.length objs = 7%nat).
  { unfold subscripts in E. apply sequence_length in E.
    now rewrite length_map in E. }
  unfold execute_insert.
  replace (List.length (map to_value objs) =? placeholders restore_salary_stmt)%nat
    with true by (rewrite length_map, L; reflexivity).
  cbn [negb into_columns restore_salary_stmt placeholders List.length Nat.eqb
       or_replace].
  replace (forallb _ _) with true by reflexivity. cbn [negb].
  destruct (sequence (map to_value objs)) as [e|bound]; cbn [Exn.bind Exn.ret];
    [lia|].
  rewrite no_collision by reflexivity. unfold Exn.ret. cbn [rows].
  now rewrite length_app.
Qed.

Lemma salary_loop_adds (items : list object) :
  forall t,
    List.length
      (rows (fold_left (restore_item salary_payments_def restore_salary_stmt
                          (map fst salary_fields)) items t))
    = (List.length (rows t)
       + List.length (filter (bindable (map fst salary_fields)) items))%nat.
Proof.
  induction items as [|item rest IH]; intro t; cbn [fold_left filter].
  - cbn. lia.
  - rewrite IH, salary_item_adds.
    destruct (bindable (map fst salary_fields) item); cbn [List.length]; lia.
Qed.

(** X7: The ledger that a restore duplicates is salary_payments: each Override
    restore that runs to its end adds one row per bindable salary entry, so
    two of them add two; a reset restore that runs to its end leaves one
    row per bindable entry. *)
Lemma salary_payments_duplicate (backup_data : object) (reset : bool)
    (db : database) (items : list object) (r : report) :
  entries backup_data "salary_payments" = inr items ->
  fst (restore backup_data reset db) = Done r ->
  List.length (rows (salary_payments (snd (restore backup_data reset db))))
  = ((if reset then 0 else List.length (rows (salary_payments db)))
     + List.length (filter (bindable (map fst salary_fields)) items))%nat.
Proof.
  intros E D. unfold restore in *.
  destruct (RestoreFacts.restore_outcome true (Some (inr backup_data)) reset db)
    as [[_ N]|(doc & r' & Ed & _ & _ & _ & _ & _ & S & _)];
    [destruct (N r D)|].
  injection Ed as <-.
  destruct (RestoreFacts.restore_collection_entries _ _ _ _ _ _ S)
    as (items' & E' & T & _).
  rewrite E in E'. injection E' as <-.
  rewrite T, salary_loop_adds. destruct reset; reflexivity.
Qed.

Lemma salary_payments_duplicate_witness :
  List.length
    (rows (salary_payments
             (snd (restore
                     (JDict [("salary_payments",
                              JList [JDict [("staff_id", JStr "STF000001");
                                            ("staff_name", JStr "Meera Nair");
                                            ("amount", JFloat 30000);
                                            ("payment_date", JStr "2025-03-31");
                                            ("month", JStr "March");
                                            ("year", JStr "2025");
                                            ("session", JStr "2024-25")]])])
                     false school_b))))
  = ((if false then 0 else List.length (rows (salary_payments school_b)))
     + List.length
         (filter (bindable (map fst salary_fields))
            [JDict [("staff_id", JStr "STF000001");
                    ("staff_name", JStr "Meera Nair");
                    ("amount", JFloat 30000);
                    ("payment_date", JStr "2025-03-31");
                    ("month", JStr "March");
                    ("year", JStr "2025");
                    ("session", JStr "2024-25")]]))%nat.
Proof.
  eapply (@salary_payments_duplicate _ false school_b _ _); reflexivity.
Defined.

(** X8: The success box of [restore_students] counts what was applied: when
    the restore ends with its success box, the number shown is the number
    of entries of the file that pass the filter, have the ten keys and can
    be bound, and the students table has grown by no more than that. *)
Theorem restore_students_shows_applied (students_data : object)
    (filter_type class_text section_text session : string)
    (db db' : database) (n : Z) :
  restore_students (Some (inr students_data)) filter_type class_text
    section_text session db = (Done n, db') ->
  exists items,
    iter students_data = inr items
    /\ n = Z.of_nat
             (List.length
                (filter (fun student =>
                           passes filter_type class_text section_text student
                           && bindable student_keys student)
                        items))
    /\ Z.of_nat (List.length (rows (students db')))
       <= Z.of_nat (List.length (rows (students db))) + n.
Proof.
  unfold restore_students.
  destruct (iter students_data) as [e|items]; cbn [Exn.bind]; [discriminate|].
  destruct (restore_students_loop _ _ _ _ _ _ _) as [e|[t m]] eqn:E;
    [discriminate|].
  intro H. injection H as <- <-. exists items. split; [reflexivity|].
  destruct (restore_students_counts_applied _ _ _ _ _ _ _ E) as [N L].
  cbn [students]. split; lia.
Qed.

Lemma restore_students_shows_applied_witness :
  exists items,
    iter students_then_damaged = inr items
    /\ 1 = Z.of_nat
             (List.length
                (filter (fun student =>
                           passes "All Students" "Class 5" "A" student
                           && bindable student_keys student)
                        items))
    /\ Z.of_nat (List.length
                   (rows (students
                            (snd (restore_students (Some (inr students_then_damaged))
                                    "All Students" "Class 5" "A" "2024-25"
                                    init_database)))))
       <= Z.of_nat (List.length (rows (students init_database))) + 1.
Proof.
  apply (@restore_students_shows_applied students_then_damaged "All Students"
           "Class 5" "A" "2024-25" init_database
           (snd (restore_students (Some (inr students_then_damaged))
                   "All Students" "Class 5" "A" "2024-25" init_database)) 1).
  reflexivity.
Defined.

End CountFacts.

(* ================================================================== *)
(** ** Facts about the staff-id allocator *)
(* ================================================================== *)

Module StaffFacts.

Import PyStr Sqlite Py DatabaseManager MainWindow Scenario PyStrFacts.
Local Open Scope string_scope.
Local Open Scope Z_scope.

Lemma staff_id_of_inj (i j : nat) : staff_id_of i = staff_id_of j -> i = j.
Proof.
  unfold staff_id_of. cbn [append]. intro E.
  injection E as E. apply zfill_str_inj in E; lia.
Qed.

Lemma generate_staff_id_count (db : database) :
  generate_staff_id db = staff_id_of (S (List.length (rows (staff db)))).
Proof.
  unfold generate_staff_id, staff_id_of, Sqlite.count.
  rewrite Nat2Z.inj_succ, Z.add_1_r. reflexivity.
Qed.

Lemma collides_staff (new old : row) :
  collides staff_def new old = sql_eq (col 1 old) (col 1 new).
Proof. unfold collides. cbn. apply orb_false_r. Qed.

Lemma staff_numbered_length (k : nat) (t : table) :
  staff_numbered k t -> List.length (rows t) = k.
Proof.
  intro H. apply (f_equal (@List.length _)) in H.
  now rewrite !length_map, length_seq in H.
Qed.

Lemma staff_numbered_fresh (k : nat) (t : table) (new : row) :
  staff_numbered k t -> col 1 new = VText (staff_id_of (S k)) ->
  existsb (collides staff_def new) (rows t) = false.
Proof.
  intros H N. destruct (existsb _ _) eqn:E; [exfalso|reflexivity].
  apply existsb_exists in E. destruct E as (old & I & C).
  rewrite collides_staff, N in C.
  assert (J : In (col 1 old) (map (col 1) (rows t))) by (apply in_map; exact I).
  rewrite H in J. apply in_map_iff in J. destruct J as (i & Ei & Ii).
  rewrite <- Ei in C. cbn [sql_eq] in C. apply String.eqb_eq in C.
  apply staff_id_of_inj in C. apply in_seq in Ii. lia.
Qed.

(** Saving a filled-in form whose id is the next one succeeds and appends
    the id. *)
Lemma save_staff_next (k : nat) (form : staff_form) (session : string)
    (db : database) :
  staff_numbered k (staff db) -> staff_filled_in form = true ->
  exists db',
    save_staff (with_staff_id (generate_staff_id db) form) session db
      = (Success, db')
    /\ staff_numbered (S k) (staff db')
    /\ students db' = students db.
Proof.
  intros H F. unfold staff_filled_in in F.
  repeat (apply andb_prop in F; destruct F as [F ?]).
  rewrite negb_true_iff in *.
  unfold save_staff. cbn [staff_id_input staff_name_input staff_phone_input
    staff_email_input staff_designation_input staff_qualification_input
    staff_department_input staff_joining_input staff_salary_input
    staff_address_input with_staff_id].
  repeat match goal with E : is_empty _ = false |- _ => rewrite E; clear E end.
  unfold execute_insert. cbn -[next_rowid generate_staff_id].
  rewrite (staff_numbered_fresh (k := k)); [|exact H|].
  - eexists. split; [reflexivity|]. split; [|reflexivity].
    unfold staff_numbered. cbn [with_staff staff rows]. rewrite map_app, H.
    rewrite seq_S, map_app. cbn [map col nth]. f_equal. f_equal. f_equal.
    rewrite generate_staff_id_count, (staff_numbered_length H). reflexivity.
  - cbn [col nth]. f_equal.
    rewrite generate_staff_id_count, (staff_numbered_length H). reflexivity.
Qed.

Lemma hire_from (forms : list staff_form) (session : string) :
  forall (k : nat) (db : database),
    staff_numbered k (staff db) -> forallb staff_filled_in forms = true ->
    map fst (fst (hire forms session db))
      = map staff_id_of (List.seq (S k) (List.length forms))
    /\ Forall (fun nr => snd nr = Success) (fst (hire forms session db))
    /\ staff_numbered (k + List.length forms) (staff (snd (hire forms session db))).
Proof.
  induction forms as [|form rest IH]; intros k db H F.
  - cbn. rewrite Nat.add_0_r. repeat split; [constructor|exact H].
  - cbn [forallb] in F. apply andb_prop in F. destruct F as [F1 F2].
    destruct (save_staff_next form session db H F1) as (db' & E & H' & _).
    cbn [hire]. rewrite E.
    specialize (IH (S k) db' H' F2).
    destruct (hire rest session db') as [issued db''].
    cbn [fst snd map List.length List.seq] in *.
    destruct IH as (I1 & I2 & I3). repeat split.
    + rewrite I1, generate_staff_id_count, (staff_numbered_length H). reflexivity.
    + constructor; [reflexivity|exact I2].
    + replace (k + S (List.length rest))%nat with (S k + List.length rest)%nat by lia.
      exact I3.
Qed.

(** X12: The staff id is STF followed by (number of staff rows, whatever their
    session, plus 1) on six digits; starting with no staff rows, hiring N
    members one after the other (id generated, form saved) issues
    STF000001, STF000002, ... up to the N-th, every save succeeds, and no
    id is issued twice. *)
Theorem staff_ids_sequential (forms : list staff_form) (session : string)
    (db : database) :
  rows (staff db) = [] -> forallb staff_filled_in forms = true ->
  map fst (fst (hire forms session db))
    = map staff_id_of (List.seq 1 (List.length forms))
  /\ Forall (fun nr => snd nr = Success) (fst (hire forms session db))
  /\ NoDup (map fst (fst (hire forms session db)))
  /\ map (col 1) (rows (staff (snd (hire forms session db))))
     = map (fun i => VText (staff_id_of i)) (List.seq 1 (List.length forms)).
Proof.
  intros E F.
  assert (H : staff_numbered 0 (staff db))
    by (unfold staff_numbered; rewrite E; reflexivity).
  destruct (@hire_from forms session 0%nat db H F) as (I1 & I2 & I3).
  repeat split; try assumption.
  rewrite I1. apply Injective_map_NoDup; [|apply seq_NoDup].
  intros i j. apply staff_id_of_inj.
Qed.

Lemma staff_ids_sequential_witness :
  map fst (fst (hire [staff_1; staff_2] "2024-25" init_database))
  = ["STF000001"; "STF000002"].
Proof.
  apply (@staff_ids_sequential [staff_1; staff_2] "2024-25" init_database);
    reflexivity.
Defined.

End StaffFacts.

(* ================================================================== *)
(** ** Deleting a row and the count-based allocators *)
(* ================================================================== *)

Module DeletionFacts.

Import PyStr Sqlite Py DatabaseManager MainWindow Scenario PyStrFacts.
Import StudentNumberFacts.
Local Open Scope string_scope.
Local Open Scope Z_scope.
Local Open Scope list_scope.

(** [DELETE ... WHERE id = ?] removes the row it is given and no other,
    when no other row has its id. *)
Lemma delete_one (before after : list row) (victim : row) :
  (forall s, In s (before ++ after) -> sql_eq (col 0 s) (col 0 victim) = false) ->
  sql_eq (col 0 victim) (col 0 victim) = true ->
  filter (fun s => negb (sql_eq (col 0 s) (col 0 victim)))
         (before ++ victim :: after)
  = before ++ after.
Proof.
  intros O V. rewrite filter_app. cbn [filter]. rewrite V. cbn [negb].
  rewrite !RoundTripFacts.filter_all; [reflexivity|..];
    intros x I; apply negb_true_iff, O, in_or_app; [right|left]; exact I.
Qed.

(** When the k rows carry the numbers 1..k in order, the last row carries
    the number k. *)
Lemma last_number (f : nat -> string) (k : nat) (l : list row) (s : row) :
  map (col 1) (l ++ [s]) = map (fun i => VText (f i)) (List.seq 1 k) ->
  col 1 s = VText (f k) /\ List.length l = (k - 1)%nat.
Proof.
  intro H. destruct k as [|k].
  - apply (f_equal (@List.length _)) in H.
    rewrite length_map, length_app in H. cbn in H. lia.
  - rewrite seq_S, !map_app in H. cbn [map] in H.
    apply app_inj_tail in H. destruct H as [H1 H2].
    split; [exact H2|].
    apply (f_equal (@List.length _)) in H1.
    rewrite !length_map, length_seq in H1. lia.
Qed.

(** X13: Deleting any student but the one enrolled last blocks the next
    enrolment: when the students carry the numbers 1..k in the order they
    were enrolled and one of them who is not the last is deleted, the
    number generated next is the number of the last student, who is still
    there, and saving a form with it is refused as a duplicate. *)
Theorem deletion_blocks_enrolment (k : nat) (before after : list row)
    (victim : row) (form : student_form) (session : string) (db : database) :
  rows (students db) = before ++ victim :: after ->
  after <> [] ->
  numbered k (students db) ->
  (forall s, In s (before ++ after) -> sql_eq (col 0 s) (col 0 victim) = false) ->
  sql_eq (col 0 victim) (col 0 victim) = true ->
  filled_in form = true ->
  rows (students (delete_student victim db)) = before ++ after
  /\ generate_student_number (delete_student victim db) = student_number_of k
  /\ In (VText (student_number_of k))
        (map (col 1) (rows (students (delete_student victim db))))
  /\ save_student
       (with_number (generate_student_number (delete_student victim db)) form)
       session (delete_student victim db)
     = (AlreadyExists, delete_student victim db).
Proof.
  intros R A N O V F.
  assert (D : rows (students (delete_student victim db)) = before ++ after).
  { unfold delete_student, delete_where. cbn [students rows]. rewrite R.
    apply delete_one; assumption. }
  destruct (exists_last A) as (front & final & ->).
  unfold numbered in N. rewrite R in N.
  replace (before ++ victim :: front ++ [final])
    with ((before ++ victim :: front) ++ [final]) in N
    by (now rewrite <- app_assoc).
  apply last_number in N. destruct N as [Nf Nl].
  assert (G : generate_student_number (delete_student victim db)
              = student_number_of k).
  { rewrite generate_student_number_count, D. f_equal.
    rewrite length_app in Nl |- *. cbn [List.length] in Nl.
    rewrite length_app in *. cbn [List.length]. lia. }
  assert (I : In final (rows (students (delete_student victim db)))).
  { rewrite D. apply in_or_app. right. apply in_or_app. right. left. reflexivity. }
  split; [exact D|]. split; [exact G|]. split.
  { rewrite <- Nf. apply in_map, I. }
  unfold filled_in in F.
  repeat (apply andb_prop in F; destruct F as [F ?]).
  rewrite negb_true_iff in *.
  unfold save_student. cbn [student_name_input student_roll_input
    student_parent_input student_phone_input student_address_input
    student_number_input student_class_combo student_section_combo
    student_gender_combo student_dob_input with_number].
  repeat match goal with E : is_empty _ = false |- _ => rewrite E; clear E end.
  unfold execute_insert. cbn -[next_rowid generate_student_number delete_student].
  replace (existsb _ (rows (students (delete_student victim db)))) with true;
    [reflexivity|].
  symmetry. apply existsb_exists. exists final. split; [exact I|].
  rewrite collides_students. cbn [col nth]. rewrite Nf, G. cbn [sql_eq].
  apply String.eqb_refl.
Qed.

Lemma deletion_blocks_enrolment_witness :
  save_student
    (with_number (generate_student_number school_after_delete) student_3)
    "2024-25" school_after_delete
  = (AlreadyExists, school_after_delete).
Proof.
  apply (@deletion_blocks_enrolment 2 []
           [nth 1 (rows (students (snd (enrol [student_1; student_2] "2024-25"
                                          init_database)))) []]
           (nth 0 (rows (students (snd (enrol [student_1; student_2] "2024-25"
                                          init_database)))) [])
           student_3 "2024-25"
           (snd (enrol [student_1; student_2] "2024-25" init_database)));
    try reflexivity.
  - discriminate.
  - intros s I. vm_compute in I. destruct I as [<-|[]]. reflexivity.
Defined.

End DeletionFacts.

(* ================================================================== *)
(** ** The student-only and staff-only backups *)
(* ================================================================== *)

Module SingleBackupFacts.

Import PyStr Sqlite Py DatabaseManager MainWindow Scenario TableFacts.
Import RoundTripFacts.
Local Open Scope string_scope.
Local Open Scope Z_scope.
Local Open Scope list_scope.

Lemma key_restamp (session : string) (b : row) :
  key_of (restamp session b) = key_of b.
Proof. destruct b; reflexivity. Qed.

Lemma students_unique_key (a b : row) :
  business_unique students_def a b = sql_eq (key_of a) (key_of b).
Proof. unfold business_unique, collides. cbn. apply orb_false_r. Qed.

Lemma staff_unique_key (a b : row) :
  business_unique staff_def a b = sql_eq (key_of a) (key_of b).
Proof. unfold business_unique, collides. cbn. apply orb_false_r. Qed.

(** Whether rows are pairwise distinct depends on their keys only. *)
Lemma pairwise_distinct_keys (same : row -> row -> bool) :
  (forall a b, same a b = sql_eq (key_of a) (key_of b)) ->
  forall l l',
    map key_of l = map key_of l' ->
    pairwise_distinct same l = pairwise_distinct same l'.
Proof.
  intros K l. induction l as [|a l IH]; intros [|a' l'] E; try discriminate E;
    [reflexivity|].
  cbn [map] in E. injection E as Ea El.
  cbn [pairwise_distinct]. rewrite (IH l' El). f_equal. f_equal.
  clear IH. revert l' El. induction l as [|b l IH]; intros [|b' l'] El;
    try discriminate El; [reflexivity|].
  cbn [map] in El. injection El as Eb El.
  cbn [existsb]. rewrite (IH l' El), !K, Ea, Eb. reflexivity.
Qed.

Lemma pairwise_distinct_remove (same : row -> row -> bool) (l1 l2 : list row)
    (x : row) :
  pairwise_distinct same (l1 ++ x :: l2) = true ->
  pairwise_distinct same (l1 ++ l2) = true.
Proof.
  induction l1 as [|a l1 IH]; cbn [app pairwise_distinct]; intro D;
    apply andb_prop in D; destruct D as [N D]; [exact D|].
  rewrite (IH D), andb_true_r. apply negb_true_iff. apply negb_true_iff in N.
  rewrite existsb_app in *. cbn [existsb] in N.
  apply orb_false_elim in N. destruct N as [N1 N2].
  apply orb_false_elim in N2. destruct N2 as [_ N2]. now rewrite N1, N2.
Qed.

(** One entry of a student backup, written from a sound row, is applied
    by [restore_students] as that row with a new id and the session of the
    restore, when no row of the table has its student number. *)
Lemma student_restamped (s : row) (session : string) (t : table) :
  sound_row students_def s = true ->
  (forall old, In old (rows t) ->
               sql_eq (key_of (tl old)) (key_of (tl s)) = false) ->
  Exn.bind (subscripts (record student_fields s) student_keys)
    (fun objs => execute_insert students_def restore_student
                   (map to_value objs ++ [text session]) t)
  = inr {| rows := rows t ++ [VInt (next_rowid t) :: restamp session (tl s)];
           last_rowid := next_rowid t |}.
Proof.
  intros So Free. unfold sound_row in So. apply andb_prop in So.
  destruct So as [L F]. open_row s L. cbn [forallb] in F.
  repeat (apply andb_prop in F; let H := fresh "H" in destruct F as [H F]).
  cbn -[execute_insert to_value].
  rewrite !to_value_of_value by assumption.
  unfold execute_insert. cbn -[next_rowid collides].
  rewrite filter_all; [reflexivity|].
  intros x I. apply negb_true_iff.
  rewrite StudentNumberFacts.collides_students. cbn [col nth].
  specialize (Free x I). unfold key_of in Free. cbn [tl nth] in Free.
  rewrite <- col_S_tl in Free. exact Free.
Qed.

(** The filter test of [restore_students] on an entry written by
    [backup_students] never raises. *)
Lemma skip_written (filter_type class_text section_text : string) (s : row) :
  (if String.eqb filter_type "Specific Class" then
     Exn.bind (getitem (record student_fields s) "class")
       (fun c => Exn.ret (ne_str c class_text))
   else if String.eqb filter_type "Specific Section" then
     Exn.bind (getitem (record student_fields s) "section")
       (fun c => Exn.ret (ne_str c section_text))
   else Exn.ret false)
  = inr (negb (passes filter_type class_text section_text
                 (record student_fields s))).
Proof.
  unfold passes.
  destruct (String.eqb filter_type "Specific Class");
    [cbn; now rewrite negb_involutive|].
  destruct (String.eqb filter_type "Specific Section");
    [cbn; now rewrite negb_involutive|reflexivity].
Qed.

Lemma students_loop_restamps
    (filter_type class_text section_text session : string) :
  forall (l : list row) (t : table) (n : Z),
    forallb (sound_row students_def) l = true ->
    pairwise_distinct (business_unique students_def)
      (map (@tl value) (rows t) ++ map (@tl value) l) = true ->
    exists t',
      restore_students_loop filter_type class_text section_text session
        (map (record student_fields) l) t n
      = inr (t', n + Z.of_nat
                       (List.length
                          (filter (fun s => passes filter_type class_text
                                              section_text
                                              (record student_fields s)) l)))
      /\ map (@tl value) (rows t')
         = map (@tl value) (rows t)
           ++ map (fun s => restamp session (tl s))
                  (filter (fun s => passes filter_type class_text section_text
                                      (record student_fields s)) l).
Proof.
  induction l as [|s rest IH]; intros t n So Pd.
  - exists t. cbn. rewrite Z.add_0_r, app_nil_r. split; reflexivity.
  - cbn [map forallb] in So, Pd. apply andb_prop in So. destruct So as [Ss Sr].
    cbn [map restore_students_loop filter].
    rewrite skip_written. cbn [Exn.bind].
    destruct (passes filter_type class_text section_text (record student_fields s));
      cbn [negb].
    + fold student_keys.
      rewrite (@student_restamped s session t Ss).
      * destruct (IH {| rows := rows t ++ [VInt (next_rowid t) :: restamp session (tl s)];
                        last_rowid := next_rowid t |} (n + 1) Sr)
          as (t' & E & R).
        { cbn [rows]. rewrite map_app, <- app_assoc. cbn [map app tl].
          rewrite <- Pd. apply pairwise_distinct_keys; [apply students_unique_key|].
          rewrite !map_app. cbn [map]. now rewrite key_restamp. }
        exists t'. rewrite E. cbn [List.length]. split; [f_equal; f_equal; lia|].
        rewrite R. cbn [rows]. rewrite map_app, <- app_assoc. reflexivity.
      * intros old I. rewrite <- students_unique_key.
        apply (pairwise_before _ _ _ _ Pd (tl old)). apply in_map, I.
    + apply IH; [exact Sr|]. eapply pairwise_distinct_remove, Pd.
Qed.

(** X9: A student backup restored through [restore_students]: the students of
    the session of the backup who pass the filter come back, in order, with
    the business fields they had, except that the session of each is the
    one in force when the restore is run; the count shown is their
    number.  The table restored into holds no student when the restore
    starts. *)
Theorem student_backup_round_trip (db target : database)
    (folder session filter_type class_text section_text now_session : string) :
  forallb (sound_row students_def) (rows (students db)) = true ->
  unique_holds students_def (rows (students db)) = true ->
  rows (students target) = [] ->
  exists students_data restored,
    backup_students (Some folder) session db = Some students_data
    /\ restore_students (Some (inr students_data)) filter_type class_text
         section_text now_session target
       = (Done (Z.of_nat
                  (List.length
                     (filter (fun s => passes filter_type class_text section_text
                                         (record student_fields s))
                             (select (of_session 11 session) (students db))))),
          restored)
    /\ business (students restored)
       = map (fun s => restamp now_session (tl s))
             (filter (fun s => passes filter_type class_text section_text
                                 (record student_fields s))
                     (select (of_session 11 session) (students db))).
Proof.
  intros So U E.
  destruct (@students_loop_restamps filter_type class_text section_text
              now_session (select (of_session 11 session) (students db))
              (students target) 0) as (t' & L & R).
  { apply forallb_filter, So. }
  { rewrite E. apply unique_on_business, U. }
  eexists. eexists. split; [reflexivity|].
  unfold restore_students. cbn [iter Exn.bind Exn.ret].
  unfold of_session in L. rewrite L. cbn [Z.add]. split; [reflexivity|].
  unfold business. cbn [students]. rewrite R, E. reflexivity.
Qed.

Lemma student_backup_round_trip_witness :
  exists students_data restored,
    backup_students (Some "backups") "2024-25" school_c = Some students_data
    /\ restore_students (Some (inr students_data)) "Specific Class" "Class 6"
         "A" "2025-26" init_database
       = (Done (Z.of_nat
                  (List.length
                     (filter (fun s => passes "Specific Class" "Class 6" "A"
                                         (record student_fields s))
                             (select (of_session 11 "2024-25") (students school_c))))),
          restored)
    /\ business (students restored)
       = map (fun s => restamp "2025-26" (tl s))
             (filter (fun s => passes "Specific Class" "Class 6" "A"
                                 (record student_fields s))
                     (select (of_session 11 "2024-25") (students school_c))).
Proof.
  apply (@student_backup_round_trip school_c init_database "backups" "2024-25"
           "Specific Class" "Class 6" "A" "2025-26"); reflexivity.
Defined.

(** The same for one entry of a staff backup and [restore_staff]. *)
Lemma staff_restamped (s : row) (session : string) (t : table) :
  sound_row staff_def s = true ->
  (forall old, In old (rows t) ->
               sql_eq (key_of (tl old)) (key_of (tl s)) = false) ->
  Exn.bind (subscripts (record staff_fields s)
              ["staff_id"; "name"; "phone"; "email"; "designation";
               "qualification"; "department"; "joining_date"; "salary";
               "address"])
    (fun objs => execute_insert staff_def restore_staff_stmt
                   (map to_value objs ++ [text session]) t)
  = inr {| rows := rows t ++ [VInt (next_rowid t) :: restamp session (tl s)];
           last_rowid := next_rowid t |}.
Proof.
  intros So Free. unfold sound_row in So. apply andb_prop in So.
  destruct So as [L F]. open_row s L. cbn [forallb] in F.
  repeat (apply andb_prop in F; let H := fresh "H" in destruct F as [H F]).
  cbn -[execute_insert to_value].
  rewrite !to_value_of_value by assumption.
  unfold execute_insert. cbn -[next_rowid collides].
  rewrite filter_all; [reflexivity|].
  intros x I. apply negb_true_iff.
  rewrite StaffFacts.collides_staff. cbn [col nth].
  specialize (Free x I). unfold key_of in Free. cbn [tl nth] in Free.
  rewrite <- col_S_tl in Free. exact Free.
Qed.

Lemma staff_loop_restamps (session : string) :
  forall (l : list row) (t : table) (n : Z),
    forallb (sound_row staff_def) l = true ->
    pairwise_distinct (business_unique staff_def)
      (map (@tl value) (rows t) ++ map (@tl value) l) = true ->
    snd (restore_staff_loop session (map (record staff_fields) l) t n)
    = n + Z.of_nat (List.length l)
    /\ map (@tl value)
          (rows (fst (restore_staff_loop session (map (record staff_fields) l) t n)))
       = map (@tl value) (rows t) ++ map (fun s => restamp session (tl s)) l.
Proof.
  induction l as [|s rest IH]; intros t n So Pd.
  - cbn. rewrite Z.add_0_r, app_nil_r. split; reflexivity.
  - cbn [map forallb] in So, Pd. apply andb_prop in So. destruct So as [Ss Sr].
    cbn [map restore_staff_loop].
    rewrite (@staff_restamped s session t Ss).
    + destruct (IH {| rows := rows t ++ [VInt (next_rowid t) :: restamp session (tl s)];
                      last_rowid := next_rowid t |} (n + 1) Sr)
        as (E & R).
      { cbn [rows]. rewrite map_app, <- app_assoc. cbn [map app tl].
        rewrite <- Pd. apply pairwise_distinct_keys; [apply staff_unique_key|].
        rewrite !map_app. cbn [map]. now rewrite key_restamp. }
      rewrite E, R. cbn [List.length rows]. split; [lia|].
      rewrite map_app, <- app_assoc. reflexivity.
    + intros old I. rewrite <- staff_unique_key.
      apply (pairwise_before _ _ _ _ Pd (tl old)). apply in_map, I.
Qed.

(** The inner [try] of [restore_staff] succeeds exactly on the bindable
    entries, and then adds at most one row. *)
Lemma restore_staff_try (member : object) (session : string) (t : table) :
  match Exn.bind (subscripts member staff_keys)
          (fun objs => execute_insert staff_def restore_staff_stmt
                         (map to_value objs ++ [text session]) t) with
  | inr t' => bindable staff_keys member = true
              /\ (List.length (rows t') <= S (List.length (rows t)))%nat
  | inl _ => bindable staff_keys member = false
  end.
Proof.
  unfold bindable.
  destruct (subscripts member staff_keys) as [e|objs] eqn:E;
    cbn [Exn.bind]; [reflexivity|].
  assert (L : List.length objs = 10%nat).
  { unfold subscripts in E. apply CountFacts.sequence_length in E.
    now rewrite length_map in E. }
  unfold execute_insert.
  replace (List.length (map to_value objs ++ [text session])
           =? placeholders restore_staff_stmt)%nat
    with true by (rewrite length_app, length_map, L; reflexivity).
  cbn [negb into_columns restore_staff_stmt placeholders List.length Nat.eqb].
  replace (forallb _ _) with true by reflexivity. cbn [negb].
  unfold text, Exn.ret. rewrite CountFacts.sequence_snoc.
  destruct (sequence (map to_value objs)) as [e|bound]; cbn [Exn.bind];
    [reflexivity|].
  split; [reflexivity|]. cbn [rows].
  rewrite length_app, Nat.add_1_r. apply le_n_S, filter_length_le.
Qed.

Lemma staff_loop_counts (session : string) (staff_data : list object) :
  forall (t : table) (n : Z),
    snd (restore_staff_loop session staff_data t n)
    = n + Z.of_nat (List.length (filter (bindable staff_keys) staff_data))
    /\ Z.of_nat (List.length
                   (rows (fst (restore_staff_loop session staff_data t n))))
       <= Z.of_nat (List.length (rows t))
          + Z.of_nat (List.length (filter (bindable staff_keys) staff_data)).
Proof.
  induction staff_data as [|member rest IH]; intros t n.
  - cbn. lia.
  - cbn [restore_staff_loop filter]. fold staff_keys.
    pose proof (restore_staff_try member session t) as T.
    destruct (Exn.bind (subscripts member staff_keys) _) as [e|t1].
    + rewrite T. apply IH.
    + destruct T as [B L]. rewrite B. cbn [List.length].
      destruct (IH t1 (n + 1)) as [I1 I2]. split; lia.
Qed.

(** X10: The success box of [restore_staff] counts what was applied: the number
    shown is the number of entries of the file that have the ten keys and
    can be bound, and the staff table has grown by no more than that; the
    restore never ends in the critical box once the file is a list, a
    dict or a text. *)
Theorem restore_staff_shows_applied (staff_data : object) (session : string)
    (db : database) (items : list object) :
  iter staff_data = inr items ->
  fst (restore_staff (Some (inr staff_data)) session db)
  = Done (Z.of_nat (List.length (filter (bindable staff_keys) items)))
  /\ Z.of_nat (List.length
                 (rows (staff (snd (restore_staff (Some (inr staff_data))
                                      session db)))))
     <= Z.of_nat (List.length (rows (staff db)))
        + Z.of_nat (List.length (filter (bindable staff_keys) items)).
Proof.
  intro E. unfold restore_staff. rewrite E.
  destruct (staff_loop_counts session items (staff db) 0) as [C L].
  destruct (restore_staff_loop session items (staff db) 0) as [t n].
  cbn [fst snd with_staff staff] in *. rewrite C. split; [reflexivity|exact L].
Qed.

Lemma restore_staff_shows_applied_witness :
  fst (restore_staff
         (Some (inr (JList [JDict [("staff_id", JStr "STF000009")];
                            record staff_fields
                              (nth 0 (rows (staff school_d)) [])])))
         "2025-26" init_database)
  = Done 1.
Proof.
  refine (proj1 (@restore_staff_shows_applied
                   (JList [JDict [("staff_id", JStr "STF000009")];
                           record staff_fields
                             (nth 0 (rows (staff school_d)) [])])
                   "2025-26" init_database
                   [JDict [("staff_id", JStr "STF000009")];
                    record staff_fields (nth 0 (rows (staff school_d)) [])]
                   _)).
  reflexivity.
Defined.

(** X11: A staff backup restored through [restore_staff]: the staff of the
    session of the backup come back, in order, with the business fields
    they had, except that the session of each is the one in force when the
    restore is run; the count shown is their number.  The table restored
    into holds no staff when the restore starts. *)
Theorem staff_backup_round_trip (db target : database)
    (folder session now_session : string) :
  forallb (sound_row staff_def) (rows (staff db)) = true ->
  unique_holds staff_def (rows (staff db)) = true ->
  rows (staff target) = [] ->
  exists staff_data,
    backup_staff (Some folder) session db = Some staff_data
    /\ fst (restore_staff (Some (inr staff_data)) now_session target)
       = Done (Z.of_nat (List.length (select (of_session 11 session) (staff db))))
    /\ business (staff (snd (restore_staff (Some (inr staff_data)) now_session
                               target)))
       = map (fun s => restamp now_session (tl s))
             (select (of_session 11 session) (staff db)).
Proof.
  intros So U E.
  destruct (@staff_loop_restamps now_session
              (select (of_session 11 session) (staff db)) (staff target) 0)
    as (L & R).
  { apply forallb_filter, So. }
  { rewrite E. apply unique_on_business, U. }
  eexists. split; [reflexivity|].
  unfold restore_staff. cbn [iter Exn.bind Exn.ret].
  unfold of_session in L, R.
  destruct (restore_staff_loop _ _ _ _) as [t' m]. cbn [fst snd] in *.
  split; [now rewrite L|].
  unfold business. cbn [with_staff staff]. rewrite R, E. reflexivity.
Qed.

Lemma staff_backup_round_trip_witness :
  exists staff_data,
    backup_staff (Some "backups") "2024-25" school_d = Some staff_data
    /\ fst (restore_staff (Some (inr staff_data)) "2025-26" init_database)
       = Done (Z.of_nat (List.length (select (of_session 11 "2024-25")
                                        (staff school_d))))
    /\ business (staff (snd (restore_staff (Some (inr staff_data)) "2025-26"
                               init_database)))
       = map (fun s => restamp "2025-26" (tl s))
             (select (of_session 11 "2024-25") (staff school_d)).
Proof.
  apply (@staff_backup_round_trip school_d init_database "backups" "2024-25"
           "2025-26"); reflexivity.
Defined.

End SingleBackupFacts.

(* ================================================================== *)
(** ** Facts about collecting fees *)
(* ================================================================== *)

Module FeeFacts.

Import PyStr Sqlite Py DatabaseManager MainWindow Scenario PyStrFacts.
Import ReceiptNumberFacts.
Local Open Scope string_scope.
Local Open Scope Z_scope.
Local Open Scope list_scope.

(** *** The text of a number, read back digit by digit *)

Lemma leading_digits_acc (d : Decimal.uint) :
  forall acc : positive,
    leading_digits (Z.pos acc) (list_ascii_of_string (NilEmpty.string_of_uint d))
    = Z.pos (Pos.of_uint_acc d acc).
Proof.
  induction d; intro acc;
    cbn [NilEmpty.string_of_uint list_ascii_of_string leading_digits
         Pos.of_uint_acc];
    [reflexivity|..];
    match goal with
    | |- context [digit_of ?c] =>
        let v := eval vm_compute in (digit_of c) in
        change (digit_of c) with v
    end;
    cbv iota; rewrite <- IHd; f_equal; lia.
Qed.

Lemma leading_digits_uint (d : Decimal.uint) :
  leading_digits 0 (list_ascii_of_string (NilEmpty.string_of_uint d))
  = Z.of_N (Pos.of_uint d).
Proof.
  induction d;
    cbn [NilEmpty.string_of_uint list_ascii_of_string leading_digits Pos.of_uint];
    [reflexivity|..];
    match goal with
    | |- context [digit_of ?c] =>
        let v := eval vm_compute in (digit_of c) in
        change (digit_of c) with v
    end;
    cbv iota; [exact IHd|..];
    cbn [Z.of_N]; rewrite <- leading_digits_acc; f_equal.
Qed.

Lemma digits_uint (d : Decimal.uint) :
  forallb is_digit (list_ascii_of_string (NilEmpty.string_of_uint d)) = true.
Proof.
  induction d;
    cbn [NilEmpty.string_of_uint list_ascii_of_string forallb];
    [reflexivity|..]; rewrite IHd; reflexivity.
Qed.

Lemma chars_app (a b : string) :
  list_ascii_of_string (a ++ b)
  = list_ascii_of_string a ++ list_ascii_of_string b.
Proof. induction a as [|c a IH]; cbn; [reflexivity|now rewrite IH]. Qed.

Lemma chars_zeros (k : nat) :
  list_ascii_of_string (zeros k) = repeat "0"%char k.
Proof. induction k as [|k IH]; cbn; [reflexivity|now rewrite IH]. Qed.

Lemma leading_zeros (k : nat) (l : list ascii) :
  leading_digits 0 (repeat "0"%char k ++ l) = leading_digits 0 l.
Proof. induction k as [|k IH]; [reflexivity|exact IH]. Qed.

(** Reading the zero-padded text of a number gives the number back, and
    the text is a non-empty run of digits. *)
Lemma decimal_zfill (w : nat) (n : Z) :
  0 <= n -> decimal (zfill w (str n)) = n /\ numeric (zfill w (str n)) = true.
Proof.
  intro H. rewrite zfill_str by exact H.
  assert (S : decimal (str n) = n
              /\ forallb is_digit (list_ascii_of_string (str n)) = true
              /\ str n <> "").
  { destruct n as [|p|p]; [repeat split; discriminate| |lia].
    destruct (str_pos p) as [E N]. rewrite E. unfold decimal.
    rewrite leading_digits_uint, digits_uint.
    split; [|split; [reflexivity|]].
    - change (Z.of_N (Pos.of_uint (Pos.to_uint p))) with (Z.of_uint (Pos.to_uint p)).
      unfold Z.of_uint. now rewrite DecimalPos.Unsigned.of_to.
    - destruct (Pos.to_uint p); [contradiction|discriminate..]. }
  destruct S as (D & F & N). split.
  - unfold decimal in *. now rewrite chars_app, chars_zeros, leading_zeros.
  - unfold numeric. apply andb_true_intro. split.
    + destruct (zeros (w - String.length (str n)) ++ str n)%string eqn:Z;
        [|reflexivity].
      destruct (zeros _); [cbn in Z; contradiction|discriminate Z].
    + rewrite chars_app, chars_zeros, forallb_app, F, andb_true_r.
      apply forallb_forall. intros x I. apply repeat_spec in I. now subst x.
Qed.

(** *** The receipt number that carries [n] *)

Lemma like_any (l : list ascii) : like_chars ["%"%char] l = true.
Proof. induction l as [|c r IH]; [reflexivity|exact IH]. Qed.

Lemma receipt_of_spec (n : Z) :
  0 <= n ->
  like (VText (receipt_of n)) "REC%" = true
  /\ decimal (suffix (VText (receipt_of n))) = n
  /\ numeric (suffix (VText (receipt_of n))) = true.
Proof.
  intro H. destruct (decimal_zfill 6 H) as [D N]. split; [|split; assumption].
  unfold receipt_of, like. cbn [append list_ascii_of_string like_chars].
  change (Ascii.eqb "R" "%") with false. change (Ascii.eqb "E" "%") with false.
  change (Ascii.eqb "C" "%") with false. change (Ascii.eqb "R" "_") with false.
  change (Ascii.eqb "E" "_") with false. change (Ascii.eqb "C" "_") with false.
  cbv iota.
  change (Ascii.eqb (upper "R") (upper "R")) with true.
  change (Ascii.eqb (upper "E") (upper "E")) with true.
  change (Ascii.eqb (upper "C") (upper "C")) with true.
  cbn [andb]. apply like_any.
Qed.

Lemma receipt_of_inj (a b : Z) :
  0 <= a -> 0 <= b -> receipt_of a = receipt_of b -> a = b.
Proof.
  unfold receipt_of. cbn [append]. intros Ha Hb E.
  injection E as E. apply zfill_str_inj in E; lia.
Qed.

Lemma max_suffix_nonneg (l : list value) : 0 <= max_suffix l.
Proof. induction l as [|v l IH]; cbn; [lia|]. unfold max_suffix in IH. lia. Qed.

Lemma max_suffix_snoc (l : list value) (v : value) :
  max_suffix (l ++ [v]) = Z.max (max_suffix l) (decimal (suffix v)).
Proof.
  induction l as [|x l IH].
  - cbn. pose proof (decimal_nonneg (suffix v)). lia.
  - cbn [app max_suffix fold_right]. fold (max_suffix (l ++ [v])).
    fold (max_suffix l). rewrite IH. lia.
Qed.

(** With well-formed receipt numbers the allocator issues the number
    after the largest. *)
Lemma generate_after_max (db : database) :
  forallb well_formed (rec_numbers db) = true ->
  generate_receipt_number db
  = inr (receipt_of (max_suffix (rec_numbers db) + 1)).
Proof.
  intro W. unfold receipt_of. destruct (rec_numbers db) as [|x l] eqn:E.
  - apply first_receipt, E.
  - rewrite <- E in *.
    destruct (max_suffix_reached (l := rec_numbers db)) as (v & I & M);
      [rewrite E; discriminate|].
    apply next_receipt.
    + exists v. repeat split; try assumption.
      exact (proj1 (forallb_forall _ _) W v I).
    + intros u Iu. rewrite (proj1 (forallb_forall _ _) W u Iu).
      apply max_suffix_bound, Iu.
Qed.

(** The number after the largest is carried by no row. *)
Lemma after_max_is_fresh (db : database) (new : row) :
  forallb well_formed (rec_numbers db) = true ->
  col 1 new = VText (receipt_of (max_suffix (rec_numbers db) + 1)) ->
  existsb (collides fee_payments_def new) (rows (fee_payments db)) = false.
Proof.
  intros W N. destruct (existsb _ _) eqn:E; [exfalso|reflexivity].
  apply existsb_exists in E. destruct E as (old & I & C).
  rewrite RestoreFacts.collides_fee, N in C.
  pose proof (max_suffix_nonneg (rec_numbers db)) as P.
  destruct (@receipt_of_spec (max_suffix (rec_numbers db) + 1)) as (Lk & D & _);
    [lia|].
  destruct (col 1 old) as [| | |r] eqn:Eo; try discriminate C.
  cbn [sql_eq] in C. apply String.eqb_eq in C. subst r.
  assert (J : In (col 1 old) (rec_numbers db)).
  { unfold rec_numbers. apply in_map. apply filter_In. split; [exact I|].
    rewrite Eo. exact Lk. }
  pose proof (max_suffix_bound _ _ J) as B. rewrite Eo, D in B. lia.
Qed.

(** One payable form: the number generated is the one after the largest,
    the record is saved under it, and the receipt numbers stay
    well-formed. *)
Lemma collect_one (form : fee_form) (session : string) (db : database) :
  forallb well_formed (rec_numbers db) = true ->
  max_suffix (rec_numbers db) + 1 <= int64_max ->
  payable form = true ->
  exists db',
    generate_receipt_number db
    = inr (receipt_of (max_suffix (rec_numbers db) + 1))
    /\ save_fee_record
         (with_receipt (receipt_of (max_suffix (rec_numbers db) + 1)) form)
         session db
       = (Success, db')
    /\ forallb well_formed (rec_numbers db') = true
    /\ max_suffix (rec_numbers db') = max_suffix (rec_numbers db) + 1
    /\ map (col 1) (rows (fee_payments db'))
       = map (col 1) (rows (fee_payments db))
         ++ [VText (receipt_of (max_suffix (rec_numbers db) + 1))].
Proof.
  intros W B P. set (m := max_suffix (rec_numbers db)) in *.
  pose proof (max_suffix_nonneg (rec_numbers db)) as M. fold m in M.
  destruct (@receipt_of_spec (m + 1)) as (Lk & D & Nu); [lia|].
  unfold payable in P. unfold save_fee_record.
  cbn [with_receipt selected_student_number fee_months_list fee_total
       fee_receipt_input fee_student_name fee_class fee_section fee_parent_name
       fee_payment_date fee_tuition fee_lab fee_sport fee_computer
       fee_maintenance fee_exam fee_late fee_payment_mode fee_status_full].
  destruct (selected_student_number form) as [student_number|]; [|discriminate P].
  destruct (fee_months_list form) as [|month months]; [discriminate P|].
  destruct (fee_total form) as [e|total]; [discriminate P|].
  unfold execute_insert.
  cbn -[next_rowid receipt_of String.concat collides].
  rewrite after_max_is_fresh; [|exact W|reflexivity].
  eexists. split; [apply generate_after_max, W|]. split; [reflexivity|].
  assert (R : rec_numbers
                (with_fee_payments
                   {| rows := rows (fee_payments db)
                              ++ [[VInt (next_rowid (fee_payments db));
                                   VText (receipt_of (m + 1)); student_number;
                                   VText (fee_student_name form);
                                   VText (fee_class form);
                                   VText (fee_section form);
                                   VText (fee_parent_name form);
                                   VText (String.concat ", " (month :: months));
                                   VText (fee_payment_date form);
                                   VReal (fee_tuition form);
                                   VReal (fee_lab form);
                                   VReal (fee_sport form);
                                   VReal (fee_computer form);
                                   VReal (fee_maintenance form);
                                   VReal (fee_exam form);
                                   VReal (fee_late form);
                                   VReal total;
                                   VText (fee_payment_mode form);
                                   VText (if fee_status_full form
                                          then "Full Paid" else "Partial Paid");
                                   VText session]];
                      last_rowid := next_rowid (fee_payments db) |} db)
              = rec_numbers db ++ [VText (receipt_of (m + 1))]).
  { unfold rec_numbers, select. cbn [with_fee_payments fee_payments rows].
    rewrite filter_app, map_app. cbn [filter col nth]. rewrite Lk. reflexivity. }
  rewrite R. split; [|split].
  - rewrite forallb_app, W. cbn [forallb]. rewrite andb_true_r.
    unfold well_formed. rewrite Nu, D. cbn [andb]. apply Z.leb_le. exact B.
  - rewrite max_suffix_snoc, D. fold m. lia.
  - cbn [with_fee_payments fee_payments rows]. rewrite map_app. reflexivity.
Qed.

Lemma collect_from (forms : list fee_form) (session : string) :
  forall (db : database),
    forallb well_formed (rec_numbers db) = true ->
    max_suffix (rec_numbers db) + Z.of_nat (List.length forms) <= int64_max ->
    forallb payable forms = true ->
    fst (collect forms session db)
    = map (fun i => inr (receipt_of (max_suffix (rec_numbers db) + Z.of_nat i),
                         Success))
          (List.seq 1 (List.length forms))
    /\ map (col 1) (rows (fee_payments (snd (collect forms session db))))
       = map (col 1) (rows (fee_payments db))
         ++ map (fun i => VText (receipt_of (max_suffix (rec_numbers db)
                                             + Z.of_nat i)))
                (List.seq 1 (List.length forms)).
Proof.
  induction forms as [|form rest IH]; intros db W B P.
  - cbn. now rewrite app_nil_r.
  - cbn [forallb] in P. apply andb_prop in P. destruct P as [P1 P2].
    cbn [List.length] in B.
    destruct (@collect_one form session db W) as (db' & G & S & W' & M' & R');
      [lia|exact P1|].
    cbn [collect]. rewrite G, S.
    destruct (IH db' W') as [I1 I2]; [lia|exact P2|]. clear IH.
    destruct (collect rest session db') as [issued db''].
    cbn [fst snd List.length List.seq map] in *.
    rewrite <- seq_shift, !map_map. rewrite M' in I1, I2. split.
    + rewrite I1. f_equal.
      apply map_ext. intro i. do 3 f_equal. lia.
    + rewrite I2, R', <- app_assoc. cbn [app]. do 2 f_equal.
      apply map_ext. intro i. do 2 f_equal. lia.
Qed.

(** X14: Receipt numbers are issued consecutively: when every receipt number
    that starts with REC ends in a run of digits within the 64-bit range
    and m is the largest of those numbers (0 when there is none),
    collecting N fees one after the other (number generated, record saved)
    issues the receipts m+1, m+2, ..., m+N on six digits, every save
    succeeds (none is refused as a duplicate), and the records are added
    to the ledger in that order. *)
Theorem receipts_consecutive (forms : list fee_form) (session : string)
    (db : database) :
  forallb well_formed (rec_numbers db) = true ->
  max_suffix (rec_numbers db) + Z.of_nat (List.length forms) <= int64_max ->
  forallb payable forms = true ->
  fst (collect forms session db)
  = map (fun i => inr (receipt_of (max_suffix (rec_numbers db) + Z.of_nat i),
                       Success))
        (List.seq 1 (List.length forms))
  /\ map (col 1) (rows (fee_payments (snd (collect forms session db))))
     = map (col 1) (rows (fee_payments db))
       ++ map (fun i => VText (receipt_of (max_suffix (rec_numbers db)
                                           + Z.of_nat i)))
              (List.seq 1 (List.length forms))
  /\ NoDup (map (fun i => receipt_of (max_suffix (rec_numbers db) + Z.of_nat i))
                (List.seq 1 (List.length forms))).
Proof.
  intros W B P. destruct (@collect_from forms session db W B P) as [I1 I2].
  split; [exact I1|]. split; [exact I2|].
  pose proof (max_suffix_nonneg (rec_numbers db)) as M.
  apply Injective_map_NoDup_in; [|apply seq_NoDup].
  intros i j _ _ E. apply receipt_of_inj in E; lia.
Qed.

Lemma receipts_consecutive_witness :
  fst (collect [fee_april_may; fee_june_part] "2024-25" receipts_41_rec7)
  = [inr ("REC000042", Success); inr ("REC000043", Success)].
Proof.
  refine (proj1 (@receipts_consecutive [fee_april_may; fee_june_part] "2024-25"
                   receipts_41_rec7 _ _ _));
    [reflexivity|vm_compute; discriminate|reflexivity].
Defined.

(** *** The list of unpaid students *)

(** What a successful [save_fee_record] has written. *)
Lemma save_fee_record_success (form : fee_form) (session : string)
    (db db' : database) :
  save_fee_record form session db = (Success, db') ->
  exists student_number total,
    selected_student_number form = Some student_number
    /\ students db' = students db
    /\ rows (fee_payments db')
       = rows (fee_payments db)
         ++ [[VInt (next_rowid (fee_payments db));
              VText (fee_receipt_input form); student_number;
              VText (fee_student_name form); VText (fee_class form);
              VText (fee_section form); VText (fee_parent_name form);
              VText (String.concat ", " (fee_months_list form));
              VText (fee_payment_date form);
              VReal (fee_tuition form); VReal (fee_lab form);
              VReal (fee_sport form); VReal (fee_computer form);
              VReal (fee_maintenance form); VReal (fee_exam form);
              VReal (fee_late form); VReal total;
              VText (fee_payment_mode form);
              VText (if fee_status_full form then "Full Paid"
                     else "Partial Paid");
              VText session]].
Proof.
  unfold save_fee_record.
  destruct (selected_student_number form) as [student_number|]; [|discriminate].
  destruct (fee_months_list form) as [|month months]; [discriminate|].
  unfold execute_insert. cbn -[next_rowid String.concat collides].
  destruct (fee_total form) as [e|total]; cbn -[next_rowid String.concat collides].
  { destruct e; discriminate. }
  destruct (existsb _ _); [discriminate|].
  intro E. injection E as <-. exists student_number, total.
  repeat split.
Qed.

Lemma like_percent_cons (q : list ascii) (c : ascii) (l : list ascii) :
  like_chars ("%"%char :: q) (c :: l)
  = like_chars q (c :: l) || like_chars ("%"%char :: q) l.
Proof. reflexivity. Qed.

Lemma like_percent_here (q l : list ascii) :
  like_chars q l = true -> like_chars ("%"%char :: q) l = true.
Proof.
  intro H. destruct l as [|c l].
  - change (like_chars q [] || false = true). now rewrite H.
  - rewrite like_percent_cons, H. reflexivity.
Qed.

(** A text matches itself followed by [%], whatever follows it in the
    text, also when it holds wildcards. *)
Lemma like_prefix (p : list ascii) :
  forall l, like_chars (p ++ ["%"%char]) (p ++ l) = true.
Proof.
  induction p as [|c p IH]; intro l; [apply like_any|].
  destruct (Ascii.eqb c "%") eqn:E1.
  - apply Ascii.eqb_eq in E1. subst c. cbn [app].
    rewrite like_percent_cons. rewrite (like_percent_here _ _ (IH l)).
    apply orb_true_r.
  - cbn [app like_chars]. rewrite E1.
    destruct (Ascii.eqb c "_"); [apply IH|].
    rewrite Ascii.eqb_refl. apply IH.
Qed.

Lemma like_skip (q : list ascii) (pre l : list ascii) :
  like_chars ("%"%char :: q) l = true ->
  like_chars ("%"%char :: q) (pre ++ l) = true.
Proof.
  intro H. induction pre as [|c pre IH]; [exact H|].
  cbn [app]. rewrite like_percent_cons, IH. apply orb_true_r.
Qed.

Lemma concat_holds (sep word : string) (words : list string) :
  In word words ->
  exists pre post,
    list_ascii_of_string (String.concat sep words)
    = pre ++ list_ascii_of_string word ++ post.
Proof.
  induction words as [|w rest IH]; intros []; cbn [String.concat].
  - subst w. exists []. destruct rest.
    + exists []. now rewrite app_nil_r.
    + eexists. rewrite chars_app. reflexivity.
  - destruct rest as [|w' rest']; [destruct H|].
    destruct (IH H) as (pre & post & E).
    exists (list_ascii_of_string w ++ list_ascii_of_string sep ++ pre), post.
    rewrite !chars_app, E, <- !app_assoc. reflexivity.
Qed.

(** [months LIKE '%month%'] holds of the record of a payment for each
    month selected in the form. *)
Lemma months_like (month : string) (months : list string) :
  In month months ->
  like (VText (String.concat ", " months)) ("%" ++ month ++ "%") = true.
Proof.
  intro I. destruct (concat_holds ", " month months I) as (pre & post & E).
  unfold like. rewrite E. cbn [append list_ascii_of_string].
  rewrite chars_app. apply like_skip, like_percent_here, like_prefix.
Qed.

Lemma existsb_none (A : Type) (f : A -> bool) (l : list A) (x : A) :
  existsb f l = false -> In x l -> f x = false.
Proof.
  intros E I. destruct (f x) eqn:F; [|reflexivity].
  rewrite <- E. symmetry. apply existsb_exists. exists x. split; assumption.
Qed.

(** X16: Recording a payment and the list of unpaid students.  After a
    payment marked Full Paid is saved, the student it was made for is in
    no list of unpaid students of the session for a month the payment
    covers, whatever the class and section filters; a payment marked
    Partial Paid leaves every list of unpaid students as it was; a payment
    never adds a student to a list; and it leaves the lists of the other
    sessions as they were. *)
Theorem payment_and_unpaid_list (form : fee_form) (session : string)
    (db db' : database) (student_number : value) :
  save_fee_record form session db = (Success, db') ->
  selected_student_number form = Some student_number ->
  (fee_status_full form = true ->
   forall month class_filter section_filter s,
     In month (fee_months_list form) ->
     In s (load_unpaid_fees month class_filter section_filter session db') ->
     py_eq (nth 0 s VNull) student_number = false)
  /\ (fee_status_full form = false ->
      forall month class_filter section_filter,
        load_unpaid_fees month class_filter section_filter session db'
        = load_unpaid_fees month class_filter section_filter session db)
  /\ (forall month class_filter section_filter s,
        In s (load_unpaid_fees month class_filter section_filter session db') ->
        In s (load_unpaid_fees month class_filter section_filter session db))
  /\ (forall other month class_filter section_filter,
        other <> session ->
        load_unpaid_fees month class_filter section_filter other db'
        = load_unpaid_fees month class_filter section_filter other db).
Proof.
  intros S Sel.
  destruct (save_fee_record_success _ _ _ S) as (sn & total & Sel' & St & R).
  rewrite Sel in Sel'. injection Sel' as <-.
  unfold load_unpaid_fees, select. rewrite St, R.
  split; [|split; [|split]].
  - intros Full month class_filter section_filter s Im I.
    apply filter_In in I. destruct I as [_ N]. apply negb_true_iff in N.
    apply (existsb_none _ _ student_number N).
    rewrite filter_app, map_app. apply in_or_app. right.
    cbn [filter col nth]. rewrite (months_like _ _ Im), Full.
    cbn [sql_eq]. rewrite !String.eqb_refl. left. reflexivity.
  - intros Part month class_filter section_filter.
    rewrite filter_app. cbn [filter col nth]. rewrite Part. cbn [sql_eq].
    change ("Partial Paid" =? "Full Paid")%string with false.
    rewrite andb_false_r. cbn [andb]. now rewrite app_nil_r.
  - intros month class_filter section_filter s I.
    apply filter_In in I. destruct I as [A N]. apply filter_In.
    split; [exact A|]. apply negb_true_iff. apply negb_true_iff in N.
    rewrite filter_app, map_app, existsb_app in N.
    apply orb_false_elim in N. apply N.
  - intros other month class_filter section_filter D.
    rewrite filter_app. cbn [filter col nth sql_eq].
    replace (session =? other)%string with false
      by (symmetry; apply String.eqb_neq; congruence).
    rewrite andb_false_r. now rewrite app_nil_r.
Qed.

Lemma rowid_le_max (l : list row) (s : row) :
  In s l -> rowid s <= max_rowid l.
Proof.
  induction l as [|x l IH]; intros []; cbn [max_rowid fold_right].
  - subst x. lia.
  - specialize (IH H). unfold max_rowid in IH. lia.
Qed.

(** X15: A receipt number is issued again after the record that carried it is
    deleted: when the record just saved is deleted, the ledger holds the
    rows it held before the save, and the number generated next is the
    number that was generated before the save. *)
Theorem deleted_receipt_is_reissued (form : fee_form) (session : string)
    (db db' : database) :
  (forall s, In s (rows (fee_payments db)) -> exists i, col 0 s = VInt i) ->
  save_fee_record form session db = (Success, db') ->
  col 1 (last (rows (fee_payments db')) []) = VText (fee_receipt_input form)
  /\ rows (fee_payments
             (delete_fee_record (last (rows (fee_payments db')) []) db'))
     = rows (fee_payments db)
  /\ generate_receipt_number
       (delete_fee_record (last (rows (fee_payments db')) []) db')
     = generate_receipt_number db.
Proof.
  intros Ids S.
  destruct (save_fee_record_success _ _ _ S) as (sn & total & _ & _ & R).
  rewrite R, last_last. split; [reflexivity|].
  assert (D : rows (fee_payments
                      (delete_fee_record
                         [VInt (next_rowid (fee_payments db));
                          VText (fee_receipt_input form); sn;
                          VText (fee_student_name form); VText (fee_class form);
                          VText (fee_section form); VText (fee_parent_name form);
                          VText (String.concat ", " (fee_months_list form));
                          VText (fee_payment_date form);
                          VReal (fee_tuition form); VReal (fee_lab form);
                          VReal (fee_sport form); VReal (fee_computer form);
                          VReal (fee_maintenance form); VReal (fee_exam form);
                          VReal (fee_late form); VReal total;
                          VText (fee_payment_mode form);
                          VText (if fee_status_full form then "Full Paid"
                                 else "Partial Paid");
                          VText session] db'))
              = rows (fee_payments db)).
  { unfold delete_fee_record, delete_where.
    cbn [with_fee_payments fee_payments rows]. rewrite R.
    rewrite DeletionFacts.delete_one; [apply app_nil_r| |].
    - intros s I. rewrite app_nil_r in I. destruct (Ids s I) as [i Ei].
      rewrite Ei. cbn [col nth sql_eq]. apply Z.eqb_neq.
      pose proof (rowid_le_max _ _ I) as B.
      destruct s as [|v s]; [discriminate Ei|]. cbn [col nth] in Ei. subst v.
      cbn [rowid] in B. unfold next_rowid. lia.
    - cbn [col nth sql_eq]. apply Z.eqb_refl. }
  split; [exact D|].
  unfold generate_receipt_number, select. now rewrite D.
Qed.

Lemma deleted_receipt_is_reissued_witness :
  generate_receipt_number
    (delete_fee_record
       (last (rows (fee_payments
                      (snd (save_fee_record
                              (with_receipt "REC000002" fee_june_part)
                              "2024-25" school_a)))) [])
       (snd (save_fee_record (with_receipt "REC000002" fee_june_part)
               "2024-25" school_a)))
  = generate_receipt_number school_a.
Proof.
  assert (S : save_fee_record (with_receipt "REC000002" fee_june_part)
                "2024-25" school_a
              = (Success,
                 snd (save_fee_record (with_receipt "REC000002" fee_june_part)
                        "2024-25" school_a)))
    by (vm_compute; reflexivity).
  refine (proj2 (proj2 (@deleted_receipt_is_reissued
                          (with_receipt "REC000002" fee_june_part) "2024-25"
                          school_a _ _ S))).
  intros s I. vm_compute in I. destruct I as [<-|[]]. eexists. reflexivity.
Defined.

Lemma payment_and_unpaid_list_witness :
  (fee_status_full (with_receipt "REC000001" fee_april_may) = true ->
   forall month class_filter section_filter s,
     In month (fee_months_list (with_receipt "REC000001" fee_april_may)) ->
     In s (load_unpaid_fees month class_filter section_filter "2024-25"
             school_c_paid) ->
     py_eq (nth 0 s VNull) (VText "STU000001") = false)
  /\ load_unpaid_fees "April" "All" "All" "2024-25" school_c
     = [[VText "STU000001"; VText "Asha Rao"; VText "Class 5"; VText "A";
         VText "R Rao"];
        [VText "STU000002"; VText "Chitra Iyer"; VText "Class 6"; VText "B";
         VText "V Iyer"]]
  /\ load_unpaid_fees "April" "All" "All" "2024-25" school_c_paid
     = [[VText "STU000002"; VText "Chitra Iyer"; VText "Class 6"; VText "B";
         VText "V Iyer"]].
Proof.
  split; [|split; vm_compute; reflexivity].
  assert (S : save_fee_record (with_receipt "REC000001" fee_april_may)
                "2024-25" school_c = (Success, school_c_paid))
    by (vm_compute; reflexivity).
  exact (proj1 (@payment_and_unpaid_list
                  (with_receipt "REC000001" fee_april_may) "2024-25" school_c
                  school_c_paid (VText "STU000001") S eq_refl)).
Defined.

End FeeFacts.

(* ================================================================== *)
(** ** Facts about the settings: school information, login, session *)
(* ================================================================== *)

Module SettingsFacts.

Import PyStr Sqlite Py DatabaseManager MainWindow LoginWindow Scenario.
Local Open Scope string_scope.
Local Open Scope Z_scope.
Local Open Scope list_scope.

Lemma assoc_app (A : Type) (k : string) (l1 l2 : list (string * A)) :
  assoc k (l1 ++ l2)
  = match assoc k l1 with Some v => Some v | None => assoc k l2 end.
Proof.
  induction l1 as [|[k' v] l1 IH]; [reflexivity|].
  cbn [app assoc]. destruct (String.eqb k' k); [reflexivity|exact IH].
Qed.

Lemma assoc_without (A : Type) (key k : string) (l : list (string * A)) :
  assoc k (filter (fun kv => negb (String.eqb (fst kv) key)) l)
  = if String.eqb key k then None else assoc k l.
Proof.
  induction l as [|[k' v] l IH]; [now destruct (String.eqb key k)|].
  cbn [filter fst assoc]. destruct (String.eqb_spec k' key) as [->|N].
  - cbn [negb]. rewrite IH. destruct (String.eqb key k); reflexivity.
  - cbn [negb assoc]. rewrite IH.
    destruct (String.eqb_spec k' k) as [->|N'].
    + apply String.eqb_neq in N. rewrite String.eqb_sym in N. now rewrite N.
    + reflexivity.
Qed.

(** [INSERT OR REPLACE INTO settings]: the key reads as the value written,
    every other key as before. *)
Lemma set_setting_reads (key k : string) (new : object) (v : value)
    (s : list (string * value)) :
  to_value new = inr v ->
  exists s',
    set_setting false key new s = inr s'
    /\ assoc k s' = if String.eqb key k then Some v else assoc k s.
Proof.
  intro B. unfold set_setting. rewrite B. cbn [Exn.bind Exn.ret].
  eexists. split; [reflexivity|].
  rewrite assoc_app, assoc_without. cbn [assoc].
  destruct (String.eqb key k); [reflexivity|].
  destruct (assoc k s); reflexivity.
Qed.

Lemma write_setting_reads (key text : string) (db : database) :
  exists db',
    write_setting key text db = inr db'
    /\ (forall k, get_setting k db'
                  = if String.eqb key k then JStr text else get_setting k db)
    /\ (forall k, assoc k (settings db')
                  = if String.eqb key k then Some (VText text)
                    else assoc k (settings db))
    /\ same_tables db' db.
Proof.
  destruct (@set_setting_reads key key (JStr text) (VText text) (settings db)
              eq_refl) as (s' & E & _).
  unfold write_setting. rewrite E. cbn [Exn.bind Exn.ret].
  eexists. split; [reflexivity|].
  assert (R : forall k, assoc k s'
                        = if String.eqb key k then Some (VText text)
                          else assoc k (settings db)).
  { intro k.
    destruct (@set_setting_reads key k (JStr text) (VText text) (settings db)
                eq_refl) as (s'' & E' & R).
    rewrite E in E'. injection E' as <-. exact R. }
  split; [|split; [exact R|repeat split]].
  intro k. unfold get_setting. cbn [with_settings settings]. rewrite R.
  destruct (String.eqb key k); reflexivity.
Qed.

Lemma same_tables_trans (a b c : database) :
  same_tables a b -> same_tables b c -> same_tables a c.
Proof.
  intros (A1 & A2 & A3 & A4 & A5) (B1 & B2 & B3 & B4 & B5).
  repeat split; congruence.
Qed.

(** X18: Saving the school information: afterwards the three settings read as
    the three texts of the form, whatever they held before, every other
    setting reads as before, and the five tables are untouched. *)
Theorem school_settings_read_back (settings_school_name settings_school_address
    settings_school_email : string) (db : database) :
  exists db',
    save_school_settings settings_school_name settings_school_address
      settings_school_email db = inr db'
    /\ get_setting "school_name" db' = JStr settings_school_name
    /\ get_setting "school_address" db' = JStr settings_school_address
    /\ get_setting "school_email" db' = JStr settings_school_email
    /\ (forall k, k <> "school_name" -> k <> "school_address" ->
                  k <> "school_email" ->
                  get_setting k db' = get_setting k db)
    /\ same_tables db' db.
Proof.
  unfold save_school_settings.
  destruct (write_setting_reads "school_name" settings_school_name db)
    as (db1 & E1 & R1 & _ & T1).
  destruct (write_setting_reads "school_address" settings_school_address db1)
    as (db2 & E2 & R2 & _ & T2).
  destruct (write_setting_reads "school_email" settings_school_email db2)
    as (db3 & E3 & R3 & _ & T3).
  rewrite E1. cbn [Exn.bind]. rewrite E2. cbn [Exn.bind].
  exists db3. split; [exact E3|].
  repeat split; try (rewrite R3, ?R2, ?R1; reflexivity);
    try (apply (same_tables_trans T3), (same_tables_trans T2), T1).
  intros k N1 N2 N3. rewrite R3, R2, R1.
  apply String.eqb_neq in N1, N2, N3.
  rewrite String.eqb_sym in N1, N2, N3. now rewrite N1, N2, N3.
Qed.

(** X20: Logging in and the saved credentials.  A login that is refused
    writes nothing.  A login that is accepted leaves the five tables
    untouched; with Remember Me the next start finds the user name and the
    password in the settings, as plain text, and fills them in; without it
    the saved password is overwritten by the empty text and the next start
    leaves the form as it is. *)
Theorem login_and_saved_credentials (form blank : login_form) (db : database) :
  exists opened db',
    login form db = inr (opened, db')
    /\ opened = (String.eqb (username_input form) "admin"
                 && String.eqb (password_input form) "admin123")
    /\ same_tables db' db
    /\ (opened = false -> db' = db)
    /\ (opened = true ->
        get_setting "saved_password" db'
        = JStr (if remember_checkbox form then "admin123" else "")
        /\ load_saved_credentials blank db'
           = inr (if remember_checkbox form
                  then {| username_input := "admin";
                          password_input := "admin123";
                          remember_checkbox := true |}
                  else blank)).
Proof.
  unfold login.
  destruct (String.eqb_spec (username_input form) "admin") as [U|U];
    [|exists false, db; repeat split; discriminate].
  destruct (String.eqb_spec (password_input form) "admin123") as [P|P];
    [|exists false, db; repeat split; discriminate].
  cbn [andb]. rewrite U, P.
  destruct (remember_checkbox form).
  - destruct (write_setting_reads "remember_me" "true" db)
      as (db1 & E1 & R1 & _ & T1).
    destruct (write_setting_reads "saved_username" "admin" db1)
      as (db2 & E2 & R2 & _ & T2).
    destruct (write_setting_reads "saved_password" "admin123" db2)
      as (db3 & E3 & R3 & _ & T3).
    rewrite E1. cbn [Exn.bind]. rewrite E2. cbn [Exn.bind]. rewrite E3.
    cbn [Exn.bind Exn.ret].
    exists true, db3. split; [reflexivity|]. split; [reflexivity|].
    split; [apply (same_tables_trans T3), (same_tables_trans T2), T1|].
    split; [discriminate|]. intros _.
    unfold load_saved_credentials. rewrite !R3, !R2, !R1. split; reflexivity.
  - destruct (write_setting_reads "remember_me" "false" db)
      as (db1 & E1 & R1 & _ & T1).
    destruct (write_setting_reads "saved_username" "" db1)
      as (db2 & E2 & R2 & _ & T2).
    destruct (write_setting_reads "saved_password" "" db2)
      as (db3 & E3 & R3 & _ & T3).
    rewrite E1. cbn [Exn.bind]. rewrite E2. cbn [Exn.bind]. rewrite E3.
    cbn [Exn.bind Exn.ret].
    exists true, db3. split; [reflexivity|]. split; [reflexivity|].
    split; [apply (same_tables_trans T3), (same_tables_trans T2), T1|].
    split; [discriminate|]. intros _.
    unfold load_saved_credentials. rewrite !R3, !R2, !R1. split; reflexivity.
Qed.

(** X21: The session chosen last is the session of the next start:
    [change_session] makes the session current and stores it, and
    [load_last_session] then reads it back; the other settings and the five
    tables are untouched.  A database in which no session was ever stored
    starts in 2024-25. *)
Theorem last_session_is_remembered (session : string) (db : database) :
  fst (change_session session db) = session
  /\ load_last_session (snd (change_session session db)) = JStr session
  /\ (forall k, k <> "last_session" ->
                get_setting k (snd (change_session session db))
                = get_setting k db)
  /\ same_tables (snd (change_session session db)) db
  /\ (assoc "last_session" (settings db) = None ->
      load_last_session db = JStr "2024-25").
Proof.
  unfold change_session, save_last_session. cbn [fst snd].
  destruct (write_setting_reads "last_session" session db)
    as (db1 & E1 & R1 & A1 & T1).
  rewrite E1. split; [reflexivity|]. split; [|split; [|split]].
  - unfold load_last_session. rewrite A1. reflexivity.
  - intros k N. rewrite R1. apply String.eqb_neq in N.
    rewrite String.eqb_sym in N. now rewrite N.
  - exact T1.
  - intro N. unfold load_last_session. now rewrite N.
Qed.

Lemma assoc_in (A : Type) (k : string) (l : list (string * A)) (v : A) :
  assoc k l = Some v -> In v (map snd l).
Proof.
  induction l as [|[k' x] l IH]; [discriminate|].
  cbn [assoc map snd]. destruct (String.eqb k' k).
  - intro E. injection E as <-. left. reflexivity.
  - intro E. right. apply IH, E.
Qed.

(** A setting read from a sound database is bound as the cell it was
    read from. *)
Lemma setting_binds_back (key : string) (db : database) :
  forallb storable (map snd (settings db)) = true ->
  exists v, to_value (get_setting key db) = inr v
            /\ of_value v = get_setting key db.
Proof.
  intro So. unfold get_setting.
  destruct (assoc key (settings db)) as [x|] eqn:E.
  - exists x. split; [|reflexivity].
    apply RoundTripFacts.to_value_of_value.
    exact (proj1 (forallb_forall _ _) So x (assoc_in _ _ E)).
  - exists VNull. split; reflexivity.
Qed.

(** The settings after an Override restore of a document of the shape
    [create_complete_backup] writes. *)
Lemma restore_own_backup_settings (backup_type now session : string)
    (a b c : object) (va vb vc : value) (l1 l2 l3 l4 l5 : list object)
    (target : database) :
  to_value a = inr va -> to_value b = inr vb -> to_value c = inr vc ->
  (exists r,
     fst (restore
            (JDict [("backup_type", JStr backup_type); ("backup_date", JStr now);
                    ("session", JStr session);
                    ("school_info",
                     JDict [("name", a); ("address", b); ("email", c)]);
                    ("students", JList l1); ("staff", JList l2);
                    ("attendance", JList l3); ("salary_payments", JList l4);
                    ("fee_payments", JList l5)])
            false target) = Done r)
  /\ forall k,
       get_setting k
         (snd (restore
                 (JDict [("backup_type", JStr backup_type);
                         ("backup_date", JStr now);
                         ("session", JStr session);
                         ("school_info",
                          JDict [("name", a); ("address", b); ("email", c)]);
                         ("students", JList l1); ("staff", JList l2);
                         ("attendance", JList l3); ("salary_payments", JList l4);
                         ("fee_payments", JList l5)])
                 false target))
       = if String.eqb "school_email" k then of_value vc
         else if String.eqb "school_address" k then of_value vb
         else if String.eqb "school_name" k then of_value va
         else get_setting k target.
Proof.
  intros Ha Hb Hc.
  destruct (@set_setting_reads "school_name" "school_name" a va
              (settings target) Ha) as (s1 & E1 & _).
  destruct (@set_setting_reads "school_address" "school_address" b vb s1 Hb)
    as (s2 & E2 & _).
  destruct (@set_setting_reads "school_email" "school_email" c vc s2 Hc)
    as (s3 & E3 & _).
  assert (R : forall k,
             assoc k s3
             = if String.eqb "school_email" k then Some vc
               else if String.eqb "school_address" k then Some vb
               else if String.eqb "school_name" k then Some va
               else assoc k (settings target)).
  { intro k.
    destruct (@set_setting_reads "school_name" k a va (settings target) Ha)
      as (s1' & E1' & R1).
    destruct (@set_setting_reads "school_address" k b vb s1 Hb)
      as (s2' & E2' & R2).
    destruct (@set_setting_reads "school_email" k c vc s2 Hc)
      as (s3' & E3' & R3).
    rewrite E1 in E1'. injection E1' as <-.
    rewrite E2 in E2'. injection E2' as <-.
    rewrite E3 in E3'. injection E3' as <-.
    rewrite R3, R2, R1. reflexivity. }
  split.
  - unfold restore, restore_complete_backup, restore_collection, restore_report,
      shown.
    cbn -[set_setting restore_item fold_left Z.of_nat].
    rewrite E1. cbn -[set_setting restore_item fold_left Z.of_nat].
    rewrite E2. cbn -[set_setting restore_item fold_left Z.of_nat].
    rewrite E3. cbn -[set_setting restore_item fold_left Z.of_nat].
    eexists; reflexivity.
  - intro k.
    remember (if String.eqb "school_email" k then of_value vc
              else if String.eqb "school_address" k then of_value vb
              else if String.eqb "school_name" k then of_value va
              else get_setting k target) as expected eqn:Ee.
    unfold restore, restore_complete_backup, restore_collection, restore_report,
      shown.
    cbn -[set_setting restore_item fold_left Z.of_nat get_setting].
    rewrite E1. cbn -[set_setting restore_item fold_left Z.of_nat get_setting].
    rewrite E2. cbn -[set_setting restore_item fold_left Z.of_nat get_setting].
    rewrite E3. cbn -[set_setting restore_item fold_left Z.of_nat get_setting].
    unfold get_setting in *. cbn [settings]. rewrite R. subst expected.
    destruct (String.eqb "school_email" k); [reflexivity|].
    destruct (String.eqb "school_address" k); [reflexivity|].
    destruct (String.eqb "school_name" k); reflexivity.
Qed.

(** X19: The school information survives a complete backup and an Override
    restore: whatever the scope of the backup and whatever database the
    document is restored into, the restore ends with its success box and
    the name, address and e-mail of the school then read as they did in
    the database the backup was made from; every other setting of the
    database restored into reads as before. *)
Theorem school_info_round_trip (db target : database)
    (folder backup_type month now session : string) :
  forallb storable (map snd (settings db)) = true ->
  exists backup_data,
    create_complete_backup (Some folder) backup_type month now session db
    = Some backup_data
    /\ (exists r, fst (restore backup_data false target) = Done r)
    /\ get_setting "school_name" (snd (restore backup_data false target))
       = get_setting "school_name" db
    /\ get_setting "school_address" (snd (restore backup_data false target))
       = get_setting "school_address" db
    /\ get_setting "school_email" (snd (restore backup_data false target))
       = get_setting "school_email" db
    /\ (forall k, k <> "school_name" -> k <> "school_address" ->
                  k <> "school_email" ->
                  get_setting k (snd (restore backup_data false target))
                  = get_setting k target).
Proof.
  intro So.
  destruct (setting_binds_back "school_name" db So) as (va & Ha & Oa).
  destruct (setting_binds_back "school_address" db So) as (vb & Hb & Ob).
  destruct (setting_binds_back "school_email" db So) as (vc & Hc & Oc).
  eexists. split; [reflexivity|].
  match goal with
  | |- context [restore (JDict [_; _; _; _; ("students", JList ?l1);
                                ("staff", JList ?l2); ("attendance", JList ?l3);
                                ("salary_payments", JList ?l4);
                                ("fee_payments", JList ?l5)]) false target] =>
      destruct (@restore_own_backup_settings backup_type now session
                  (get_setting "school_name" db)
                  (get_setting "school_address" db)
                  (get_setting "school_email" db) va vb vc l1 l2 l3 l4 l5
                  target Ha Hb Hc) as [D R]
  end.
  split; [exact D|].
  rewrite !R. cbn [String.eqb Ascii.eqb Bool.eqb]. 
  split; [exact Oa|]. split; [exact Ob|]. split; [exact Oc|].
  intros k N1 N2 N3. rewrite R.
  apply String.eqb_neq in N1, N2, N3.
  rewrite String.eqb_sym in N1, N2, N3. now rewrite N1, N2, N3.
Qed.

Lemma school_info_round_trip_witness :
  exists backup_data,
    create_complete_backup (Some "backups") "Complete Backup" "April"
      "2025-03-31 17:00:00" "2024-25" school_b
    = Some backup_data
    /\ (exists r, fst (restore backup_data false school_a) = Done r)
    /\ get_setting "school_name" (snd (restore backup_data false school_a))
       = get_setting "school_name" school_b
    /\ get_setting "school_address" (snd (restore backup_data false school_a))
       = get_setting "school_address" school_b
    /\ get_setting "school_email" (snd (restore backup_data false school_a))
       = get_setting "school_email" school_b
    /\ (forall k, k <> "school_name" -> k <> "school_address" ->
                  k <> "school_email" ->
                  get_setting k (snd (restore backup_data false school_a))
                  = get_setting k school_a).
Proof.
  apply (@school_info_round_trip school_b school_a "backups" "Complete Backup"
           "April" "2025-03-31 17:00:00" "2024-25").
  reflexivity.
Defined.

End SettingsFacts.

(* ================================================================== *)
(** ** Facts about the amount in words *)
(* ================================================================== *)

Module WordsFacts.

Import PyStr MainWindow Scenario.
Local Open Scope string_scope.
Local Open Scope Z_scope.

Lemma in_whole_amounts (n : nat) :
  forall start x, start <= x < start + Z.of_nat n -> In x (whole_amounts start n).
Proof.
  induction n as [|n IH]; intros start x H; [lia|].
  cbn [whole_amounts]. destruct (Z.eq_dec start x) as [E|N]; [left; exact E|].
  right. apply IH. lia.
Qed.

Lemma small_convert : forallb converts (whole_amounts 0 1000) = true.
Proof. vm_compute. reflexivity. Qed.

(** [convert_hundreds] raises for no number below 1000. *)
Lemma convert_below_1000 (num : Z) :
  num < 1000 -> exists w, convert_hundreds num = Some w.
Proof.
  intro H. destruct (Z.neg_nonneg_cases num) as [N|P].
  - unfold convert_hundreds.
    destruct (Z.leb_spec 100 num); [lia|].
    destruct (Z.leb_spec 20 num); [lia|].
    destruct (Z.leb_spec 10 num); [lia|].
    destruct (Z.ltb_spec 0 num); [lia|]. eexists. reflexivity.
  - pose proof (proj1 (forallb_forall _ _) small_convert num) as C.
    unfold converts in C.
    destruct (convert_hundreds num) as [w|]; [exists w; reflexivity|].
    discriminate C. apply in_whole_amounts. lia.
Qed.

(** *** Amounts with paise *)

(** Linear arithmetic over the rationals, the embedded integers taken as
    unknowns. *)
Ltac hide_inject :=
  repeat match goal with
         | |- context [inject_Z ?z] =>
             let q := fresh "q" in set (q := inject_Z z) in *; clearbody q
         | H : context [inject_Z ?z] |- _ =>
             let q := fresh "q" in set (q := inject_Z z) in *; clearbody q
         end.

Ltac qlra := hide_inject; lra.

Lemma floor_unique (x : Q) (z : Z) :
  (inject_Z z <= x)%Q -> (x < inject_Z (z + 1))%Q -> Qfloor x = z.
Proof.
  intros L U. pose proof (Qfloor_le x) as A. pose proof (Qlt_floor x) as B.
  assert (H1 : z < Qfloor x + 1)
    by (rewrite Zlt_Qlt; eapply Qle_lt_trans; eassumption).
  assert (H2 : Qfloor x < z + 1)
    by (rewrite Zlt_Qlt; eapply Qle_lt_trans; eassumption).
  lia.
Qed.

Lemma floor_bounds (x : Q) :
  (inject_Z (Qfloor x) <= x)%Q /\ (x < inject_Z (Qfloor x) + 1)%Q.
Proof.
  split; [apply Qfloor_le|].
  pose proof (Qlt_floor x) as B. rewrite inject_Z_plus in B. exact B.
Qed.

(** A whole number is at most [x] exactly when it is at most the floor
    of [x]. *)
Lemma whole_le_floor (z : Z) (x : Q) :
  Qle_bool (inject_Z z) x = (z <=? Qfloor x).
Proof.
  destruct (floor_bounds x) as [A B].
  destruct (Z.leb_spec z (Qfloor x)) as [L|L].
  - apply Qle_bool_iff. rewrite Zle_Qle in L. qlra.
  - apply LedgerFacts.Qle_bool_false.
    assert (L' : Qfloor x + 1 <= z) by lia.
    rewrite Zle_Qle, inject_Z_plus in L'. change (inject_Z 1) with 1%Q in L'. qlra.
Qed.

Lemma int_of_nonneg (x : Q) : (0 <= x)%Q -> int_of_float x = Qfloor x.
Proof.
  intro H. unfold int_of_float.
  now rewrite (proj2 (Qle_bool_iff 0 x) H).
Qed.

Lemma int_of_float_below (x : Q) (z : Z) :
  0 < z -> (x < inject_Z z)%Q -> int_of_float x < z.
Proof.
  intros P H. unfold int_of_float. destruct (Qle_bool 0 x) eqn:E.
  - rewrite Zlt_Qlt. pose proof (Qfloor_le x). qlra.
  - apply LedgerFacts.Qle_bool_false in E. unfold Qceiling.
    assert (F : Qfloor 0 <= Qfloor (- x)) by (apply Qfloor_resp_le; qlra).
    change (Qfloor 0) with 0 in F. lia.
Qed.

Lemma append_empty (s : string) : s ++ "" = s.
Proof. induction s as [|c s IH]; cbn; [reflexivity|now rewrite IH]. Qed.

Lemma thousand_parts (n : Q) :
  (1000 <= n)%Q -> (n < 100000)%Q ->
  floordiv n 1000 = inject_Z (Qfloor n / 1000)
  /\ int_of_float (floordiv n 1000) = Qfloor n / 1000
  /\ int_of_float (float_mod n 1000) = Qfloor n mod 1000
  /\ 1 <= Qfloor n / 1000 < 100
  /\ (0 <= float_mod n 1000)%Q
  /\ (Qfloor n mod 1000 = 0 \/ (0 < float_mod n 1000)%Q).
Proof.
  intros L U. destruct (floor_bounds n) as [A B].
  set (f := Qfloor n) in *.
  assert (F : 1000 <= f < 100000).
  { split.
    - pose proof (whole_le_floor 1000 n) as W. fold f in W.
      change (inject_Z 1000) with 1000%Q in W.
      rewrite (proj2 (Qle_bool_iff 1000 n) L) in W. symmetry in W.
      apply Z.leb_le, W.
    - rewrite Zlt_Qlt. change (inject_Z 100000) with 100000%Q. qlra. }
  pose proof (Z.div_mod f 1000 ltac:(lia)) as DM.
  pose proof (Z.mod_pos_bound f 1000 ltac:(lia)) as MB.
  set (k := f / 1000) in *. set (r := f mod 1000) in *.
  assert (Ef : (inject_Z f == 1000 * inject_Z k + inject_Z r)%Q).
  { rewrite DM at 1. rewrite inject_Z_plus, inject_Z_mult. reflexivity. }
  assert (R0 : (0 <= inject_Z r)%Q)
    by (change 0%Q with (inject_Z 0); rewrite <- Zle_Qle; lia).
  assert (R1 : (inject_Z r + 1 <= 1000)%Q).
  { change 1%Q with (inject_Z 1). change 1000%Q with (inject_Z 1000).
    rewrite <- inject_Z_plus, <- Zle_Qle. lia. }
  assert (K : Qfloor (n / 1000) = k).
  { apply floor_unique; rewrite ?inject_Z_plus;
      change (n / 1000)%Q with (n * (1 # 1000))%Q;
      change (inject_Z 1) with 1%Q; qlra. }
  assert (FD : floordiv n 1000 = inject_Z k) by (unfold floordiv; now rewrite K).
  assert (K0 : (0 <= inject_Z k)%Q)
    by (change 0%Q with (inject_Z 0); rewrite <- Zle_Qle; lia).
  split; [exact FD|]. split.
  { rewrite FD, int_of_nonneg by exact K0. apply Qfloor_Z. }
  assert (M0 : (0 <= float_mod n 1000)%Q) by (unfold float_mod; rewrite FD; qlra).
  split.
  { rewrite int_of_nonneg by exact M0. unfold float_mod. rewrite FD.
    apply floor_unique; rewrite ?inject_Z_plus; change (inject_Z 1) with 1%Q; qlra. }
  split; [lia|]. split; [exact M0|].
  destruct (Z.eq_dec r 0) as [Z|N]; [left; exact Z|right].
  assert (R2 : (1 <= inject_Z r)%Q)
    by (change 1%Q with (inject_Z 1); rewrite <- Zle_Qle; lia).
  unfold float_mod. rewrite FD. qlra.
Qed.

(** X23: The amount in words and the paise.  [number_to_words] raises for no
    amount.  An amount of less than one rupee gets no words at all.  For
    an amount from one rupee up to, but not including, one lakh the words
    are those of the whole rupees: the paise are dropped.  From one lakh on
    there are no words: the text is "Amount: " and the figure with two
    decimals. *)
Theorem amount_in_words_drops_paise (n : Q) :
  (exists w, number_to_words n = Some w)
  /\ ((0 < n)%Q -> (n < 1)%Q -> number_to_words n = Some "")
  /\ ((1 <= n)%Q -> (n < 100000)%Q ->
      number_to_words n = number_to_words (inject_Z (Qfloor n)))
  /\ ((100000 <= n)%Q -> number_to_words n = Some ("Amount: " ++ format_2f n)).
Proof.
  assert (Whole : forall x, (1 <= x)%Q -> (x < 100000)%Q ->
            exists w,
              number_to_words x = Some w
              /\ number_to_words (inject_Z (Qfloor x)) = Some w).
  { intros x L U. destruct (floor_bounds x) as [A B].
    assert (F1 : 1 <= Qfloor x).
    { pose proof (whole_le_floor 1 x) as W. change (inject_Z 1) with 1%Q in W.
      rewrite (proj2 (Qle_bool_iff 1 x) L) in W. symmetry in W.
      apply Z.leb_le, W. }
    assert (F1' : (1 <= inject_Z (Qfloor x))%Q)
      by (change 1%Q with (inject_Z 1); rewrite <- Zle_Qle; exact F1).
    assert (Fl : Qfloor (inject_Z (Qfloor x)) = Qfloor x) by apply Qfloor_Z.
    unfold number_to_words.
    replace (Qeq_bool x 0) with false
      by (symmetry; apply not_true_iff_false; intro E;
          apply Qeq_bool_iff in E; qlra).
    replace (Qeq_bool (inject_Z (Qfloor x)) 0) with false
      by (symmetry; apply not_true_iff_false; intro E;
          apply Qeq_bool_iff in E; qlra).
    change 1000%Q with (inject_Z 1000). change 100000%Q with (inject_Z 100000).
    rewrite !whole_le_floor, Fl.
    change (inject_Z 1000) with 1000%Q. change (inject_Z 100000) with 100000%Q.
    replace (100000 <=? Qfloor x) with false
      by (symmetry; apply Z.leb_gt; rewrite Zlt_Qlt;
          change (inject_Z 100000) with 100000%Q; qlra).
    cbn [negb]. destruct (Z.leb_spec 1000 (Qfloor x)) as [T|T]; cbn [negb].
    - assert (Lx : (1000 <= x)%Q).
      { rewrite Zle_Qle in T. change (inject_Z 1000) with 1000%Q in T. qlra. }
      assert (Lf : (1000 <= inject_Z (Qfloor x))%Q).
      { rewrite Zle_Qle in T. exact T. }
      assert (Uf : (inject_Z (Qfloor x) < 100000)%Q) by qlra.
      destruct (thousand_parts Lx U) as (_ & Tx & Rx & Kx & _ & Px).
      destruct (thousand_parts Lf Uf) as (_ & Tf & Rf & _ & _ & Pf).
      rewrite Fl in Tf, Rf, Pf. rewrite Tx, Tf, Rx, Rf.
      destruct (@convert_below_1000 (Qfloor x / 1000)) as [w Ew]; [lia|].
      destruct (@convert_below_1000 (Qfloor x mod 1000)) as [v Ev];
        [pose proof (Z.mod_pos_bound (Qfloor x) 1000); lia|].
      rewrite Ew, Ev. cbn [option_map].
      assert (Zero : Qfloor x mod 1000 = 0 ->
                     strip_str ((w ++ "Thousand ") ++ v)
                     = strip_str (w ++ "Thousand ")).
      { intro Z. rewrite Z in Ev. injection Ev as <-.
        now rewrite append_empty. }
      exists (if Qfloor x mod 1000 =? 0 then strip_str (w ++ "Thousand ")
              else strip_str ((w ++ "Thousand ") ++ v)).
      destruct (Z.eqb_spec (Qfloor x mod 1000) 0) as [Z|N].
      + split.
        * destruct (Qle_bool (float_mod x 1000) 0); cbn [negb];
            [reflexivity|now rewrite (Zero Z)].
        * destruct (Qle_bool (float_mod (inject_Z (Qfloor x)) 1000) 0);
            cbn [negb]; [reflexivity|now rewrite (Zero Z)].
      + destruct Px as [Px|Px]; [contradiction|].
        destruct Pf as [Pf|Pf]; [contradiction|].
        rewrite (proj2 (LedgerFacts.Qle_bool_false _ _) Px).
        rewrite (proj2 (LedgerFacts.Qle_bool_false _ _) Pf).
        split; reflexivity.
    - rewrite !int_of_nonneg by qlra. rewrite Fl.
      destruct (@convert_below_1000 (Qfloor x)) as [w Ew]; [exact T|].
      rewrite Ew. eexists. split; reflexivity. }
  assert (Cases : (n < 1)%Q \/ ((1 <= n)%Q /\ (n < 100000)%Q) \/ (100000 <= n)%Q)
    by (destruct (Qlt_le_dec n 1); [left; assumption|];
        destruct (Qlt_le_dec n 100000); [right; left; split; assumption|];
        right; right; assumption).
  assert (Big : (100000 <= n)%Q ->
                number_to_words n = Some ("Amount: " ++ format_2f n)).
  { intro L. unfold number_to_words.
    replace (Qeq_bool n 0) with false
      by (symmetry; apply not_true_iff_false; intro E;
          apply Qeq_bool_iff in E; qlra).
    rewrite (proj2 (Qle_bool_iff 1000 n)) by qlra.
    rewrite (proj2 (Qle_bool_iff 100000 n)) by qlra. reflexivity. }
  split; [|split; [|split; [|exact Big]]].
  - destruct Cases as [S|[[L U]|L]].
    + unfold number_to_words. destruct (Qeq_bool n 0); [eexists; reflexivity|].
      rewrite (proj2 (LedgerFacts.Qle_bool_false 1000 n)) by qlra. cbn [negb].
      destruct (@convert_below_1000 (int_of_float n)) as [w Ew].
      { apply int_of_float_below; [lia|].
        change (inject_Z 1000) with 1000%Q. qlra. }
      rewrite Ew. eexists. reflexivity.
    + destruct (Whole n L U) as (w & E & _). exists w. exact E.
    + eexists. apply Big, L.
  - intros P S. unfold number_to_words.
    replace (Qeq_bool n 0) with false
      by (symmetry; apply not_true_iff_false; intro E;
          apply Qeq_bool_iff in E; qlra).
    rewrite (proj2 (LedgerFacts.Qle_bool_false 1000 n)) by qlra. cbn [negb].
    rewrite int_of_nonneg by qlra.
    rewrite (@floor_unique n 0) by (unfold inject_Z; cbn; lra). reflexivity.
  - intros L U. destruct (Whole n L U) as (w & E1 & E2). now rewrite E1, E2.
Qed.

Lemma amount_in_words_drops_paise_witness :
  number_to_words (1 # 2) = Some ""
  /\ number_to_words (12345 # 10) = number_to_words (inject_Z (Qfloor (12345 # 10)))
  /\ number_to_words (12345 # 10) = Some "One Thousand Two Hundred Thirty Four"
  /\ number_to_words 250000 = Some ("Amount: " ++ format_2f 250000)
  /\ format_2f 250000 = "250000.00".
Proof.
  split; [|split; [|split; [|split]]].
  - apply (proj1 (proj2 (amount_in_words_drops_paise (1 # 2)))); reflexivity.
  - apply (proj1 (proj2 (proj2 (amount_in_words_drops_paise (12345 # 10)))));
      [discriminate|reflexivity].
  - reflexivity.
  - apply (proj2 (proj2 (proj2 (amount_in_words_drops_paise 250000)))).
    discriminate.
  - reflexivity.
Defined.

(** *** Reading the words back *)

Lemma small_amounts_read_back :
  forallb reads_back (whole_amounts 0 1000) = true.
Proof. vm_compute. reflexivity. Qed.

Lemma thousands_are_read : forallb thousands_read (whole_amounts 1 99) = true.
Proof. vm_compute. reflexivity. Qed.

Lemma hundreds_are_read : forallb hundreds_read (whole_amounts 0 1000) = true.
Proof. vm_compute. reflexivity. Qed.

Lemma split_nonempty (s : string) : forall w, split_spaces w s <> [].
Proof.
  induction s as [|c s IH]; intro w; cbn [split_spaces]; [discriminate|].
  destruct (Ascii.eqb c " "); [discriminate|apply IH].
Qed.

(** The words of a text followed by another: those of the first, the last
    of which goes on into the second. *)
Lemma split_app (a b : string) :
  forall w,
    split_spaces w (a ++ b)
    = (removelast (split_spaces w a)
       ++ split_spaces (last (split_spaces w a) "") b)%list.
Proof.
  induction a as [|c a IH]; intro w; [reflexivity|].
  cbn [append split_spaces]. destruct (Ascii.eqb c " "); [|apply IH].
  rewrite IH. pose proof (split_nonempty a "") as N.
  destruct (split_spaces "" a) as [|x l]; [contradiction|]. reflexivity.
Qed.

(** The thousands counted so far do not change what a word adds. *)
Lemma read_word_shift (base : Z) (word : string) (total current : Z) :
  read_word (base + total, current) word
  = (base + fst (read_word (total, current) word),
     snd (read_word (total, current) word)).
Proof.
  unfold read_word. destruct (String.eqb word "Hundred"); [reflexivity|].
  destruct (String.eqb word "Thousand");
    [cbn [fst snd]; f_equal; lia|].
  destruct (is_empty word); [reflexivity|].
  destruct (Sqlite.index_of word ones); [reflexivity|].
  destruct (Sqlite.index_of word teens); [reflexivity|].
  destruct (Sqlite.index_of word tens); reflexivity.
Qed.

Lemma read_words_shift (base : Z) (l : list string) :
  forall total current,
    fold_left read_word l (base + total, current)
    = (base + fst (fold_left read_word l (total, current)),
       snd (fold_left read_word l (total, current))).
Proof.
  induction l as [|word l IH]; intros total current; [reflexivity|].
  cbn [fold_left]. rewrite read_word_shift.
  destruct (read_word (total, current) word) as [total' current'].
  cbn [fst snd]. apply IH.
Qed.

Lemma drop_while_app (l1 l2 : list ascii) :
  (exists c, In c l1 /\ is_py_space c = false) ->
  drop_while is_py_space (l1 ++ l2) = (drop_while is_py_space l1 ++ l2)%list.
Proof.
  induction l1 as [|x l1 IH]; intros (c & I & P); [destruct I|].
  cbn [app drop_while]. destruct (is_py_space x) eqn:X; [|reflexivity].
  apply IH. destruct I as [->|I]; [congruence|]. exists c. split; assumption.
Qed.

Lemma string_of_app (l1 l2 : list ascii) :
  string_of_list_ascii (l1 ++ l2)
  = string_of_list_ascii l1 ++ string_of_list_ascii l2.
Proof. induction l1 as [|c l1 IH]; cbn; [reflexivity|now rewrite IH]. Qed.

(** Stripping a text that starts with a letter and goes on with another
    such text strips the second one. *)
Lemma strip_app (a b : string) :
  starts_plain a = true -> starts_plain b = true ->
  strip_str (a ++ b) = a ++ strip_str b.
Proof.
  intros A B. destruct a as [|ca a]; [discriminate A|].
  destruct b as [|cb b]; [discriminate B|].
  cbn [starts_plain] in A, B. apply negb_true_iff in A, B.
  unfold strip_str, strip. rewrite FeeFacts.chars_app.
  cbn [list_ascii_of_string app drop_while]. rewrite A, B.
  change (ca :: (list_ascii_of_string a ++ cb :: list_ascii_of_string b)%list)
    with ((ca :: list_ascii_of_string a) ++ (cb :: list_ascii_of_string b))%list.
  rewrite rev_app_distr, drop_while_app.
  - rewrite rev_app_distr, rev_involutive, string_of_app.
    cbn [string_of_list_ascii]. now rewrite string_of_list_ascii_of_string.
  - exists cb. split; [apply in_rev; rewrite rev_involutive; left; reflexivity
                      |exact B].
Qed.

(** The words of [t] thousands followed by those of [r] read as
    [1000 t + r]. *)
Lemma thousands_and_rest (t r : Z) (h v : string) :
  1 <= t < 100 -> 0 <= r < 1000 ->
  convert_hundreds t = Some h -> convert_hundreds r = Some v ->
  words_value (strip_str ((h ++ "Thousand ") ++ v)) = 1000 * t + r.
Proof.
  intros Ht Hr Eh Ev.
  pose proof (proj1 (forallb_forall _ _) thousands_are_read t) as Ct.
  pose proof (proj1 (forallb_forall _ _) hundreds_are_read r) as Cr.
  unfold thousands_read in Ct. unfold hundreds_read in Cr.
  rewrite Eh in Ct. rewrite Ev in Cr.
  specialize (Ct ltac:(apply in_whole_amounts; lia)).
  specialize (Cr ltac:(apply in_whole_amounts; lia)).
  cbv zeta in Ct.
  apply andb_prop in Ct. destruct Ct as [Ct Whole].
  apply andb_prop in Ct. destruct Ct as [Ct Last].
  apply andb_prop in Ct. destruct Ct as [Plain State].
  destruct (Z.eqb_spec r 0) as [Z|N].
  - destruct v; [|discriminate Cr]. rewrite append_empty, Z, Z.add_0_r.
    apply Z.eqb_eq, Whole.
  - apply andb_prop in Cr. destruct Cr as [PlainV StateV].
    rewrite (strip_app _ _ Plain PlainV).
    unfold words_value. rewrite split_app.
    destruct (last (split_spaces "" (h ++ "Thousand ")) "") eqn:L;
      [|discriminate Last].
    rewrite fold_left_app.
    unfold same_state in State, StateV.
    apply andb_prop in State. destruct State as [S1 S2].
    apply andb_prop in StateV. destruct StateV as [V1 V2].
    apply Z.eqb_eq in S1, S2, V1, V2.
    destruct (fold_left read_word (removelast _) (0, 0)) as [total current].
    cbn [fst snd] in S1, S2. subst total current.
    replace (1000 * t, 0) with (1000 * t + 0, 0) by (f_equal; lia).
    rewrite read_words_shift.
    destruct (fold_left read_word (split_spaces "" (strip_str v)) (0, 0))
      as [total current].
    cbn [fst snd] in *. lia.
Qed.

(** The words of a whole amount below one lakh read back as the
    amount. *)
Lemma whole_amount_reads_back (k : Z) :
  0 <= k < 100000 ->
  exists w, number_to_words (inject_Z k) = Some w /\ words_value w = k.
Proof.
  intro H. destruct (Z.lt_ge_cases k 1000) as [S|B].
  - pose proof (proj1 (forallb_forall _ _) small_amounts_read_back k) as C.
    unfold reads_back in C.
    destruct (number_to_words (inject_Z k)) as [w|].
    + exists w. split; [reflexivity|]. apply Z.eqb_eq, C.
      apply in_whole_amounts. lia.
    + discriminate C. apply in_whole_amounts. lia.
  - assert (L : (1000 <= inject_Z k)%Q)
      by (change 1000%Q with (inject_Z 1000); rewrite <- Zle_Qle; exact B).
    assert (U : (inject_Z k < 100000)%Q)
      by (change 100000%Q with (inject_Z 100000); rewrite <- Zlt_Qlt; lia).
    destruct (thousand_parts L U) as (_ & T & R & K & _ & P).
    rewrite Qfloor_Z in T, R, K, P.
    pose proof (Z.div_mod k 1000 ltac:(lia)) as DM.
    pose proof (Z.mod_pos_bound k 1000 ltac:(lia)) as MB.
    destruct (@convert_below_1000 (k / 1000)) as [h Eh]; [lia|].
    destruct (@convert_below_1000 (k mod 1000)) as [v Ev]; [lia|].
    unfold number_to_words.
    replace (Qeq_bool (inject_Z k) 0) with false
      by (symmetry; apply not_true_iff_false; intro E;
          apply Qeq_bool_iff in E; qlra).
    rewrite (proj2 (Qle_bool_iff 1000 (inject_Z k)) L).
    rewrite (proj2 (LedgerFacts.Qle_bool_false 100000 (inject_Z k)) U).
    cbn [negb]. rewrite T, R, Eh, Ev. cbn [option_map].
    pose proof (@thousands_and_rest (k / 1000) (k mod 1000) h v K MB Eh Ev) as V.
    destruct (Qle_bool (float_mod (inject_Z k) 1000) 0) eqn:Q; cbn [negb].
    + destruct P as [Z|P];
        [|apply Qle_bool_iff in Q; exfalso; apply (Qlt_not_le _ _ P Q)].
      rewrite Z in Ev, V, DM. injection Ev as <-. rewrite append_empty in V.
      eexists. split; [reflexivity|]. lia.
    + eexists. split; [reflexivity|]. lia.
Qed.

(** X22: The amount in words is faithful for whole amounts below one lakh:
    for every whole amount from 0 to 99999 the words are produced, they
    read back as the amount, and two different amounts never get the same
    words. *)
Theorem words_determine_amount (a b : Z) :
  0 <= a < 100000 -> 0 <= b < 100000 ->
  (exists w, number_to_words (inject_Z a) = Some w /\ words_value w = a)
  /\ (number_to_words (inject_Z a) = number_to_words (inject_Z b) -> a = b).
Proof.
  intros Ha Hb. split; [apply whole_amount_reads_back, Ha|].
  destruct (whole_amount_reads_back Ha) as (wa & Ea & Va).
  destruct (whole_amount_reads_back Hb) as (wb & Eb & Vb).
  rewrite Ea, Eb. intro E. injection E as ->. congruence.
Qed.

Lemma words_determine_amount_witness :
  (exists w, number_to_words (inject_Z 1234) = Some w /\ words_value w = 1234)
  /\ (number_to_words (inject_Z 1234) = number_to_words (inject_Z 99999)
      -> 1234 = 99999).
Proof. apply (@words_determine_amount 1234 99999); lia. Defined.

End WordsFacts.

(* ================================================================== *)
(** ** Sessions are kept apart by the operations that save *)
(* ================================================================== *)

Module SessionFacts.

Import PyStr Sqlite Py DatabaseManager MainWindow Scenario TableFacts.
Local Open Scope string_scope.
Local Open Scope Z_scope.
Local Open Scope list_scope.

Lemma filter_and (p q : row -> bool) (l : list row) :
  filter (fun s => p s && q s) l = filter q (filter p l).
Proof.
  induction l as [|s l IH]; [reflexivity|].
  cbn [filter]. destruct (p s); cbn [andb filter]; [|exact IH].
  destruct (q s); now rewrite IH.
Qed.

(** A backup that is not a Complete Backup is made of the school
    information and of the rows of its session. *)
Lemma backup_of_view (folder backup_type month now session : string)
    (db db' : database) :
  backup_type <> "Complete Backup" ->
  settings db' = settings db ->
  session_view session db' = session_view session db ->
  create_complete_backup (Some folder) backup_type month now session db'
  = create_complete_backup (Some folder) backup_type month now session db.
Proof.
  intros N Se V. unfold session_view, of_session in V.
  injection V as V1 V2 V3 V4 V5.
  unfold create_complete_backup, get_setting. rewrite Se.
  apply String.eqb_neq in N. rewrite N.
  unfold select in *. rewrite V1, V2.
  rewrite !(filter_and (fun s => sql_eq (col 9 s) (VText session))).
  rewrite !(filter_and (fun s => sql_eq (col 7 s) (VText session))).
  rewrite !(filter_and (fun s => sql_eq (col 19 s) (VText session))).
  rewrite V3, V4, V5. reflexivity.
Qed.

(** A row added for another session is not in the view. *)
Lemma view_snoc (k : nat) (working other : string) (l : list row) (new : row) :
  other <> working -> col k new = VText working ->
  filter (of_session k other) (l ++ [new]) = filter (of_session k other) l.
Proof.
  intros N C. rewrite filter_app. cbn [filter]. unfold of_session at 2.
  rewrite C. cbn [sql_eq].
  replace (working =? other)%string with false
    by (symmetry; apply String.eqb_neq; congruence).
  apply app_nil_r.
Qed.

Lemma view_map (p : row -> bool) (g : row -> row) (l : list row) :
  (forall s, g s = s \/ (p s = false /\ p (g s) = false)) ->
  filter p (map g l) = filter p l.
Proof.
  intro H. induction l as [|s l IH]; [reflexivity|].
  cbn [map filter]. rewrite IH. destruct (H s) as [E|[E1 E2]].
  - now rewrite E.
  - now rewrite E1, E2.
Qed.

Lemma save_student_view (form : student_form) (working other : string)
    (db : database) :
  other <> working ->
  settings (snd (save_student form working db)) = settings db
  /\ session_view other (snd (save_student form working db))
     = session_view other db.
Proof.
  intro N. unfold save_student.
  repeat match goal with
         | |- context [if is_empty ?x then _ else _] =>
             destruct (is_empty x); [split; reflexivity|]
         end.
  unfold execute_insert. cbn -[next_rowid collides session_view].
  destruct (existsb _ _); [split; reflexivity|].
  unfold Exn.ret. cbn [snd]. split; [reflexivity|].
  unfold session_view, select. cbn [students staff attendance salary_payments
    fee_payments rows].
  now rewrite (view_snoc 11 _ _ N).
Qed.

Lemma save_staff_view (form : staff_form) (working other : string)
    (db : database) :
  other <> working ->
  settings (snd (save_staff form working db)) = settings db
  /\ session_view other (snd (save_staff form working db))
     = session_view other db.
Proof.
  intro N. unfold save_staff.
  repeat match goal with
         | |- context [if is_empty ?x then _ else _] =>
             destruct (is_empty x); [split; reflexivity|]
         end.
  unfold execute_insert. cbn -[next_rowid collides session_view].
  destruct (existsb _ _); [split; reflexivity|].
  unfold Exn.ret. cbn [snd]. split; [reflexivity|].
  unfold session_view, select. cbn [with_staff students staff attendance
    salary_payments fee_payments rows].
  now rewrite (view_snoc 11 _ _ N).
Qed.

Lemma save_fee_record_view (form : fee_form) (working other : string)
    (db : database) :
  other <> working ->
  settings (snd (save_fee_record form working db)) = settings db
  /\ session_view other (snd (save_fee_record form working db))
     = session_view other db.
Proof.
  intro N. unfold save_fee_record.
  destruct (selected_student_number form) as [student_number|];
    [|split; reflexivity].
  destruct (fee_months_list form) as [|month months]; [split; reflexivity|].
  unfold execute_insert.
  cbn -[next_rowid String.concat collides session_view].
  destruct (fee_total form) as [e|total];
    cbn -[next_rowid String.concat collides session_view].
  { destruct e; split; reflexivity. }
  destruct (existsb _ _); [split; reflexivity|].
  unfold Exn.ret. cbn [snd]. split; [reflexivity|].
  unfold session_view, select. cbn [with_fee_payments students staff attendance
    salary_payments fee_payments rows].
  now rewrite (view_snoc 19 _ _ N).
Qed.

Lemma save_attendance_loop_view
    (selected_class selected_section month year : string) (working_days : Z)
    (working other : string) (students_table : table)
    (lines : list attendance_line) :
  other <> working ->
  forall (t t' : table) (n n' : Z),
    save_attendance_loop selected_class selected_section month year
      working_days working students_table lines t n = inr (t', n') ->
    filter (of_session 9 other) (rows t') = filter (of_session 9 other) (rows t).
Proof.
  intro N. induction lines as [|line rest IH]; intros t t' n n' E.
  - cbn in E. injection E as <- _. reflexivity.
  - cbn [save_attendance_loop] in E.
    destruct (select _ students_table) as [|result _]; [exact (IH _ _ _ _ E)|].
    set (key := attendance_key (col 1 result) (VText month) (VText year)
                  (VText working)) in *.
    destruct (select key t) as [|hit more].
    + unfold execute_insert in E. cbn -[next_rowid key] in E.
      rewrite no_collision in E by reflexivity. cbn [Exn.bind Exn.ret] in E.
      apply IH in E. rewrite E. cbn [rows].
      now apply (view_snoc 9 _ _ N).
    + cbn [Exn.bind Exn.ret] in E. apply IH in E. rewrite E.
      unfold update_where. cbn [rows]. apply view_map. intro s.
      destruct (key s) eqn:K; [right|left; reflexivity].
      assert (C : of_session 9 other s = false).
      { unfold key, attendance_key in K.
        apply andb_prop in K. destruct K as [_ K].
        unfold of_session. destruct (col 9 s); try reflexivity.
        cbn [sql_eq] in *. apply String.eqb_eq in K. subst.
        apply String.eqb_neq. congruence. }
      split; [exact C|]. unfold of_session in *.
      rewrite AttendanceFacts.update_keeps_key; [exact C|].
      cbn [map fst In]. intuition lia.
Qed.

Lemma save_attendance_view (lines : list attendance_line)
    (selected_class selected_section month year : string) (working_days : Z)
    (working other : string) (db : database) :
  other <> working ->
  settings (snd (save_attendance lines selected_class selected_section month
                   year working_days working db)) = settings db
  /\ session_view other
       (snd (save_attendance lines selected_class selected_section month year
               working_days working db))
     = session_view other db.
Proof.
  intro N. unfold save_attendance. destruct lines as [|line rest];
    [split; reflexivity|].
  destruct (save_attendance_loop _ _ _ _ _ _ _ _ _ _) as [e|[t n]] eqn:E;
    [split; reflexivity|].
  cbn [snd]. split; [reflexivity|].
  unfold session_view, select. cbn [students staff attendance salary_payments
    fee_payments].
  now rewrite (@save_attendance_loop_view _ _ _ _ _ _ _ _ _ N _ _ _ _ E).
Qed.

(** X17: Work in one session never shows in the backup of another: saving a
    student, a member of staff, a fee record or an attendance sheet while
    one session is in force leaves the backup of every other session
    (Current Session Only, or Specific Month for any month) exactly as it
    was. *)
Theorem other_sessions_untouched (working other : string) (db : database)
    (folder backup_type backup_month now : string) :
  other <> working -> backup_type <> "Complete Backup" ->
  (forall form,
     create_complete_backup (Some folder) backup_type backup_month now other
       (snd (save_student form working db))
     = create_complete_backup (Some folder) backup_type backup_month now other db)
  /\ (forall form,
        create_complete_backup (Some folder) backup_type backup_month now other
          (snd (save_staff form working db))
        = create_complete_backup (Some folder) backup_type backup_month now
            other db)
  /\ (forall form,
        create_complete_backup (Some folder) backup_type backup_month now other
          (snd (save_fee_record form working db))
        = create_complete_backup (Some folder) backup_type backup_month now
            other db)
  /\ (forall lines selected_class selected_section month year working_days,
        create_complete_backup (Some folder) backup_type backup_month now other
          (snd (save_attendance lines selected_class selected_section month
                  year working_days working db))
        = create_complete_backup (Some folder) backup_type backup_month now
            other db).
Proof.
  intros N C. repeat split; intros; apply backup_of_view; try exact C.
  - exact (proj1 (@save_student_view form working other db N)).
  - exact (proj2 (@save_student_view form working other db N)).
  - exact (proj1 (@save_staff_view form working other db N)).
  - exact (proj2 (@save_staff_view form working other db N)).
  - exact (proj1 (@save_fee_record_view form working other db N)).
  - exact (proj2 (@save_fee_record_view form working other db N)).
  - exact (proj1 (@save_attendance_view lines selected_class selected_section
                    month year working_days working other db N)).
  - exact (proj2 (@save_attendance_view lines selected_class selected_section
                    month year working_days working other db N)).
Qed.

Lemma other_sessions_untouched_witness :
  create_complete_backup (Some "backups") "Current Session Only" "April"
    "2025-03-31 17:00:00" "2024-25"
    (snd (save_student (with_number "STU000002" student_2) "2025-26" school_b))
  = create_complete_backup (Some "backups") "Current Session Only" "April"
      "2025-03-31 17:00:00" "2024-25" school_b.
Proof.
  apply (@other_sessions_untouched "2025-26" "2024-25" school_b "backups"
           "Current Session Only" "April" "2025-03-31 17:00:00");
    discriminate.
Defined.

End SessionFacts.

(* ================================================================== *)
(** ** What a saved attendance sheet stores *)
(* ================================================================== *)

Module SheetFacts.

Import PyStr Sqlite Py DatabaseManager MainWindow Scenario TableFacts.
Import AttendanceFacts.
Local Open Scope string_scope.
Local Open Scope Z_scope.
Local Open Scope list_scope.

(** The loop on a sheet is the loop on its first lines followed by the
    loop on the others. *)
Lemma loop_app (selected_class selected_section month year : string)
    (working_days : Z) (session : string) (students_table : table)
    (front rest : list attendance_line) :
  forall (t : table) (n : Z),
    save_attendance_loop selected_class selected_section month year
      working_days session students_table (front ++ rest) t n
    = Exn.bind
        (save_attendance_loop selected_class selected_section month year
           working_days session students_table front t n)
        (fun tn =>
           save_attendance_loop selected_class selected_section month year
             working_days session students_table rest (fst tn) (snd tn)).
Proof.
  induction front as [|line front IH]; intros t n; [reflexivity|].
  cbn [app save_attendance_loop].
  destruct (select _ students_table) as [|result _]; [apply IH|].
  destruct (match select _ t with [] => _ | _ :: _ => _ end) as [e|t1];
    cbn [Exn.bind]; [reflexivity|apply IH].
Qed.

Lemma set_nth_length (k : nat) (v : value) :
  forall s, List.length (set_nth k v s) = List.length s.
Proof.
  induction k as [|k IH]; intros [|x s]; cbn; try reflexivity.
  now rewrite IH.
Qed.

Lemma update_length (sets : list (nat * value)) :
  forall s,
    List.length (fold_left (fun s' kv => set_nth (fst kv) (snd kv) s') sets s)
    = List.length s.
Proof.
  induction sets as [|[k v] sets IH]; intro s; [reflexivity|].
  cbn [fold_left fst snd]. now rewrite IH, set_nth_length.
Qed.

(** The loop keeps the rows of the attendance table ten cells long. *)
Lemma loop_lengths (selected_class selected_section month year : string)
    (working_days : Z) (session : string) (students_table : table)
    (lines : list attendance_line) :
  forall (t t' : table) (n n' : Z),
    save_attendance_loop selected_class selected_section month year
      working_days session students_table lines t n = inr (t', n') ->
    (forall s, In s (rows t) -> List.length s = 10%nat) ->
    forall s, In s (rows t') -> List.length s = 10%nat.
Proof.
  induction lines as [|line rest IH]; intros t t' n n' E L.
  - cbn in E. injection E as <- _. exact L.
  - cbn [save_attendance_loop] in E.
    destruct (select _ students_table) as [|result _]; [exact (IH _ _ _ _ E L)|].
    destruct (select _ t) as [|hit more].
    + unfold execute_insert in E. cbn -[next_rowid] in E.
      rewrite no_collision in E by reflexivity. cbn [Exn.bind Exn.ret] in E.
      apply (IH _ _ _ _ E). cbn [rows]. intros s I.
      apply in_app_or in I. destruct I as [I|[<-|[]]]; [apply L, I|reflexivity].
    + cbn [Exn.bind Exn.ret] in E. apply (IH _ _ _ _ E).
      unfold update_where. cbn [rows]. intros s I.
      apply in_map_iff in I. destruct I as (s0 & <- & I0).
      destruct (attendance_key _ _ _ _ s0); [|apply L, I0].
      rewrite update_length. apply L, I0.
Qed.

(** The step of the loop for one line whose student is found. *)
Lemma line_is_stored (selected_class selected_section month year : string)
    (working_days : Z) (session : string) (students_table : table)
    (line : attendance_line) (result : row) (others : list row)
    (t t' : table) (n n' : Z) :
  select (fun s => sql_eq (col 2 s) (VText (line_student_name line))
                   && sql_eq (col 4 s) (VText selected_class)
                   && sql_eq (col 5 s) (VText selected_section)
                   && sql_eq (col 11 s) (VText session))
         students_table = result :: others ->
  sql_eq (col 1 result) (col 1 result) = true ->
  (forall s, In s (rows t) -> List.length s = 10%nat) ->
  save_attendance_loop selected_class selected_section month year
    working_days session students_table [line] t n = inr (t', n') ->
  n' = n + 1
  /\ select (attendance_key (col 1 result) (VText month) (VText year)
               (VText session)) t' <> []
  /\ forall s,
       In s (select (attendance_key (col 1 result) (VText month) (VText year)
                       (VText session)) t') ->
       col 2 s = VText selected_class /\ col 3 s = VText selected_section
       /\ col 6 s = VInt working_days
       /\ col 7 s = VInt (line_days_present line)
       /\ col 8 s = VReal (line_percentage line).
Proof.
  intros Found NotNull L E. cbn [save_attendance_loop] in E. rewrite Found in E.
  set (key := attendance_key (col 1 result) (VText month) (VText year)
                (VText session)) in *.
  destruct (select key t) as [|hit more] eqn:S.
  - unfold execute_insert in E. cbn -[next_rowid key] in E.
    rewrite no_collision in E by reflexivity. cbn [Exn.bind Exn.ret] in E.
    injection E as <- <-. split; [reflexivity|].
    unfold select in *. cbn [rows]. rewrite filter_app, S. cbn [filter app].
    replace (key _) with true.
    + split; [discriminate|]. intros s [<-|[]]. repeat split.
    + unfold key, attendance_key. cbn [col nth sql_eq].
      now rewrite NotNull, !String.eqb_refl.
  - cbn [Exn.bind Exn.ret] in E. injection E as <- <-. split; [reflexivity|].
    assert (K : forall s,
              key (if key s
                   then fold_left (fun s' kv => set_nth (fst kv) (snd kv) s')
                          [(2%nat, VText selected_class);
                           (3%nat, VText selected_section);
                           (6%nat, VInt working_days);
                           (7%nat, VInt (line_days_present line));
                           (8%nat, VReal (line_percentage line))] s
                   else s)
              = key s).
    { intro s. destruct (key s) eqn:Ks; [|exact Ks].
      unfold key, attendance_key in *.
      rewrite !update_keeps_key by (cbn [map fst In]; intuition lia).
      exact Ks. }
    unfold select, update_where in *. cbn [rows]. split.
    + assert (I : In hit (filter key (rows t))) by (rewrite S; left; reflexivity).
      apply filter_In in I. destruct I as [I Kh].
      intro Empty.
      assert (J : In (if key hit
                      then fold_left (fun s' kv => set_nth (fst kv) (snd kv) s')
                             [(2%nat, VText selected_class);
                              (3%nat, VText selected_section);
                              (6%nat, VInt working_days);
                              (7%nat, VInt (line_days_present line));
                              (8%nat, VReal (line_percentage line))] hit
                      else hit)
                     (filter key
                        (map (fun s =>
                                if key s
                                then fold_left
                                       (fun s' kv => set_nth (fst kv) (snd kv) s')
                                       [(2%nat, VText selected_class);
                                        (3%nat, VText selected_section);
                                        (6%nat, VInt working_days);
                                        (7%nat, VInt (line_days_present line));
                                        (8%nat, VReal (line_percentage line))] s
                                else s)
                             (rows t)))).
      { apply filter_In. split; [|now rewrite K].
        apply in_map_iff. exists hit. split; [reflexivity|exact I]. }
      rewrite Empty in J. destruct J.
    + intros s I. apply filter_In in I. destruct I as [I Ks].
      apply in_map_iff in I. destruct I as (s0 & <- & I0).
      rewrite K in Ks. rewrite Ks. specialize (L s0 I0).
      repeat (destruct s0 as [|? s0]; [discriminate L|]).
      destruct s0; [|discriminate L]. repeat split.
Qed.

(** X3: What the sheet shows is what is stored.  When [save_attendance]
    ends with its success box, the attendance rows of the student of the
    last line of the sheet for the month, year and session of the sheet
    (there is at least one) hold the class, the section and the working
    days of the sheet and the days present and the percentage of that
    line.  The student is the first one the name, class, section and
    session of the line select, and has a student number. *)
Theorem last_line_is_stored (front : list attendance_line)
    (line : attendance_line)
    (selected_class selected_section month year : string) (working_days : Z)
    (session : string) (db db' : database) (n : Z) (result : row)
    (others : list row) :
  forallb (sound_row attendance_def) (rows (attendance db)) = true ->
  select (fun s => sql_eq (col 2 s) (VText (line_student_name line))
                   && sql_eq (col 4 s) (VText selected_class)
                   && sql_eq (col 5 s) (VText selected_section)
                   && sql_eq (col 11 s) (VText session))
         (students db) = result :: others ->
  sql_eq (col 1 result) (col 1 result) = true ->
  save_attendance (front ++ [line]) selected_class selected_section month year
    working_days session db = (Done n, db') ->
  select (attendance_key (col 1 result) (VText month) (VText year)
            (VText session)) (attendance db') <> []
  /\ forall s,
       In s (select (attendance_key (col 1 result) (VText month) (VText year)
                       (VText session)) (attendance db')) ->
       col 2 s = VText selected_class /\ col 3 s = VText selected_section
       /\ col 6 s = VInt working_days
       /\ col 7 s = VInt (line_days_present line)
       /\ col 8 s = VReal (line_percentage line).
Proof.
  intros So Found NotNull E. unfold save_attendance in E.
  destruct (front ++ [line]) as [|l0 ls] eqn:Sheet;
    [destruct front; discriminate Sheet|].
  rewrite <- Sheet in E. clear Sheet l0 ls.
  rewrite loop_app in E.
  destruct (save_attendance_loop _ _ _ _ _ _ _ front _ _) as [e|[t1 n1]] eqn:E1;
    cbn [Exn.bind fst snd] in E; [discriminate E|].
  destruct (save_attendance_loop _ _ _ _ _ _ _ [line] _ _) as [e|[t2 n2]] eqn:E2;
    [discriminate E|].
  injection E as _ <-. cbn [attendance].
  assert (L : forall s, In s (rows t1) -> List.length s = 10%nat).
  { apply (loop_lengths _ _ _ _ _ _ _ _ _ _ E1). intros s I.
    pose proof (proj1 (forallb_forall _ _) So s I) as B.
    unfold sound_row in B. apply andb_prop in B. destruct B as [B _].
    apply Nat.eqb_eq in B. exact B. }
  destruct (@line_is_stored _ _ _ _ _ _ _ _ _ _ _ _ _ _ Found NotNull L E2)
    as (_ & N & A).
  split; assumption.
Qed.

Lemma last_line_is_stored_witness :
  march_rows school_b_saved_again <> []
  /\ forall s,
       In s (march_rows school_b_saved_again) ->
       col 2 s = VText "Class 5" /\ col 3 s = VText "A"
       /\ col 6 s = VInt 25 /\ col 7 s = VInt 10 /\ col 8 s = VReal 40.
Proof.
  refine (@last_line_is_stored []
            {| line_student_name := "Asha Rao"; line_days_present := 10;
               line_percentage := 40 |}
            "Class 5" "A" "March" "2025" 25 "2024-25" school_b
            school_b_saved_again 1
            (nth 0 (rows (students school_b)) []) [] _ _ _ _);
    reflexivity.
Defined.

End SheetFacts.

(* ================================================================== *)
(** ** What an Override restore never loses *)
(* ================================================================== *)

Module OverrideFacts.

Import PyStr Sqlite Py DatabaseManager MainWindow Scenario TableFacts.
Local Open Scope string_scope.
Local Open Scope Z_scope.
Local Open Scope list_scope.

(** What an insert that succeeds leaves in the table. *)
Lemma insert_shape (d : table_def) (q : insert_stmt)
    (params : list (exn + value)) (t t' : table) :
  execute_insert d q params t = inr t' ->
  exists new,
    rows t' = filter (fun old => negb (or_replace q && collides d new old))
                     (rows t) ++ [new].
Proof.
  unfold execute_insert.
  repeat match goal with
         | |- context [if negb ?c then inl _ else _] =>
             destruct c; cbn [negb]; [|discriminate]
         end.
  destruct (sequence params) as [e|bound]; cbn [Exn.bind Exn.ret]; [discriminate|].
  destruct (or_replace q); cbn [andb].
  - intro E. injection E as <-. eexists. reflexivity.
  - destruct (existsb _ _); [discriminate|].
    intro E. injection E as <-. eexists. cbn [rows negb].
    rewrite RoundTripFacts.filter_all; [reflexivity|reflexivity].
Qed.

Section Loops.

Variable d : table_def.
Variable q : insert_stmt.
Variable keys : list string.

(** Into a table without UNIQUE columns a restore loop only adds. *)
Lemma loop_only_adds :
  unique_columns d = [] ->
  forall (items : list object) (t : table),
    exists added,
      rows (fold_left (restore_item d q keys) items t) = rows t ++ added.
Proof.
  intros U items. induction items as [|item rest IH]; intro t.
  - exists []. cbn. now rewrite app_nil_r.
  - cbn [fold_left].
    destruct (IH (restore_item d q keys t item)) as [added E]. rewrite E.
    unfold restore_item.
    destruct (try_restore d q keys item t) as [e|t'] eqn:T;
      [exists added; reflexivity|].
    unfold try_restore in T.
    destruct (subscripts item keys) as [e|objs]; cbn [Exn.bind] in T;
      [discriminate|].
    destruct (insert_shape _ _ _ _ T) as [new R]. rewrite R.
    rewrite RoundTripFacts.filter_all.
    + exists (new :: added). now rewrite <- app_assoc.
    + intros x _. unfold collides. rewrite U. cbn [existsb].
      now rewrite andb_false_r.
Qed.

(** Into a table whose UNIQUE column is its first business column, a
    restore loop keeps every number the table holds: a row goes only when
    a row with its number comes. *)
Hypothesis collides_on_number :
  forall new old, collides d new old = sql_eq (col 1 old) (col 1 new).

Lemma loop_keeps_numbers :
  forall (items : list object) (t : table) (number : string),
    (exists s, In s (rows t) /\ col 1 s = VText number) ->
    exists s, In s (rows (fold_left (restore_item d q keys) items t))
              /\ col 1 s = VText number.
Proof.
  induction items as [|item rest IH]; intros t number H; [exact H|].
  cbn [fold_left]. apply IH. unfold restore_item.
  destruct (try_restore d q keys item t) as [e|t'] eqn:T; [exact H|].
  unfold try_restore in T.
  destruct (subscripts item keys) as [e|objs]; cbn [Exn.bind] in T;
    [discriminate|].
  destruct (insert_shape _ _ _ _ T) as [new R]. rewrite R.
  destruct H as (s & I & N).
  destruct (or_replace q && collides d new s) eqn:C.
  - exists new. split; [apply in_or_app; right; left; reflexivity|].
    apply andb_prop in C. destruct C as [_ C].
    rewrite collides_on_number, N in C.
    destruct (col 1 new); try discriminate C.
    cbn [sql_eq] in C. apply String.eqb_eq in C. now subst.
  - exists s. split; [|exact N]. apply in_or_app. left.
    apply filter_In. split; [exact I|]. now rewrite C.
Qed.

End Loops.

(** X6: An Override restore loses no record, whatever the file holds and
    however the restore ends.  The attendance rows and the salary rows
    that were there are still there, unchanged and in their order, before
    the rows the restore added; the fee payments are exactly those that
    were there; and every student number and every staff id that a row
    carried is still carried by a row. *)
Theorem override_keeps_records (reply_yes : bool)
    (file : option (exn + object)) (db : database) :
  (exists added,
     rows (attendance (snd (restore_complete_backup reply_yes file false db)))
     = rows (attendance db) ++ added)
  /\ (exists added,
        rows (salary_payments
                (snd (restore_complete_backup reply_yes file false db)))
        = rows (salary_payments db) ++ added)
  /\ rows (fee_payments (snd (restore_complete_backup reply_yes file false db)))
     = rows (fee_payments db)
  /\ (forall number,
        (exists s, In s (rows (students db)) /\ col 1 s = VText number) ->
        exists s,
          In s (rows (students
                        (snd (restore_complete_backup reply_yes file false db))))
          /\ col 1 s = VText number)
  /\ (forall number,
        (exists s, In s (rows (staff db)) /\ col 1 s = VText number) ->
        exists s,
          In s (rows (staff
                        (snd (restore_complete_backup reply_yes file false db))))
          /\ col 1 s = VText number).
Proof.
  destruct (RestoreFacts.restore_outcome reply_yes file false db)
    as [[(E1 & E2 & E3 & E4 & E5) _]
       |(doc & r & _ & _ & _ & R1 & R2 & R3 & R4 & R5)].
  - rewrite E1, E2, E3, E4, E5.
    split; [exists []; now rewrite app_nil_r|].
    split; [exists []; now rewrite app_nil_r|].
    split; [reflexivity|]. split; intros number H; exact H.
  - cbn [clear] in *.
    destruct (RestoreFacts.restore_collection_entries _ _ _ _ _ _ R1)
      as (i1 & _ & T1 & _).
    destruct (RestoreFacts.restore_collection_entries _ _ _ _ _ _ R2)
      as (i2 & _ & T2 & _).
    destruct (RestoreFacts.restore_collection_entries _ _ _ _ _ _ R3)
      as (i3 & _ & T3 & _).
    destruct (RestoreFacts.restore_collection_entries _ _ _ _ _ _ R4)
      as (i4 & _ & T4 & _).
    destruct (RestoreFacts.restore_collection_entries _ _ _ _ _ _ R5)
      as (i5 & _ & T5 & _).
    rewrite T1, T2, T3, T4, T5.
    split; [apply loop_only_adds; reflexivity|].
    split; [apply loop_only_adds; reflexivity|].
    split; [now rewrite RestoreFacts.fee_loop_unchanged|].
    split; intros number H.
    + apply loop_keeps_numbers;
        [apply StudentNumberFacts.collides_students|exact H].
    + apply loop_keeps_numbers; [apply StaffFacts.collides_staff|exact H].
Qed.

End OverrideFacts.
